(** * Agent activity simulation and conversational protocol of companyOS

    A shallow embedding of two React components of the admin front end:

    - the monitoring dashboard ([AdminMonitoringDashboard]): the alert,
      execution and data-operation generators, the seeded initial ledgers
      and the two-second interval callback that drives them;
    - the agent chat ([AgentChat]): [handleSendMessage],
      [handlePricingOptimization] and [generateAgentResponse], together
      with the [disabled] attributes of the input field and the send button.

    Conventions of the embedding.

    - [Math.random()] is an oracle [rnd : nat -> Q]: the [k]-th call of a
      run returns [rnd k], a rational of [[0,1)].  JavaScript numbers are
      read as exact rationals (a literal such as [0.95] is 95/100),
      [Math.floor] is [Qfloor].
    - React state setters with an updater ([setX(prev => ...)]) are applied
      in the order they are queued, so a setter is a state update of the
      monad in which the callbacks run.
    - [Date.now()] / [new Date()] is a parameter [now] (milliseconds) of the
      callback that reads the clock.
    - A string is held as the UTF-8 encoding of its code points.
      [toLowerCase] is the default case conversion of Unicode with the
      tables of version 14.0, [trim] removes the code points of WhiteSpace
      and LineTerminator. *)

From Stdlib Require Import List String Ascii ZArith QArith Qround Lia Lqa Bool PeanoNat
  DecimalString.
Import ListNotations.

Local Open Scope string_scope.

(** ** Numbers *)

Module Num.

Definition Qltb (x y : Q) : bool := negb (Qle_bool y x).

(** [new Date(t)] keeps the integral part of [t] (truncation towards zero). *)
Definition timeClip (t : Q) : Z :=
  if Qle_bool 0 t then Qfloor t else Qceiling t.

End Num.

(** ** Sorting *)

Module Sorting.

(** Stable insertion sort, the model of [Array.prototype.sort]:
    [precedes x y] holds when the comparison function returns a value
    [<= 0] on [(x, y)]. *)
Fixpoint insertBy {A} (precedes : A -> A -> bool) (x : A) (l : list A) : list A :=
  match l with
  | [] => [x]
  | y :: ys => if precedes x y then x :: l else y :: insertBy precedes x ys
  end.

Definition sortBy {A} (precedes : A -> A -> bool) (l : list A) : list A :=
  fold_right (insertBy precedes) [] l.

End Sorting.

(** ** Monitoring dashboard: data model *)

Module Monitoring.

Import Num Sorting.

Inductive ExecStatus := running | completed | stopped | failed.
Inductive DbOperation := INSERT | SELECT | UPDATE | DELETE.
Inductive Severity := low | medium | high.

(** Identifiers are template strings
    [`<prefix>-${Date.now()}-${Math.random().toString(36).substr(2, 9)}<suffix>`];
    the embedding keeps their components. *)
Record Ident := mkIdent {
  prefix : string;
  stamp : Z;
  salt : Q;
  suffix : option (string * nat)
}.

Module AgentExecution.
Record t := mk {
  id : Ident;
  agentName : string;
  operation : string;
  status : ExecStatus;
  startTime : Z;
  duration : Q;
  dataProcessed : Z
}.
(** [{ ...exec, duration: d }] and [{ ...exec, status: s, duration: d }]. *)
Definition with_duration (e : t) (d : Q) : t :=
  mk (id e) (agentName e) (operation e) (status e) (startTime e) d (dataProcessed e).
Definition with_status_duration (e : t) (s : ExecStatus) (d : Q) : t :=
  mk (id e) (agentName e) (operation e) s (startTime e) d (dataProcessed e).
End AgentExecution.

Module DataOperation.
Record t := mk {
  id : Ident;
  table : string;
  operation : DbOperation;
  recordsAffected : Z;
  timestamp : Z;
  agent : string
}.
End DataOperation.

Module AlertDetails.
Record t := mk {
  description : string;
  affectedOperations : list string;
  confidenceScore : option Z;
  accuracy : option Z;
  dataQuality : option Z;
  recommendation : string;
  impact : string
}.
End AlertDetails.

Module MonitoringAlert.
Record t := mk {
  id : Ident;
  agentName : string;
  reason : string;
  timestamp : Z;
  severity : Severity;
  details : AlertDetails.t
}.
(** The seeding loop overrides [timestamp] and [id] of a generated alert. *)
Definition with_timestamp_id (a : t) (ts : Z) (i : Ident) : t :=
  mk i (agentName a) (reason a) ts (severity a) (details a).
End MonitoringAlert.

(** An element of the [alertTypes] array of [generateAlert]. *)
Module AlertType.
Record t := mk {
  reason : string;
  description : string;
  operations : list string;
  recommendation : string;
  impact : string;
  severity : Severity;
  confidenceScore : option Z;
  dataQuality : option Z;
  accuracy : option Z
}.
End AlertType.

Definition isRunning (e : AgentExecution.t) : bool :=
  match AgentExecution.status e with running => true | _ => false end.

(** The catalogs shared by the initialisers and the interval effect. *)
Definition agentNames : list string :=
  [ "InventoryAgent"; "PricingAgent"; "CustomerServiceAgent"; "RecommendationAgent";
    "DataAnalysisAgent"; "MarketingAgent"; "FinancialAnalystAgent"; "SEOAgent";
    "SupplyChainAgent" ].

Definition operations : list string :=
  [ "Analyzing inventory levels"; "Processing customer data"; "Optimizing pricing strategy";
    "Generating recommendations"; "Updating product catalog"; "Processing orders";
    "Analyzing market trends"; "Optimizing supply chain"; "Managing customer queries";
    "Forecasting demand"; "Calculating ROI"; "SEO optimization" ].

Definition tables : list string :=
  [ "products"; "orders"; "customers"; "inventory"; "analytics"; "pricing";
    "recommendations" ].

(** [alertTypes], as a function of the three metric values computed while the
    array literal is evaluated. *)
Definition alertTypes (confidence quality accuracy : Z) : list AlertType.t :=
  [ AlertType.mk "Low confidence score detected"
      "AI model predictions showing reduced confidence levels below acceptable threshold"
      [ "Prediction Generation"; "Model Inference"; "Data Classification" ]
      "Review training data quality and consider model retraining"
      "Reduced prediction accuracy may affect business decisions"
      medium (Some confidence) None None;
    AlertType.mk "Data quality degradation"
      "Input data quality metrics have fallen below monitoring thresholds"
      [ "Data Ingestion"; "Feature Engineering"; "Data Validation" ]
      "Investigate data sources and implement data quality checks"
      "Poor data quality may lead to unreliable AI predictions"
      high None (Some quality) None;
    AlertType.mk "Model accuracy drift detected"
      "Significant deviation from baseline accuracy metrics observed"
      [ "Model Evaluation"; "Performance Monitoring"; "Prediction Validation" ]
      "Analyze recent data patterns and consider model recalibration"
      "Declining accuracy affects reliability of automated decisions"
      high None None (Some accuracy);
    AlertType.mk "Anomalous prediction patterns"
      "Unusual clustering or distribution of model predictions detected"
      [ "Anomaly Detection"; "Pattern Analysis"; "Statistical Monitoring" ]
      "Review input data for unexpected changes or patterns"
      "May indicate data shift or concept drift affecting performance"
      medium None None None;
    AlertType.mk "Feature importance shift"
      "Significant changes in feature importance rankings detected"
      [ "Feature Analysis"; "Model Interpretation"; "Importance Tracking" ]
      "Investigate underlying data changes and validate feature relevance"
      "May indicate concept drift or data distribution changes"
      low None None None;
    AlertType.mk "Prediction latency spike"
      "Model inference time has exceeded performance thresholds"
      [ "Inference Pipeline"; "Performance Monitoring"; "Resource Allocation" ]
      "Optimize model architecture or increase computational resources"
      "Delayed predictions may affect real-time decision making"
      medium None None None ].

(** Reading an array out of range yields [undefined]. *)
Definition undefinedAlertType : AlertType.t :=
  AlertType.mk "undefined" "undefined" [] "undefined" "undefined" low None None None.

(** [rand < 0.9 ? 'SELECT' : (rand < 0.95 ? 'INSERT' : 'UPDATE')]. *)
Definition operationOfDraw (rand : Q) : DbOperation :=
  if Qltb rand (9 # 10) then SELECT
  else if Qltb rand (95 # 100) then INSERT
  else UPDATE.

(** The index expression of the archetype choice:
    [sel < 0.7 ? 0 : Math.floor(r * (alertTypes.length - 1)) + 1]. *)
Definition otherAlertIndex (r : Q) : Z := (Qfloor (r * inject_Z 5) + 1)%Z.

(** ** The component state and the monad of its callbacks *)

(** The three ledgers held in React state, the position in the stream of
    [Math.random()] results, and the [setTimeout] callbacks registered by the
    interval callback (delay in milliseconds and the agent name captured by
    the closure). *)
Record World := mkWorld {
  cursor : nat;
  executions : list AgentExecution.t;
  dataOps : list DataOperation.t;
  alerts : list MonitoringAlert.t;
  timers : list (Z * string)
}.

Definition M (A : Type) : Type := World -> A * World.

Definition ret {A} (a : A) : M A := fun w => (a, w).
Definition bind {A B} (c : M A) (k : A -> M B) : M B :=
  fun w => let (a, w') := c w in k a w'.

Declare Scope js_scope.
Delimit Scope js_scope with js.
Notation "x <- c ;; k" := (bind c (fun x => k))
  (at level 61, c at next level, right associativity) : js_scope.
Notation "c ;; k" := (bind c (fun _ => k))
  (at level 61, right associativity) : js_scope.
Local Open Scope js_scope.

Definition setExecutions (f : list AgentExecution.t -> M (list AgentExecution.t)) : M unit :=
  fun w =>
    let (l, w') := f (executions w) w in
    (tt, mkWorld (cursor w') l (dataOps w') (alerts w') (timers w')).

Definition setDataOps (f : list DataOperation.t -> list DataOperation.t) : M unit :=
  fun w => (tt, mkWorld (cursor w) (executions w) (f (dataOps w)) (alerts w) (timers w)).

Definition setAlerts (f : list MonitoringAlert.t -> list MonitoringAlert.t) : M unit :=
  fun w => (tt, mkWorld (cursor w) (executions w) (dataOps w) (f (alerts w)) (timers w)).

Definition setTimeout (agent : string) (delay : Z) : M unit :=
  fun w => (tt, mkWorld (cursor w) (executions w) (dataOps w) (alerts w)
                  (timers w ++ [(delay, agent)])).

(** [prev.map(f)] with an effectful callback, left to right. *)
Fixpoint mapM {A B} (f : A -> M B) (l : list A) : M (list B) :=
  match l with
  | [] => ret []
  | x :: xs => y <- f x ;; ys <- mapM f xs ;; ret (y :: ys)
  end.

(** [for (let i = i0; i < bound; i++) { acc.push(body(i)) }]: the bound
    expression is evaluated again before every iteration.  [None] when the
    fuel runs out before the condition fails. *)
Fixpoint forPush {A} (fuel : nat) (i : nat) (bound : M Z) (body : nat -> M A)
    (acc : list A) : M (option (list A)) :=
  match fuel with
  | O => ret None
  | S fuel' =>
      b <- bound ;;
      if (Z.of_nat i <? b)%Z
      then x <- body i ;; forPush fuel' (S i) bound body (acc ++ [x])
      else ret (Some acc)
  end.

(** The three ledger insertions of the interval callback. *)
Definition pushExecution (e : AgentExecution.t) (prev : list AgentExecution.t) :=
  e :: firstn 49 prev.
Definition pushDataOp (d : DataOperation.t) (prev : list DataOperation.t) :=
  d :: firstn 99 prev.
Definition pushAlert (a : MonitoringAlert.t) (prev : list MonitoringAlert.t) :=
  a :: firstn 14 prev.

(** Every seeding loop exits by its condition long before this bound. *)
Definition loopFuel : nat := 64.

Section Simulation.

(** [rnd k] is the result of the [k]-th call of [Math.random()]. *)
Variable rnd : nat -> Q.

Definition random : M Q :=
  fun w => (rnd (cursor w),
            mkWorld (S (cursor w)) (executions w) (dataOps w) (alerts w) (timers w)).

(** [Math.floor(Math.random() * n)]. *)
Definition randomIndex (n : Z) : M Z :=
  r <- random ;; ret (Qfloor (r * inject_Z n)).

(** [l[Math.floor(Math.random() * l.length)]]. *)
Definition pick (l : list string) : M string :=
  i <- randomIndex (Z.of_nat (List.length l)) ;; ret (nth (Z.to_nat i) l "undefined").

Definition freshIdent (pre : string) (now : Z) (suf : option (string * nat)) : M Ident :=
  r <- random ;; ret (mkIdent pre now r suf).

(** *** [generateAlert] *)

Definition generateAlert (now : Z) (agentName : string) : M MonitoringAlert.t :=
  c <- randomIndex 30 ;;
  q <- randomIndex 25 ;;
  a <- randomIndex 15 ;;
  let types := alertTypes (c + 45) (q + 60) (a + 75) in
  sel <- random ;;
  idx <- (if Qltb sel (7 # 10) then ret 0%Z
          else r <- random ;;
               ret (Qfloor (r * inject_Z (Z.of_nat (List.length types) - 1)) + 1)%Z) ;;
  let alertType := nth (Z.to_nat idx) types undefinedAlertType in
  i <- freshIdent "alert" now None ;;
  ret (MonitoringAlert.mk i agentName (AlertType.reason alertType) now
         (AlertType.severity alertType)
         (AlertDetails.mk (AlertType.description alertType)
            (AlertType.operations alertType)
            (AlertType.confidenceScore alertType)
            (AlertType.accuracy alertType)
            (AlertType.dataQuality alertType)
            (AlertType.recommendation alertType)
            (AlertType.impact alertType))).

(** *** [generateExecution] and [generateDataOperation] *)

Definition generateExecution (now : Z) : M AgentExecution.t :=
  agent <- pick agentNames ;;
  operation <- pick operations ;;
  i <- freshIdent "exec" now None ;;
  n <- randomIndex 50000 ;;
  ret (AgentExecution.mk i agent operation running now 0 (n + 10000)).

Definition generateDataOperation (now : Z) (agent : string) : M DataOperation.t :=
  table <- pick tables ;;
  rand <- random ;;
  let operation := operationOfDraw rand in
  i <- freshIdent "data" now None ;;
  n <- randomIndex 25000 ;;
  ret (DataOperation.mk i table operation (n + 5000) now agent).

(** *** The [useState] initialisers *)

Definition seedRunning (now : Z) (i : nat) : M AgentExecution.t :=
  agent <- pick agentNames ;;
  operation <- pick operations ;;
  r <- random ;;
  let startTime := timeClip (inject_Z now - r * 15000) in
  let duration := ((inject_Z now - inject_Z startTime) / 1000)%Q in
  ident <- freshIdent "exec" now (Some ("", i)) ;;
  n <- randomIndex 50000 ;;
  ret (AgentExecution.mk ident agent operation running startTime duration (n + 10000)).

Definition seedCompleted (now : Z) (i : nat) : M AgentExecution.t :=
  agent <- pick agentNames ;;
  operation <- pick operations ;;
  r <- random ;;
  let completedTime := timeClip (inject_Z now - r * 1800000) in
  r' <- random ;;
  let duration := (3 + r' * 12)%Q in
  ident <- freshIdent "exec" now (Some ("comp", i)) ;;
  n <- randomIndex 50000 ;;
  ret (AgentExecution.mk ident agent operation completed
         (timeClip (inject_Z completedTime - duration * 1000)) duration (n + 10000)).

Definition seedStopped (now : Z) (i : nat) : M AgentExecution.t :=
  agent <- pick agentNames ;;
  operation <- pick operations ;;
  r <- random ;;
  let stoppedTime := timeClip (inject_Z now - r * 900000) in
  r' <- random ;;
  let duration := (1 + r' * 3)%Q in
  ident <- freshIdent "exec" now (Some ("stop", i)) ;;
  n <- randomIndex 30000 ;;
  ret (AgentExecution.mk ident agent operation stopped
         (timeClip (inject_Z stoppedTime - duration * 1000)) duration (n + 5000)).

Definition countBound (base range : Z) : M Z :=
  n <- randomIndex range ;; ret (base + n)%Z.

Definition optBind {A B} (c : M (option A)) (k : A -> M (option B)) : M (option B) :=
  o <- c ;; match o with Some a => k a | None => ret None end.

Definition newerExecution (a b : AgentExecution.t) : bool :=
  (AgentExecution.startTime b - AgentExecution.startTime a <=? 0)%Z.

Definition initialExecutions (now : Z) : M (option (list AgentExecution.t)) :=
  optBind (forPush loopFuel 0 (countBound 1 3) (seedRunning now) []) (fun l1 =>
  optBind (forPush loopFuel 0 (countBound 15 6) (seedCompleted now) l1) (fun l2 =>
  optBind (forPush loopFuel 0 (countBound 2 3) (seedStopped now) l2) (fun l3 =>
  ret (Some (sortBy newerExecution l3))))).

Definition seedDataOp (now : Z) (i : nat) : M DataOperation.t :=
  agent <- pick agentNames ;;
  table <- pick tables ;;
  rand <- random ;;
  let operation := operationOfDraw rand in
  r <- random ;;
  let timestamp := timeClip (inject_Z now - r * 1800000) in
  ident <- freshIdent "data" now (Some ("", i)) ;;
  n <- randomIndex 25000 ;;
  ret (DataOperation.mk ident table operation (n + 5000) timestamp agent).

Definition newerDataOp (a b : DataOperation.t) : bool :=
  (DataOperation.timestamp b - DataOperation.timestamp a <=? 0)%Z.

Definition initialDataOps (now : Z) : M (option (list DataOperation.t)) :=
  optBind (forPush loopFuel 0 (countBound 20 11) (seedDataOp now) []) (fun l =>
  ret (Some (sortBy newerDataOp l))).

Definition seedAlert (now : Z) (i : nat) : M MonitoringAlert.t :=
  agent <- pick agentNames ;;
  r <- random ;;
  let timestamp := timeClip (inject_Z now - r * 900000) in
  alert <- generateAlert now agent ;;
  ident <- freshIdent "alert" now (Some ("", i)) ;;
  ret (MonitoringAlert.with_timestamp_id alert timestamp ident).

Definition newerAlert (a b : MonitoringAlert.t) : bool :=
  (MonitoringAlert.timestamp b - MonitoringAlert.timestamp a <=? 0)%Z.

Definition initialAlerts (now : Z) : M (option (list MonitoringAlert.t)) :=
  optBind (forPush loopFuel 0 (countBound 1 3) (seedAlert now) []) (fun l =>
  ret (Some (sortBy newerAlert l))).

(** The first render: the three initialisers run in declaration order,
    starting at stream position [k0]. *)
Definition initialWorld (k0 : nat) (now : Z) : option World :=
  let (oe, w1) := initialExecutions now (mkWorld k0 [] [] [] []) in
  let (od, w2) := initialDataOps now w1 in
  let (oa, w3) := initialAlerts now w2 in
  match oe, od, oa with
  | Some e, Some d, Some a => Some (mkWorld (cursor w3) e d a [])
  | _, _, _ => None
  end.

(** *** The interval callback *)

(** First [setExecutions]: the spawn check. *)
Definition spawnCheck (now : Z) (prev : list AgentExecution.t)
  : M (list AgentExecution.t) :=
  let runningCount := List.length (filter isRunning prev) in
  go <- (if (runningCount =? 0)%nat then ret true
         else if (runningCount <? 3)%nat
              then r <- random ;; ret (Qltb r (4 # 10))
              else ret false) ;;
  if go : bool
  then newExecution <- generateExecution now ;;
       ret (pushExecution newExecution prev)
  else ret prev.

Fixpoint forEach {A} (l : list A) (body : A -> M unit) : M unit :=
  match l with
  | [] => ret tt
  | x :: xs => body x ;; forEach xs body
  end.

(** Second [setExecutions]: the callback of [prev.map]. *)
Definition updateExecution (now : Z) (exec : AgentExecution.t) : M AgentExecution.t :=
  if isRunning exec then
    let newDuration := (AgentExecution.duration exec + 2)%Q in
    r1 <- random ;;
    (if Qltb r1 (3 # 10)
     then dataOp <- generateDataOperation now (AgentExecution.agentName exec) ;;
          setDataOps (pushDataOp dataOp)
     else ret tt) ;;
    r2 <- random ;;
    if Qltb r2 (2 # 100) then
      alert <- generateAlert now (AgentExecution.agentName exec) ;;
      setAlerts (pushAlert alert) ;;
      ret (AgentExecution.with_status_duration exec stopped newDuration)
    else
      r3 <- random ;;
      if Qltb (3 + r3 * 12) newDuration then
        n <- randomIndex 2 ;;
        let numOps := (n + 1)%Z in
        forEach (seq 0 (Z.to_nat numOps))
          (fun i => setTimeout (AgentExecution.agentName exec) (Z.of_nat i * 200)) ;;
        ret (AgentExecution.with_status_duration exec completed newDuration)
      else ret (AgentExecution.with_duration exec newDuration)
  else ret exec.

(** The [setTimeout] callbacks registered during a tick fire before the next
    tick, earliest delay first, equal delays in registration order. *)
Definition fireTimer (now : Z) (t : Z * string) : M unit :=
  dataOp <- generateDataOperation (now + fst t) (snd t) ;;
  setDataOps (pushDataOp dataOp).

Definition takeTimers : M (list (Z * string)) :=
  fun w => (timers w, mkWorld (cursor w) (executions w) (dataOps w) (alerts w) []).

Definition earlierTimer (a b : Z * string) : bool := (fst a <=? fst b)%Z.

Definition runTimers (now : Z) : M unit :=
  ts <- takeTimers ;; forEach (sortBy earlierTimer ts) (fireTimer now).

Definition tick (now : Z) : M unit :=
  setExecutions (spawnCheck now) ;;
  setExecutions (mapM (updateExecution now)) ;;
  runTimers now.

(** Other components may call [Math.random()] between two ticks. *)
Definition skipDraws (n : nat) (w : World) : World :=
  mkWorld (n + cursor w) (executions w) (dataOps w) (alerts w) (timers w).

Inductive reachable : World -> Prop :=
| reach_init k0 now w : initialWorld k0 now = Some w -> reachable w
| reach_skip n w : reachable w -> reachable (skipDraws n w)
| reach_tick now w : reachable w -> reachable (snd (tick now w)).

Definition runningCount (w : World) : nat :=
  List.length (filter isRunning (executions w)).

End Simulation.


(** ** Vocabulary of the properties *)

(** The position of the archetype of an alert in the [alertTypes] array,
    read off its [reason]. *)
Fixpoint indexOf (s : string) (l : list string) (i : nat) : option nat :=
  match l with
  | [] => None
  | x :: xs => if (x =? s)%string then Some i else indexOf s xs (S i)
  end.

Definition archetype (a : MonitoringAlert.t) : option nat :=
  indexOf (MonitoringAlert.reason a) (map AlertType.reason (alertTypes 0 0 0)) 0.

Definition populated (o : option Z) : nat :=
  match o with Some _ => 1 | None => 0 end.

Definition isSelect (o : DbOperation) : bool :=
  match o with SELECT => true | _ => false end.

(** Concrete streams of draws. *)
Definition constStream (q : Q) : nat -> Q := fun _ => q.
Definition listStream (l : list Q) (d : Q) : nat -> Q := fun k => nth k l d.

Definition emptyWorld : World := mkWorld 0 [] [] [] [].

(** The dashboard as first rendered at time [t0] when every draw is 0.01,
    and one tick later. *)
Definition t0 : Z := 1700000000000.

Definition seededWorld : World :=
  match initialWorld (constStream (1 # 100)) 0 t0 with
  | Some w => w
  | None => emptyWorld
  end.

Definition haltedWorld : World :=
  snd (tick (constStream (1 # 100)) (t0 + 2000) seededWorld).

(** A running execution two seconds old. *)
Definition youngExecution : AgentExecution.t :=
  AgentExecution.mk (mkIdent "exec" t0 (1 # 2) None) "PricingAgent" "Processing orders"
    running t0 2 35000.

(** The draw [k / (10 n)] of a uniform grid of [10 n] points of [[0,1)]. *)
Definition gridDraw (n k : nat) : Q := Z.of_nat k # Pos.of_nat (10 * n).

Definition alertOf (now : Z) (agentName : string) (t : AlertType.t) (salt : Q)
  : MonitoringAlert.t :=
  MonitoringAlert.mk (mkIdent "alert" now salt None) agentName (AlertType.reason t) now
    (AlertType.severity t)
    (AlertDetails.mk (AlertType.description t) (AlertType.operations t)
       (AlertType.confidenceScore t) (AlertType.accuracy t) (AlertType.dataQuality t)
       (AlertType.recommendation t) (AlertType.impact t)).

(** The array literal built by a call that starts at stream position [k]. *)
Definition drawnTypes (rnd : nat -> Q) (k : nat) : list AlertType.t :=
  alertTypes (Qfloor (rnd k * inject_Z 30) + 45)
             (Qfloor (rnd (1 + k)%nat * inject_Z 25) + 60)
             (Qfloor (rnd (2 + k)%nat * inject_Z 15) + 75).

(** The work a running execution may emit, then the decision on its status:
    the two halves of the callback for a running execution. *)
Definition emitWork (rnd : nat -> Q) (now : Z) (exec : AgentExecution.t) : M unit :=
  r1 <- random rnd ;;
  if Qltb r1 (3 # 10)
  then dataOp <- generateDataOperation rnd now (AgentExecution.agentName exec) ;;
       setDataOps (pushDataOp dataOp)
  else ret tt.

Definition settle (rnd : nat -> Q) (now : Z) (exec : AgentExecution.t) : M AgentExecution.t :=
  let newDuration := (AgentExecution.duration exec + 2)%Q in
  r2 <- random rnd ;;
  if Qltb r2 (2 # 100) then
    alert <- generateAlert rnd now (AgentExecution.agentName exec) ;;
    setAlerts (pushAlert alert) ;;
    ret (AgentExecution.with_status_duration exec stopped newDuration)
  else
    r3 <- random rnd ;;
    if Qltb (3 + r3 * 12) newDuration then
      n <- randomIndex rnd 2 ;;
      let numOps := (n + 1)%Z in
      forEach (seq 0 (Z.to_nat numOps))
        (fun i => setTimeout (AgentExecution.agentName exec) (Z.of_nat i * 200)) ;;
      ret (AgentExecution.with_status_duration exec completed newDuration)
    else ret (AgentExecution.with_duration exec newDuration).

(** The stop draw and the draw of the completion threshold. *)
Definition stopDraw (rnd : nat -> Q) (w1 : World) : Q := rnd (cursor w1).
Definition thresholdDraw (rnd : nat -> Q) (w1 : World) : Q := rnd (S (cursor w1)).

(** An execution that has been running for twenty seconds. *)
Definition matureExecution : AgentExecution.t :=
  AgentExecution.mk (mkIdent "exec" t0 (1 # 2) None) "InventoryAgent" "Forecasting demand"
    running t0 20 42000.

(** The insertion shared by the three ledgers: put the new entry in front
    and keep the first [cap] entries. *)
Definition pushCapped {A} (cap : nat) (x : A) (l : list A) : list A :=
  firstn cap (x :: l).

Definition respects {A} (R : World -> World -> Prop) (c : M A) : Prop :=
  forall w, R w (snd (c w)).

(** How a tick may change the two append-only ledgers: a sequence of
    insertions, oldest first. *)
Definition ledgerStep (w w' : World) : Prop :=
  (exists ds, dataOps w' = fold_left (fun l d => pushDataOp d l) ds (dataOps w)) /\
  (exists al, alerts w' = fold_left (fun l a => pushAlert a l) al (alerts w)).

Definition keepsExecutions (w w' : World) : Prop := executions w' = executions w.

Definition admissible (e : AgentExecution.t) : Prop :=
  AgentExecution.status e <> failed.

Definition withinCapacity (w : World) : Prop :=
  (List.length (executions w) <= 50)%nat /\
  (List.length (dataOps w) <= 100)%nat /\
  (List.length (alerts w) <= 15)%nat.

(** [l'] comes from [l] by a sequence of capped insertions, oldest first. *)
Definition insertions {A} (cap : nat) (l l' : list A) : Prop :=
  exists xs, l' = fold_left (fun acc x => pushCapped cap x acc) xs l.

(** A sequence of ticks, one per clock reading. *)
Definition runTicks (rnd : nat -> Q) (nows : list Z) (w : World) : World :=
  fold_left (fun st now => snd (tick rnd now st)) nows w.

Definition executionIds (w : World) : list Ident :=
  map AgentExecution.id (executions w).

(** ** The entries handed to the ledgers

    What the callbacks of a tick pass to the three updaters
    [prev => [x, ...prev.slice(0, cap - 1)]], in the order of the calls;
    the ledgers themselves are not read. *)

(** The callback of [prev.map], for the execution it finds in world [w]:
    the data operation of the 30% branch and the alert of the 2% branch. *)
Definition workLog (rnd : nat -> Q) (now : Z) (exec : AgentExecution.t) (w : World)
  : list DataOperation.t :=
  if isRunning exec && Qltb (rnd (cursor w)) (3 # 10)
  then [fst (generateDataOperation rnd now (AgentExecution.agentName exec) (skipDraws 1 w))]
  else [].

Definition stopLog (rnd : nat -> Q) (now : Z) (exec : AgentExecution.t) (w : World)
  : list MonitoringAlert.t :=
  let w1 := snd (emitWork rnd now exec w) in
  if isRunning exec && Qltb (stopDraw rnd w1) (2 # 100)
  then [fst (generateAlert rnd now (AgentExecution.agentName exec) (skipDraws 1 w1))]
  else [].

Fixpoint updateLog (rnd : nat -> Q) (now : Z) (l : list AgentExecution.t) (w : World)
  : list DataOperation.t * list MonitoringAlert.t :=
  match l with
  | [] => ([], [])
  | exec :: l' =>
      let rest := updateLog rnd now l' (snd (updateExecution rnd now exec w)) in
      ((workLog rnd now exec w ++ fst rest)%list,
       (stopLog rnd now exec w ++ snd rest)%list)
  end.

(** The [setTimeout] callbacks, in the order in which they fire. *)
Fixpoint timerLog (rnd : nat -> Q) (now : Z) (ts : list (Z * string)) (w : World)
  : list DataOperation.t :=
  match ts with
  | [] => []
  | t :: ts' =>
      fst (generateDataOperation rnd (now + fst t) (snd t) w)
      :: timerLog rnd now ts' (snd (fireTimer rnd now t w))
  end.

(** The spawn check: its condition and the execution it puts in front. *)
Definition spawnDue (rnd : nat -> Q) (w : World) : bool :=
  (runningCount w =? 0)%nat
  || ((runningCount w <? 3)%nat && Qltb (rnd (cursor w)) (4 # 10)).

Definition spawnLog (rnd : nat -> Q) (now : Z) (w : World) : list AgentExecution.t :=
  if spawnDue rnd w
  then [fst (generateExecution rnd now
               (if (runningCount w =? 0)%nat then w else skipDraws 1 w))]
  else [].

Record TickLog := mkTickLog {
  spawned : list AgentExecution.t;
  written : list DataOperation.t;
  raised : list MonitoringAlert.t
}.

Definition tickLog (rnd : nat -> Q) (now : Z) (w : World) : TickLog :=
  let w1 := snd (setExecutions (spawnCheck rnd now) w) in
  let w2 := snd (setExecutions (mapM (updateExecution rnd now)) w1) in
  let updates := updateLog rnd now (executions w1) w1 in
  mkTickLog (spawnLog rnd now w)
    (fst updates
     ++ timerLog rnd now (sortBy earlierTimer (timers w2)) (snd (takeTimers w2)))%list
    (snd updates).

Fixpoint runLog (rnd : nat -> Q) (nows : list Z) (w : World) : TickLog :=
  match nows with
  | [] => mkTickLog [] [] []
  | now :: nows' =>
      let first := tickLog rnd now w in
      let rest := runLog rnd nows' (snd (tick rnd now w)) in
      mkTickLog (spawned first ++ spawned rest)%list
        (written first ++ written rest)%list (raised first ++ raised rest)%list
  end.

(** The clock readings of [n] ticks that follow the tick of [haltedWorld],
    and the dashboard they lead to when every draw is 0.01: each of them
    spawns, serves and stops one execution. *)
Definition laterTicks (n : nat) : list Z :=
  map (fun i => (t0 + 2000 * Z.of_nat i)%Z) (seq 2 n).

Definition saturatedWorld : World :=
  runTicks (constStream (1 # 100)) (laterTicks 80) haltedWorld.

End Monitoring.

(** ** Monitoring dashboard: what is rendered *)

Module DashboardView.

Import Monitoring.

Definition isCompleted (e : AgentExecution.t) : bool :=
  match AgentExecution.status e with completed => true | _ => false end.

Definition isStopped (e : AgentExecution.t) : bool :=
  match AgentExecution.status e with stopped => true | _ => false end.

(** The derived lists of the render. *)
Definition runningExecutions (w : World) : list AgentExecution.t :=
  filter isRunning (executions w).
Definition completedExecutions (w : World) : list AgentExecution.t :=
  filter isCompleted (executions w).
Definition stoppedExecutions (w : World) : list AgentExecution.t :=
  filter isStopped (executions w).
Definition recentDataOps (w : World) : list DataOperation.t := firstn 10 (dataOps w).
Definition recentAlerts (w : World) : list MonitoringAlert.t := firstn 5 (alerts w).
Definition recentExecutions (w : World) : list AgentExecution.t :=
  firstn 10 (executions w).

Inductive Icon :=
| ShoppingCartIcon | CurrencyDollarIcon | ChatBubbleLeftRightIcon | SparklesIcon
| ChartBarIcon | BoltIcon | EyeIcon | ArrowTrendingUpIcon | CpuChipIcon
| ArrowPathIcon | CheckCircleIcon | XCircleIcon.

Definition agentIcons : list (string * Icon) :=
  [ ("InventoryAgent", ShoppingCartIcon);
    ("PricingAgent", CurrencyDollarIcon);
    ("CustomerServiceAgent", ChatBubbleLeftRightIcon);
    ("RecommendationAgent", SparklesIcon);
    ("DataAnalysisAgent", ChartBarIcon);
    ("MarketingAgent", BoltIcon);
    ("FinancialAnalystAgent", CurrencyDollarIcon);
    ("SEOAgent", EyeIcon);
    ("SupplyChainAgent", ArrowTrendingUpIcon) ].

Fixpoint lookup {A} (key : string) (o : list (string * A)) : option A :=
  match o with
  | [] => None
  | (k, v) :: o' => if (k =? key)%string then Some v else lookup key o'
  end.

(** [agentIcons[exec.agentName] || CpuChipIcon]. *)
Definition iconComponent (agentName : string) : Icon :=
  match lookup agentName agentIcons with
  | Some icon => icon
  | None => CpuChipIcon
  end.

(** The status icons of a row of "Recent Executions": one conditional
    element per status. *)
Definition statusIcons (e : AgentExecution.t) : list Icon :=
  (if isRunning e then [ArrowPathIcon] else [])
  ++ (if isCompleted e then [CheckCircleIcon] else [])
  ++ (if isStopped e then [XCircleIcon] else []).

(** Which of the three panels show their placeholder. *)
Definition noActiveExecutions (w : World) : bool :=
  (List.length (runningExecutions w) =? 0)%nat.
Definition noDataOperations (w : World) : bool :=
  (List.length (recentDataOps w) =? 0)%nat.
Definition allSystemsNormal (w : World) : bool :=
  (List.length (recentAlerts w) =? 0)%nat.

(** [x && <element>] on an optional number: rendered when [x] is truthy. *)
Definition truthy (o : option Z) : bool :=
  match o with
  | Some v => negb (v =? 0)%Z
  | None => false
  end.

(** The "Metrics" block of the alert dialog and the colour of each metric. *)
Definition metricsShown (d : AlertDetails.t) : bool :=
  truthy (AlertDetails.confidenceScore d) || truthy (AlertDetails.accuracy d)
  || truthy (AlertDetails.dataQuality d).

Definition confidenceClass (v : Z) : string :=
  if (v <? 60)%Z then "text-red-600"
  else if (v <? 80)%Z then "text-yellow-600" else "text-green-600".

Definition accuracyClass (v : Z) : string :=
  if (v <? 80)%Z then "text-red-600"
  else if (v <? 90)%Z then "text-yellow-600" else "text-green-600".

Definition dataQualityClass (v : Z) : string :=
  if (v <? 70)%Z then "text-red-600"
  else if (v <? 85)%Z then "text-yellow-600" else "text-green-600".

(** The colour classes of the metrics the dialog renders for an alert. *)
Definition metricClasses (d : AlertDetails.t) : list string :=
  (if truthy (AlertDetails.confidenceScore d)
   then match AlertDetails.confidenceScore d with
        | Some v => [confidenceClass v] | None => [] end
   else [])
  ++ (if truthy (AlertDetails.accuracy d)
      then match AlertDetails.accuracy d with
           | Some v => [accuracyClass v] | None => [] end
      else [])
  ++ (if truthy (AlertDetails.dataQuality d)
      then match AlertDetails.dataQuality d with
           | Some v => [dataQualityClass v] | None => [] end
      else []).

(** The agent names, in list order, of the executions that were running in
    [l] and are stopped at the same position of [l']. *)
Fixpoint stoppedAgents (l l' : list AgentExecution.t) : list string :=
  match l, l' with
  | e :: r, e' :: r' =>
      if isRunning e && isStopped e'
      then AgentExecution.agentName e :: stoppedAgents r r'
      else stoppedAgents r r'
  | _, _ => []
  end.

(** The executions handed to the update map of a tick: the ledger after the
    spawn check. *)
Definition afterSpawn (rnd : nat -> Q) (now : Z) (w : World) : list AgentExecution.t :=
  fst (spawnCheck rnd now (executions w) w).

(** An execution built from the catalogs. *)
Definition catalogued (e : AgentExecution.t) : Prop :=
  In (AgentExecution.agentName e) agentNames /\
  In (AgentExecution.operation e) operations /\
  (5000 <= AgentExecution.dataProcessed e < 60000)%Z.

(** What the "Active Executions" panel may show as the age of a row. *)
Definition youngEnough (e : AgentExecution.t) : Prop :=
  isRunning e = true -> (0 <= AgentExecution.duration e <= 15)%Q.

(** Worlds that differ at most in the stream position. *)
Definition sameLedgers (w w' : World) : Prop :=
  executions w' = executions w /\ dataOps w' = dataOps w /\
  alerts w' = alerts w /\ timers w' = timers w.

(** The alerts ledger and the registered timers are kept. *)
Definition sameAlerts (w w' : World) : Prop := alerts w' = alerts w.
Definition sameTimers (w w' : World) : Prop := timers w' = timers w.

Definition sameDataOps (w w' : World) : Prop := dataOps w' = dataOps w.

(** From [w] to [w'] data operations were only inserted for agents of [S],
    and timers only registered for agents of [S]. *)
Definition attributedStep (S : list string) (w w' : World) : Prop :=
  Forall (fun t => In (snd t) S) (timers w) ->
  Forall (fun t => In (snd t) S) (timers w') /\
  exists ds, dataOps w' = fold_left (fun acc d => pushDataOp d acc) ds (dataOps w) /\
             Forall (fun d => In (DataOperation.agent d) S) ds.

(** The agents of the running executions of a list. *)
Definition runningAgents (l : list AgentExecution.t) : list string :=
  map AgentExecution.agentName (filter isRunning l).

End DashboardView.
(** ** JavaScript strings *)

Module Js.

Local Open Scope Z_scope.

(** A string value is held as the UTF-8 encoding of its code points (the
    encoding of this file, so a literal of the source is the same literal
    here).  The functions that look inside a character decode it first. *)

Definition byteOf (c : ascii) : Z := Z.of_nat (nat_of_ascii c).
Definition charOf (b : Z) : ascii := ascii_of_nat (Z.to_nat b).

Definition isContinuation (b : Z) : bool := (0x80 <=? b) && (b <? 0xC0).

(** A byte that belongs to no encoded code point is kept as it is; it is
    counted above the last code point. *)
Definition stray (b : Z) : Z := 0x110000 + b.

Fixpoint codePoints (s : string) : list Z :=
  match s with
  | EmptyString => []
  | String a0 s1 =>
      let b0 := byteOf a0 in
      if b0 <? 0x80 then b0 :: codePoints s1
      else
        match s1 with
        | EmptyString => [stray b0]
        | String a1 s2 =>
            let b1 := byteOf a1 in
            if (0xC0 <=? b0) && (b0 <? 0xE0) && isContinuation b1
            then ((b0 - 0xC0) * 0x40 + (b1 - 0x80)) :: codePoints s2
            else
              match s2 with
              | EmptyString => stray b0 :: codePoints s1
              | String a2 s3 =>
                  let b2 := byteOf a2 in
                  if (0xE0 <=? b0) && (b0 <? 0xF0) && isContinuation b1 && isContinuation b2
                  then ((b0 - 0xE0) * 0x1000 + (b1 - 0x80) * 0x40 + (b2 - 0x80))
                       :: codePoints s3
                  else
                    match s3 with
                    | EmptyString => stray b0 :: codePoints s1
                    | String a3 s4 =>
                        let b3 := byteOf a3 in
                        if (0xF0 <=? b0) && (b0 <? 0xF8) && isContinuation b1
                           && isContinuation b2 && isContinuation b3
                        then ((b0 - 0xF0) * 0x40000 + (b1 - 0x80) * 0x1000
                              + (b2 - 0x80) * 0x40 + (b3 - 0x80)) :: codePoints s4
                        else stray b0 :: codePoints s1
                    end
              end
        end
  end.

Definition bytes (l : list Z) : string :=
  fold_right (fun b s => String (charOf b) s) EmptyString l.

Definition fromCodePoint (c : Z) : string :=
  if c <? 0x80 then bytes [c]
  else if c <? 0x800 then bytes [0xC0 + c / 0x40; 0x80 + c mod 0x40]
  else if c <? 0x10000
       then bytes [0xE0 + c / 0x1000; 0x80 + (c / 0x40) mod 0x40; 0x80 + c mod 0x40]
  else if c <? 0x110000
       then bytes [0xF0 + c / 0x40000; 0x80 + (c / 0x1000) mod 0x40;
                   0x80 + (c / 0x40) mod 0x40; 0x80 + c mod 0x40]
  else bytes [c - 0x110000].

Definition fromCodePoints (l : list Z) : string :=
  fold_right (fun c s => (fromCodePoint c ++ s)%string) EmptyString l.

(** *** [String.prototype.toLowerCase] *)

(** The lower-case mappings of the Unicode Character Database (version
    14.0): [(first, last, step, delta)] maps the code points [first],
    [first + step], ..., [last] to themselves plus [delta].  The entries are
    in ascending order of [first]. *)
Definition lowerCaseRanges : list (Z * Z * Z * Z) :=
  [
    (0x41, 0x5A, 1, 32); (0xC0, 0xD6, 1, 32); (0xD8, 0xDE, 1, 32);
    (0x100, 0x12E, 2, 1); (0x132, 0x136, 2, 1); (0x139, 0x147, 2, 1);
    (0x14A, 0x176, 2, 1); (0x178, 0x178, 1, (-121)); (0x179, 0x17D, 2, 1);
    (0x181, 0x181, 1, 210); (0x182, 0x184, 2, 1); (0x186, 0x186, 1, 206);
    (0x187, 0x187, 1, 1); (0x189, 0x18A, 1, 205); (0x18B, 0x18B, 1, 1);
    (0x18E, 0x18E, 1, 79); (0x18F, 0x18F, 1, 202); (0x190, 0x190, 1, 203);
    (0x191, 0x191, 1, 1); (0x193, 0x193, 1, 205); (0x194, 0x194, 1, 207);
    (0x196, 0x196, 1, 211); (0x197, 0x197, 1, 209); (0x198, 0x198, 1, 1);
    (0x19C, 0x19C, 1, 211); (0x19D, 0x19D, 1, 213); (0x19F, 0x19F, 1, 214);
    (0x1A0, 0x1A4, 2, 1); (0x1A6, 0x1A6, 1, 218); (0x1A7, 0x1A7, 1, 1);
    (0x1A9, 0x1A9, 1, 218); (0x1AC, 0x1AC, 1, 1); (0x1AE, 0x1AE, 1, 218);
    (0x1AF, 0x1AF, 1, 1); (0x1B1, 0x1B2, 1, 217); (0x1B3, 0x1B5, 2, 1);
    (0x1B7, 0x1B7, 1, 219); (0x1B8, 0x1B8, 1, 1); (0x1BC, 0x1BC, 1, 1);
    (0x1C4, 0x1C4, 1, 2); (0x1C5, 0x1C5, 1, 1); (0x1C7, 0x1C7, 1, 2);
    (0x1C8, 0x1C8, 1, 1); (0x1CA, 0x1CA, 1, 2); (0x1CB, 0x1DB, 2, 1);
    (0x1DE, 0x1EE, 2, 1); (0x1F1, 0x1F1, 1, 2); (0x1F2, 0x1F4, 2, 1);
    (0x1F6, 0x1F6, 1, (-97)); (0x1F7, 0x1F7, 1, (-56)); (0x1F8, 0x21E, 2, 1);
    (0x220, 0x220, 1, (-130)); (0x222, 0x232, 2, 1); (0x23A, 0x23A, 1, 10795);
    (0x23B, 0x23B, 1, 1); (0x23D, 0x23D, 1, (-163)); (0x23E, 0x23E, 1, 10792);
    (0x241, 0x241, 1, 1); (0x243, 0x243, 1, (-195)); (0x244, 0x244, 1, 69);
    (0x245, 0x245, 1, 71); (0x246, 0x24E, 2, 1); (0x370, 0x372, 2, 1);
    (0x376, 0x376, 1, 1); (0x37F, 0x37F, 1, 116); (0x386, 0x386, 1, 38);
    (0x388, 0x38A, 1, 37); (0x38C, 0x38C, 1, 64); (0x38E, 0x38F, 1, 63);
    (0x391, 0x3A1, 1, 32); (0x3A3, 0x3AB, 1, 32); (0x3CF, 0x3CF, 1, 8);
    (0x3D8, 0x3EE, 2, 1); (0x3F4, 0x3F4, 1, (-60)); (0x3F7, 0x3F7, 1, 1);
    (0x3F9, 0x3F9, 1, (-7)); (0x3FA, 0x3FA, 1, 1); (0x3FD, 0x3FF, 1, (-130));
    (0x400, 0x40F, 1, 80); (0x410, 0x42F, 1, 32); (0x460, 0x480, 2, 1);
    (0x48A, 0x4BE, 2, 1); (0x4C0, 0x4C0, 1, 15); (0x4C1, 0x4CD, 2, 1);
    (0x4D0, 0x52E, 2, 1); (0x531, 0x556, 1, 48); (0x10A0, 0x10C5, 1, 7264);
    (0x10C7, 0x10C7, 1, 7264); (0x10CD, 0x10CD, 1, 7264); (0x13A0, 0x13EF, 1, 38864);
    (0x13F0, 0x13F5, 1, 8); (0x1C90, 0x1CBA, 1, (-3008)); (0x1CBD, 0x1CBF, 1, (-3008));
    (0x1E00, 0x1E94, 2, 1); (0x1E9E, 0x1E9E, 1, (-7615)); (0x1EA0, 0x1EFE, 2, 1);
    (0x1F08, 0x1F0F, 1, (-8)); (0x1F18, 0x1F1D, 1, (-8)); (0x1F28, 0x1F2F, 1, (-8));
    (0x1F38, 0x1F3F, 1, (-8)); (0x1F48, 0x1F4D, 1, (-8)); (0x1F59, 0x1F5F, 2, (-8));
    (0x1F68, 0x1F6F, 1, (-8)); (0x1F88, 0x1F8F, 1, (-8)); (0x1F98, 0x1F9F, 1, (-8));
    (0x1FA8, 0x1FAF, 1, (-8)); (0x1FB8, 0x1FB9, 1, (-8)); (0x1FBA, 0x1FBB, 1, (-74));
    (0x1FBC, 0x1FBC, 1, (-9)); (0x1FC8, 0x1FCB, 1, (-86)); (0x1FCC, 0x1FCC, 1, (-9));
    (0x1FD8, 0x1FD9, 1, (-8)); (0x1FDA, 0x1FDB, 1, (-100)); (0x1FE8, 0x1FE9, 1, (-8));
    (0x1FEA, 0x1FEB, 1, (-112)); (0x1FEC, 0x1FEC, 1, (-7)); (0x1FF8, 0x1FF9, 1, (-128));
    (0x1FFA, 0x1FFB, 1, (-126)); (0x1FFC, 0x1FFC, 1, (-9)); (0x2126, 0x2126, 1, (-7517));
    (0x212A, 0x212A, 1, (-8383)); (0x212B, 0x212B, 1, (-8262)); (0x2132, 0x2132, 1, 28);
    (0x2160, 0x216F, 1, 16); (0x2183, 0x2183, 1, 1); (0x24B6, 0x24CF, 1, 26);
    (0x2C00, 0x2C2F, 1, 48); (0x2C60, 0x2C60, 1, 1); (0x2C62, 0x2C62, 1, (-10743));
    (0x2C63, 0x2C63, 1, (-3814)); (0x2C64, 0x2C64, 1, (-10727)); (0x2C67, 0x2C6B, 2, 1);
    (0x2C6D, 0x2C6D, 1, (-10780)); (0x2C6E, 0x2C6E, 1, (-10749)); (0x2C6F, 0x2C6F, 1, (-10783));
    (0x2C70, 0x2C70, 1, (-10782)); (0x2C72, 0x2C72, 1, 1); (0x2C75, 0x2C75, 1, 1);
    (0x2C7E, 0x2C7F, 1, (-10815)); (0x2C80, 0x2CE2, 2, 1); (0x2CEB, 0x2CED, 2, 1);
    (0x2CF2, 0x2CF2, 1, 1); (0xA640, 0xA66C, 2, 1); (0xA680, 0xA69A, 2, 1);
    (0xA722, 0xA72E, 2, 1); (0xA732, 0xA76E, 2, 1); (0xA779, 0xA77B, 2, 1);
    (0xA77D, 0xA77D, 1, (-35332)); (0xA77E, 0xA786, 2, 1); (0xA78B, 0xA78B, 1, 1);
    (0xA78D, 0xA78D, 1, (-42280)); (0xA790, 0xA792, 2, 1); (0xA796, 0xA7A8, 2, 1);
    (0xA7AA, 0xA7AA, 1, (-42308)); (0xA7AB, 0xA7AB, 1, (-42319)); (0xA7AC, 0xA7AC, 1, (-42315));
    (0xA7AD, 0xA7AD, 1, (-42305)); (0xA7AE, 0xA7AE, 1, (-42308)); (0xA7B0, 0xA7B0, 1, (-42258));
    (0xA7B1, 0xA7B1, 1, (-42282)); (0xA7B2, 0xA7B2, 1, (-42261)); (0xA7B3, 0xA7B3, 1, 928);
    (0xA7B4, 0xA7C2, 2, 1); (0xA7C4, 0xA7C4, 1, (-48)); (0xA7C5, 0xA7C5, 1, (-42307));
    (0xA7C6, 0xA7C6, 1, (-35384)); (0xA7C7, 0xA7C9, 2, 1); (0xA7D0, 0xA7D0, 1, 1);
    (0xA7D6, 0xA7D8, 2, 1); (0xA7F5, 0xA7F5, 1, 1); (0xFF21, 0xFF3A, 1, 32);
    (0x10400, 0x10427, 1, 40); (0x104B0, 0x104D3, 1, 40); (0x10570, 0x10594, 2, 39);
    (0x10571, 0x10579, 2, 39); (0x1057D, 0x10589, 2, 39); (0x1058D, 0x10591, 2, 39);
    (0x10595, 0x10595, 1, 39); (0x10C80, 0x10CB2, 1, 64); (0x118A0, 0x118BF, 1, 32);
    (0x16E40, 0x16E5F, 1, 32); (0x1E900, 0x1E921, 1, 34) ].

(** The code points with the property Case_Ignorable, and those with the
    property Cased, as closed intervals in ascending order. *)
Definition caseIgnorableRanges : list (Z * Z) :=
  [
    (0x27, 0x27); (0x2E, 0x2E); (0x3A, 0x3A); (0x5E, 0x5E); (0x60, 0x60);
    (0xA8, 0xA8); (0xAD, 0xAD); (0xAF, 0xAF); (0xB4, 0xB4); (0xB7, 0xB8);
    (0x2B0, 0x36F); (0x374, 0x375); (0x37A, 0x37A); (0x384, 0x385); (0x387, 0x387);
    (0x483, 0x489); (0x559, 0x559); (0x55F, 0x55F); (0x591, 0x5BD); (0x5BF, 0x5BF);
    (0x5C1, 0x5C2); (0x5C4, 0x5C5); (0x5C7, 0x5C7); (0x5F4, 0x5F4); (0x600, 0x605);
    (0x610, 0x61A); (0x61C, 0x61C); (0x640, 0x640); (0x64B, 0x65F); (0x670, 0x670);
    (0x6D6, 0x6DD); (0x6DF, 0x6E8); (0x6EA, 0x6ED); (0x70F, 0x70F); (0x711, 0x711);
    (0x730, 0x74A); (0x7A6, 0x7B0); (0x7EB, 0x7F5); (0x7FA, 0x7FA); (0x7FD, 0x7FD);
    (0x816, 0x82D); (0x859, 0x85B); (0x888, 0x888); (0x890, 0x891); (0x898, 0x89F);
    (0x8C9, 0x902); (0x93A, 0x93A); (0x93C, 0x93C); (0x941, 0x948); (0x94D, 0x94D);
    (0x951, 0x957); (0x962, 0x963); (0x971, 0x971); (0x981, 0x981); (0x9BC, 0x9BC);
    (0x9C1, 0x9C4); (0x9CD, 0x9CD); (0x9E2, 0x9E3); (0x9FE, 0x9FE); (0xA01, 0xA02);
    (0xA3C, 0xA3C); (0xA41, 0xA42); (0xA47, 0xA48); (0xA4B, 0xA4D); (0xA51, 0xA51);
    (0xA70, 0xA71); (0xA75, 0xA75); (0xA81, 0xA82); (0xABC, 0xABC); (0xAC1, 0xAC5);
    (0xAC7, 0xAC8); (0xACD, 0xACD); (0xAE2, 0xAE3); (0xAFA, 0xAFF); (0xB01, 0xB01);
    (0xB3C, 0xB3C); (0xB3F, 0xB3F); (0xB41, 0xB44); (0xB4D, 0xB4D); (0xB55, 0xB56);
    (0xB62, 0xB63); (0xB82, 0xB82); (0xBC0, 0xBC0); (0xBCD, 0xBCD); (0xC00, 0xC00);
    (0xC04, 0xC04); (0xC3C, 0xC3C); (0xC3E, 0xC40); (0xC46, 0xC48); (0xC4A, 0xC4D);
    (0xC55, 0xC56); (0xC62, 0xC63); (0xC81, 0xC81); (0xCBC, 0xCBC); (0xCBF, 0xCBF);
    (0xCC6, 0xCC6); (0xCCC, 0xCCD); (0xCE2, 0xCE3); (0xD00, 0xD01); (0xD3B, 0xD3C);
    (0xD41, 0xD44); (0xD4D, 0xD4D); (0xD62, 0xD63); (0xD81, 0xD81); (0xDCA, 0xDCA);
    (0xDD2, 0xDD4); (0xDD6, 0xDD6); (0xE31, 0xE31); (0xE34, 0xE3A); (0xE46, 0xE4E);
    (0xEB1, 0xEB1); (0xEB4, 0xEBC); (0xEC6, 0xEC6); (0xEC8, 0xECD); (0xF18, 0xF19);
    (0xF35, 0xF35); (0xF37, 0xF37); (0xF39, 0xF39); (0xF71, 0xF7E); (0xF80, 0xF84);
    (0xF86, 0xF87); (0xF8D, 0xF97); (0xF99, 0xFBC); (0xFC6, 0xFC6); (0x102D, 0x1030);
    (0x1032, 0x1037); (0x1039, 0x103A); (0x103D, 0x103E); (0x1058, 0x1059); (0x105E, 0x1060);
    (0x1071, 0x1074); (0x1082, 0x1082); (0x1085, 0x1086); (0x108D, 0x108D); (0x109D, 0x109D);
    (0x10FC, 0x10FC); (0x135D, 0x135F); (0x1712, 0x1714); (0x1732, 0x1733); (0x1752, 0x1753);
    (0x1772, 0x1773); (0x17B4, 0x17B5); (0x17B7, 0x17BD); (0x17C6, 0x17C6); (0x17C9, 0x17D3);
    (0x17D7, 0x17D7); (0x17DD, 0x17DD); (0x180B, 0x180F); (0x1843, 0x1843); (0x1885, 0x1886);
    (0x18A9, 0x18A9); (0x1920, 0x1922); (0x1927, 0x1928); (0x1932, 0x1932); (0x1939, 0x193B);
    (0x1A17, 0x1A18); (0x1A1B, 0x1A1B); (0x1A56, 0x1A56); (0x1A58, 0x1A5E); (0x1A60, 0x1A60);
    (0x1A62, 0x1A62); (0x1A65, 0x1A6C); (0x1A73, 0x1A7C); (0x1A7F, 0x1A7F); (0x1AA7, 0x1AA7);
    (0x1AB0, 0x1ACE); (0x1B00, 0x1B03); (0x1B34, 0x1B34); (0x1B36, 0x1B3A); (0x1B3C, 0x1B3C);
    (0x1B42, 0x1B42); (0x1B6B, 0x1B73); (0x1B80, 0x1B81); (0x1BA2, 0x1BA5); (0x1BA8, 0x1BA9);
    (0x1BAB, 0x1BAD); (0x1BE6, 0x1BE6); (0x1BE8, 0x1BE9); (0x1BED, 0x1BED); (0x1BEF, 0x1BF1);
    (0x1C2C, 0x1C33); (0x1C36, 0x1C37); (0x1C78, 0x1C7D); (0x1CD0, 0x1CD2); (0x1CD4, 0x1CE0);
    (0x1CE2, 0x1CE8); (0x1CED, 0x1CED); (0x1CF4, 0x1CF4); (0x1CF8, 0x1CF9); (0x1D2C, 0x1D6A);
    (0x1D78, 0x1D78); (0x1D9B, 0x1DFF); (0x1FBD, 0x1FBD); (0x1FBF, 0x1FC1); (0x1FCD, 0x1FCF);
    (0x1FDD, 0x1FDF); (0x1FED, 0x1FEF); (0x1FFD, 0x1FFE); (0x200B, 0x200F); (0x2018, 0x2019);
    (0x2024, 0x2024); (0x2027, 0x2027); (0x202A, 0x202E); (0x2060, 0x2064); (0x2066, 0x206F);
    (0x2071, 0x2071); (0x207F, 0x207F); (0x2090, 0x209C); (0x20D0, 0x20F0); (0x2C7C, 0x2C7D);
    (0x2CEF, 0x2CF1); (0x2D6F, 0x2D6F); (0x2D7F, 0x2D7F); (0x2DE0, 0x2DFF); (0x2E2F, 0x2E2F);
    (0x3005, 0x3005); (0x302A, 0x302D); (0x3031, 0x3035); (0x303B, 0x303B); (0x3099, 0x309E);
    (0x30FC, 0x30FE); (0xA015, 0xA015); (0xA4F8, 0xA4FD); (0xA60C, 0xA60C); (0xA66F, 0xA672);
    (0xA674, 0xA67D); (0xA67F, 0xA67F); (0xA69C, 0xA69F); (0xA6F0, 0xA6F1); (0xA700, 0xA721);
    (0xA770, 0xA770); (0xA788, 0xA78A); (0xA7F2, 0xA7F4); (0xA7F8, 0xA7F9); (0xA802, 0xA802);
    (0xA806, 0xA806); (0xA80B, 0xA80B); (0xA825, 0xA826); (0xA82C, 0xA82C); (0xA8C4, 0xA8C5);
    (0xA8E0, 0xA8F1); (0xA8FF, 0xA8FF); (0xA926, 0xA92D); (0xA947, 0xA951); (0xA980, 0xA982);
    (0xA9B3, 0xA9B3); (0xA9B6, 0xA9B9); (0xA9BC, 0xA9BD); (0xA9CF, 0xA9CF); (0xA9E5, 0xA9E6);
    (0xAA29, 0xAA2E); (0xAA31, 0xAA32); (0xAA35, 0xAA36); (0xAA43, 0xAA43); (0xAA4C, 0xAA4C);
    (0xAA70, 0xAA70); (0xAA7C, 0xAA7C); (0xAAB0, 0xAAB0); (0xAAB2, 0xAAB4); (0xAAB7, 0xAAB8);
    (0xAABE, 0xAABF); (0xAAC1, 0xAAC1); (0xAADD, 0xAADD); (0xAAEC, 0xAAED); (0xAAF3, 0xAAF4);
    (0xAAF6, 0xAAF6); (0xAB5B, 0xAB5F); (0xAB69, 0xAB6B); (0xABE5, 0xABE5); (0xABE8, 0xABE8);
    (0xABED, 0xABED); (0xFB1E, 0xFB1E); (0xFBB2, 0xFBC2); (0xFE00, 0xFE0F); (0xFE13, 0xFE13);
    (0xFE20, 0xFE2F); (0xFE52, 0xFE52); (0xFE55, 0xFE55); (0xFEFF, 0xFEFF); (0xFF07, 0xFF07);
    (0xFF0E, 0xFF0E); (0xFF1A, 0xFF1A); (0xFF3E, 0xFF3E); (0xFF40, 0xFF40); (0xFF70, 0xFF70);
    (0xFF9E, 0xFF9F); (0xFFE3, 0xFFE3); (0xFFF9, 0xFFFB); (0x101FD, 0x101FD); (0x102E0, 0x102E0);
    (0x10376, 0x1037A); (0x10780, 0x10785); (0x10787, 0x107B0); (0x107B2, 0x107BA); (0x10A01, 0x10A03);
    (0x10A05, 0x10A06); (0x10A0C, 0x10A0F); (0x10A38, 0x10A3A); (0x10A3F, 0x10A3F); (0x10AE5, 0x10AE6);
    (0x10D24, 0x10D27); (0x10EAB, 0x10EAC); (0x10F46, 0x10F50); (0x10F82, 0x10F85); (0x11001, 0x11001);
    (0x11038, 0x11046); (0x11070, 0x11070); (0x11073, 0x11074); (0x1107F, 0x11081); (0x110B3, 0x110B6);
    (0x110B9, 0x110BA); (0x110BD, 0x110BD); (0x110C2, 0x110C2); (0x110CD, 0x110CD); (0x11100, 0x11102);
    (0x11127, 0x1112B); (0x1112D, 0x11134); (0x11173, 0x11173); (0x11180, 0x11181); (0x111B6, 0x111BE);
    (0x111C9, 0x111CC); (0x111CF, 0x111CF); (0x1122F, 0x11231); (0x11234, 0x11234); (0x11236, 0x11237);
    (0x1123E, 0x1123E); (0x112DF, 0x112DF); (0x112E3, 0x112EA); (0x11300, 0x11301); (0x1133B, 0x1133C);
    (0x11340, 0x11340); (0x11366, 0x1136C); (0x11370, 0x11374); (0x11438, 0x1143F); (0x11442, 0x11444);
    (0x11446, 0x11446); (0x1145E, 0x1145E); (0x114B3, 0x114B8); (0x114BA, 0x114BA); (0x114BF, 0x114C0);
    (0x114C2, 0x114C3); (0x115B2, 0x115B5); (0x115BC, 0x115BD); (0x115BF, 0x115C0); (0x115DC, 0x115DD);
    (0x11633, 0x1163A); (0x1163D, 0x1163D); (0x1163F, 0x11640); (0x116AB, 0x116AB); (0x116AD, 0x116AD);
    (0x116B0, 0x116B5); (0x116B7, 0x116B7); (0x1171D, 0x1171F); (0x11722, 0x11725); (0x11727, 0x1172B);
    (0x1182F, 0x11837); (0x11839, 0x1183A); (0x1193B, 0x1193C); (0x1193E, 0x1193E); (0x11943, 0x11943);
    (0x119D4, 0x119D7); (0x119DA, 0x119DB); (0x119E0, 0x119E0); (0x11A01, 0x11A0A); (0x11A33, 0x11A38);
    (0x11A3B, 0x11A3E); (0x11A47, 0x11A47); (0x11A51, 0x11A56); (0x11A59, 0x11A5B); (0x11A8A, 0x11A96);
    (0x11A98, 0x11A99); (0x11C30, 0x11C36); (0x11C38, 0x11C3D); (0x11C3F, 0x11C3F); (0x11C92, 0x11CA7);
    (0x11CAA, 0x11CB0); (0x11CB2, 0x11CB3); (0x11CB5, 0x11CB6); (0x11D31, 0x11D36); (0x11D3A, 0x11D3A);
    (0x11D3C, 0x11D3D); (0x11D3F, 0x11D45); (0x11D47, 0x11D47); (0x11D90, 0x11D91); (0x11D95, 0x11D95);
    (0x11D97, 0x11D97); (0x11EF3, 0x11EF4); (0x13430, 0x13438); (0x16AF0, 0x16AF4); (0x16B30, 0x16B36);
    (0x16B40, 0x16B43); (0x16F4F, 0x16F4F); (0x16F8F, 0x16F9F); (0x16FE0, 0x16FE1); (0x16FE3, 0x16FE4);
    (0x1AFF0, 0x1AFF3); (0x1AFF5, 0x1AFFB); (0x1AFFD, 0x1AFFE); (0x1BC9D, 0x1BC9E); (0x1BCA0, 0x1BCA3);
    (0x1CF00, 0x1CF2D); (0x1CF30, 0x1CF46); (0x1D167, 0x1D169); (0x1D173, 0x1D182); (0x1D185, 0x1D18B);
    (0x1D1AA, 0x1D1AD); (0x1D242, 0x1D244); (0x1DA00, 0x1DA36); (0x1DA3B, 0x1DA6C); (0x1DA75, 0x1DA75);
    (0x1DA84, 0x1DA84); (0x1DA9B, 0x1DA9F); (0x1DAA1, 0x1DAAF); (0x1E000, 0x1E006); (0x1E008, 0x1E018);
    (0x1E01B, 0x1E021); (0x1E023, 0x1E024); (0x1E026, 0x1E02A); (0x1E130, 0x1E13D); (0x1E2AE, 0x1E2AE);
    (0x1E2EC, 0x1E2EF); (0x1E8D0, 0x1E8D6); (0x1E944, 0x1E94B); (0x1F3FB, 0x1F3FF); (0xE0001, 0xE0001);
    (0xE0020, 0xE007F); (0xE0100, 0xE01EF) ].

Definition casedRanges : list (Z * Z) :=
  [
    (0x41, 0x5A); (0x61, 0x7A); (0xAA, 0xAA); (0xB5, 0xB5); (0xBA, 0xBA);
    (0xC0, 0xD6); (0xD8, 0xF6); (0xF8, 0x1BA); (0x1BC, 0x1BF); (0x1C4, 0x293);
    (0x295, 0x2B8); (0x2C0, 0x2C1); (0x2E0, 0x2E4); (0x345, 0x345); (0x370, 0x373);
    (0x376, 0x377); (0x37A, 0x37D); (0x37F, 0x37F); (0x386, 0x386); (0x388, 0x38A);
    (0x38C, 0x38C); (0x38E, 0x3A1); (0x3A3, 0x3F5); (0x3F7, 0x481); (0x48A, 0x52F);
    (0x531, 0x556); (0x560, 0x588); (0x10A0, 0x10C5); (0x10C7, 0x10C7); (0x10CD, 0x10CD);
    (0x10D0, 0x10FA); (0x10FD, 0x10FF); (0x13A0, 0x13F5); (0x13F8, 0x13FD); (0x1C80, 0x1C88);
    (0x1C90, 0x1CBA); (0x1CBD, 0x1CBF); (0x1D00, 0x1DBF); (0x1E00, 0x1F15); (0x1F18, 0x1F1D);
    (0x1F20, 0x1F45); (0x1F48, 0x1F4D); (0x1F50, 0x1F57); (0x1F59, 0x1F59); (0x1F5B, 0x1F5B);
    (0x1F5D, 0x1F5D); (0x1F5F, 0x1F7D); (0x1F80, 0x1FB4); (0x1FB6, 0x1FBC); (0x1FBE, 0x1FBE);
    (0x1FC2, 0x1FC4); (0x1FC6, 0x1FCC); (0x1FD0, 0x1FD3); (0x1FD6, 0x1FDB); (0x1FE0, 0x1FEC);
    (0x1FF2, 0x1FF4); (0x1FF6, 0x1FFC); (0x2071, 0x2071); (0x207F, 0x207F); (0x2090, 0x209C);
    (0x2102, 0x2102); (0x2107, 0x2107); (0x210A, 0x2113); (0x2115, 0x2115); (0x2119, 0x211D);
    (0x2124, 0x2124); (0x2126, 0x2126); (0x2128, 0x2128); (0x212A, 0x212D); (0x212F, 0x2134);
    (0x2139, 0x2139); (0x213C, 0x213F); (0x2145, 0x2149); (0x214E, 0x214E); (0x2160, 0x217F);
    (0x2183, 0x2184); (0x24B6, 0x24E9); (0x2C00, 0x2CE4); (0x2CEB, 0x2CEE); (0x2CF2, 0x2CF3);
    (0x2D00, 0x2D25); (0x2D27, 0x2D27); (0x2D2D, 0x2D2D); (0xA640, 0xA66D); (0xA680, 0xA69D);
    (0xA722, 0xA787); (0xA78B, 0xA78E); (0xA790, 0xA7CA); (0xA7D0, 0xA7D1); (0xA7D3, 0xA7D3);
    (0xA7D5, 0xA7D9); (0xA7F5, 0xA7F6); (0xA7F8, 0xA7FA); (0xAB30, 0xAB5A); (0xAB5C, 0xAB68);
    (0xAB70, 0xABBF); (0xFB00, 0xFB06); (0xFB13, 0xFB17); (0xFF21, 0xFF3A); (0xFF41, 0xFF5A);
    (0x10400, 0x1044F); (0x104B0, 0x104D3); (0x104D8, 0x104FB); (0x10570, 0x1057A); (0x1057C, 0x1058A);
    (0x1058C, 0x10592); (0x10594, 0x10595); (0x10597, 0x105A1); (0x105A3, 0x105B1); (0x105B3, 0x105B9);
    (0x105BB, 0x105BC); (0x10780, 0x10780); (0x10783, 0x10785); (0x10787, 0x107B0); (0x107B2, 0x107BA);
    (0x10C80, 0x10CB2); (0x10CC0, 0x10CF2); (0x118A0, 0x118DF); (0x16E40, 0x16E7F); (0x1D400, 0x1D454);
    (0x1D456, 0x1D49C); (0x1D49E, 0x1D49F); (0x1D4A2, 0x1D4A2); (0x1D4A5, 0x1D4A6); (0x1D4A9, 0x1D4AC);
    (0x1D4AE, 0x1D4B9); (0x1D4BB, 0x1D4BB); (0x1D4BD, 0x1D4C3); (0x1D4C5, 0x1D505); (0x1D507, 0x1D50A);
    (0x1D50D, 0x1D514); (0x1D516, 0x1D51C); (0x1D51E, 0x1D539); (0x1D53B, 0x1D53E); (0x1D540, 0x1D544);
    (0x1D546, 0x1D546); (0x1D54A, 0x1D550); (0x1D552, 0x1D6A5); (0x1D6A8, 0x1D6C0); (0x1D6C2, 0x1D6DA);
    (0x1D6DC, 0x1D6FA); (0x1D6FC, 0x1D714); (0x1D716, 0x1D734); (0x1D736, 0x1D74E); (0x1D750, 0x1D76E);
    (0x1D770, 0x1D788); (0x1D78A, 0x1D7A8); (0x1D7AA, 0x1D7C2); (0x1D7C4, 0x1D7CB); (0x1DF00, 0x1DF09);
    (0x1DF0B, 0x1DF1E); (0x1E900, 0x1E943); (0x1F130, 0x1F149); (0x1F150, 0x1F169); (0x1F170, 0x1F189) ].

Fixpoint simpleLowerCase (table : list (Z * Z * Z * Z)) (c : Z) : Z :=
  match table with
  | [] => c
  | (first, last, step, delta) :: table' =>
      if c <? first then c
      else if (c <=? last) && ((c - first) mod step =? 0) then c + delta
      else simpleLowerCase table' c
  end.

Fixpoint within (ranges : list (Z * Z)) (c : Z) : bool :=
  match ranges with
  | [] => false
  | (first, last) :: ranges' =>
      if c <? first then false
      else if c <=? last then true
      else within ranges' c
  end.

Definition isCaseIgnorable (c : Z) : bool := within caseIgnorableRanges c.
Definition isCased (c : Z) : bool := within casedRanges c.

(** The next code point that is not case-ignorable is a cased letter. *)
Fixpoint casedLetterNext (l : list Z) : bool :=
  match l with
  | [] => false
  | c :: l' => if isCaseIgnorable c then casedLetterNext l' else isCased c
  end.

(** The condition Final_Sigma: a cased letter before, none after.  [before]
    holds the preceding code points, nearest first. *)
Definition finalSigma (before after : list Z) : bool :=
  casedLetterNext before && negb (casedLetterNext after).

Fixpoint lowerFrom (before l : list Z) : list Z :=
  match l with
  | [] => []
  | c :: rest =>
      ((if c =? 0x3A3 then [if finalSigma before rest then 0x3C2 else 0x3C3]
       else if c =? 0x130 then [0x69; 0x307]
       else [simpleLowerCase lowerCaseRanges c])
      ++ lowerFrom (c :: before) rest)%list
  end.

(** The default case conversion, which does not depend on the locale. *)
Definition toLowerCase (s : string) : string :=
  fromCodePoints (lowerFrom [] (codePoints s)).

(** [s.includes(sub)]. *)
Fixpoint includes (s sub : string) : bool :=
  if String.prefix sub s then true
  else match s with
       | EmptyString => false
       | String _ s' => includes s' sub
       end.

(** *** [String.prototype.trim] *)

(** WhiteSpace and LineTerminator: tab, line feed, vertical tab, form feed,
    carriage return, space, no-break space, the other space separators, the
    line and paragraph separators and the byte order mark. *)
Definition isWhiteSpace (c : Z) : bool :=
  existsb (Z.eqb c)
    [ 0x09; 0x0A; 0x0B; 0x0C; 0x0D; 0x20; 0xA0; 0x1680; 0x2028; 0x2029;
      0x202F; 0x205F; 0x3000; 0xFEFF ]
  || ((0x2000 <=? c) && (c <=? 0x200A)).

Fixpoint dropWhiteSpace (l : list Z) : list Z :=
  match l with
  | [] => []
  | c :: l' => if isWhiteSpace c then dropWhiteSpace l' else l
  end.

Definition trimStart (l : list Z) : list Z := dropWhiteSpace l.
Definition trimEnd (l : list Z) : list Z := rev (dropWhiteSpace (rev l)).

Definition trim (s : string) : string :=
  fromCodePoints (trimEnd (trimStart (codePoints s))).

Local Close Scope Z_scope.

(** [Number.prototype.toString] on an integer. *)
Definition numberToString (z : Z) : string := NilZero.string_of_int (Z.to_int z).

(** [x.toFixed(1)] below [1e21]: the nearest tenth, the larger one on a tie. *)
Definition toFixed1 (x : Q) : string :=
  let neg := Num.Qltb x 0 in
  let a := if neg then (- x)%Q else x in
  let n := Qfloor (a * 10 + (1 # 2)) in
  (if neg then "-" else "") ++ numberToString (n / 10) ++ "." ++ numberToString (n mod 10).

(** A property key that is an array index ([0 .. 2^32 - 2] in canonical
    decimal form): such keys are enumerated first, in ascending order. *)
Definition isDigit (c : ascii) : bool :=
  let n := nat_of_ascii c in ((48 <=? n) && (n <=? 57))%nat.

Fixpoint allDigits (s : string) : bool :=
  match s with
  | EmptyString => true
  | String c s' => isDigit c && allDigits s'
  end.

Fixpoint digitsValue (acc : Z) (s : string) : Z :=
  match s with
  | EmptyString => acc
  | String c s' => digitsValue (acc * 10 + Z.of_nat (nat_of_ascii c - 48)) s'
  end.

Definition arrayIndex (key : string) : option Z :=
  match key with
  | EmptyString => None
  | String c rest =>
      if allDigits key && (negb (nat_of_ascii c =? 48)%nat || (rest =? ""))
      then let v := digitsValue 0 key in
           if (v <? 4294967295)%Z then Some v else None
      else None
  end.

Definition isArrayIndex (key : string) : bool :=
  match arrayIndex key with Some _ => true | None => false end.

Definition indexBefore {A} (a b : string * A) : bool :=
  match arrayIndex (fst a), arrayIndex (fst b) with
  | Some x, Some y => (x <=? y)%Z
  | _, _ => true
  end.

(** [Object.entries(o)] for an object literal whose properties are written in
    the order of the list [o]. *)
Definition Object_entries {A} (o : list (string * A)) : list (string * A) :=
  Sorting.sortBy indexBefore (filter (fun kv => isArrayIndex (fst kv)) o)
  ++ filter (fun kv => negb (isArrayIndex (fst kv))) o.

End Js.

(** ** Agent chat: data model *)

Module Chat.

Import Js.

Inductive AgentType :=
| CustomerServiceAgent | RecommendationAgent | PricingAgent | InventoryAgent
| DataAnalysisAgent | MarketingAgent | FinancialAnalystAgent | SEOAgent
| SupplyChainAgent.

Definition isPricingAgent (t : AgentType) : bool :=
  match t with PricingAgent => true | _ => false end.

Inductive MessageType := user | agent.
Inductive MessageStatus := sending | sent | processing | completed | error.

(** The [metadata] object of a response.  The canned responses fill the first
    three fields, [handlePricingOptimization] adds the others. *)
Record Metadata := mkMetadata {
  confidence : option Q;
  category : option string;
  actions : option (list string);
  optimization_applied : option bool;
  products_updated : option Z;
  average_increase : option string;
  real_changes : option bool
}.

Definition canned (c : Q) (cat : string) (acts : list string) : Metadata :=
  mkMetadata (Some c) (Some cat) (Some acts) None None None None.

Record Response := mkResponse {
  content : string;
  metadata : Metadata
}.

Module Message.
Record t := mk {
  id : string;
  type : MessageType;
  content : string;
  timestamp : Z;
  agentName : option string;
  status : option MessageStatus;
  metadata : option Metadata
}.
End Message.

(** The props of the component. *)
Record Props := mkProps {
  agentName : string;
  agentType : AgentType
}.

(** Calls made to the collaborators, in the order they are made. *)
Inductive Effect :=
| CallOptimizePricing
| InvalidateQueries (queryKey : list string)
| ConsoleError (label : string).

(** The body of the answer of the pricing endpoint, as far as it is read. *)
Record OptimizationData := mkData {
  total_products_updated : option Z;
  average_increase_percent : option Q
}.

(** How the promise returned by [apiService.optimizePricing()] settles;
    [Resolved d] carries [optimizationResult?.data]. *)
Inductive ApiOutcome :=
| Resolved (data : option OptimizationData)
| Rejected (message : string).

(** The work of a [setTimeout] callback of [handleSendMessage], with the
    message captured by its closure. *)
Inductive Job :=
| OptimizeJob (currentMessage : string)
| SearchJob (currentMessage : string)
| ThinkJob (currentMessage : string)
| RespondJob (currentMessage : string).

Inductive Task :=
| Timer (delay : Q) (job : Job)
| AwaitingPricing (currentMessage : string).

(** The React state of an open chat, the registered callbacks and the
    trace of collaborator calls. *)
Record State := mkState {
  messages : list Message.t;
  inputMessage : string;
  isTyping : bool;
  typingMessage : string;
  pending : list Task;
  trace : list Effect
}.

Definition welcomeMessages (agentType : AgentType) : string :=
  match agentType with
  | CustomerServiceAgent =>
    "👋 Hey there! I'm your AI Customer Service specialist - think of me as your personal shopping concierge! I've got instant access to your order history, real-time shipping data, and can solve 95% of issues on the spot. Whether it's tracking mysterious packages, processing lightning-fast returns, or troubleshooting that 'where's my stuff?' moment - I've got you covered! What can I help you with?"
  | RecommendationAgent =>
    "Hi there! I'm your AI Recommendation agent. I analyze customer behavior and preferences to suggest the perfect products. Ask me about product recommendations, trending items, or customer preferences!"
  | PricingAgent =>
    "Greetings! I'm your AI Pricing agent. I optimize product prices based on market conditions, demand, and competition. Ask me about pricing strategies, market analysis, or profit optimization!"
  | InventoryAgent =>
    "Hello! I'm your AI Inventory agent. I manage stock levels, predict demand, and handle automated reordering. Ask me about stock levels, demand forecasting, or inventory optimization!"
  | DataAnalysisAgent =>
    "Welcome! I'm your AI Data Analysis agent. I process vast amounts of business data to uncover insights, predict trends, and provide actionable recommendations. Ask me about data patterns, predictive analytics, or business intelligence!"
  | MarketingAgent =>
    "Hi! I'm your AI Marketing agent. I create and optimize marketing campaigns based on data insights, manage A/B tests, and improve customer engagement. Ask me about campaign performance, audience targeting, or marketing strategies!"
  | FinancialAnalystAgent =>
    "Greetings! I'm your AI Financial Analyst agent. I analyze financial data, optimize budgets, and provide profitability insights with predictive modeling. Ask me about financial health, budget optimization, or investment recommendations!"
  | SEOAgent =>
    "Hello! I'm your AI SEO agent. I optimize search engine rankings, research keywords, and improve content strategy for better visibility. Ask me about keyword opportunities, ranking improvements, or content optimization!"
  | SupplyChainAgent =>
    "Hi there! I'm your AI Supply Chain agent. I optimize logistics, manage suppliers, and coordinate deliveries for maximum efficiency. Ask me about supplier performance, delivery optimization, or cost reduction strategies!"
  end.


(** The mount effect: the chat opens with the welcome message. *)
Definition openChat (p : Props) (now : Z) : State :=
  mkState
    [ Message.mk "welcome" agent (welcomeMessages (agentType p)) now
        (Some (agentName p)) (Some completed) None ]
    "" false "Agent is thinking..." [] [].

(** ** [handlePricingOptimization] *)

(** The [try] block after the awaited call has resolved. *)
Definition pricingApplied (payload : option OptimizationData) : list Effect * Response :=
  let data := match payload with Some d => d | None => mkData None None end in
  let changesCount :=
    match total_products_updated data with
    | Some n => if (n =? 0)%Z then 5%Z else n
    | None => 5%Z
    end in
  let avgIncrease :=
    match average_increase_percent data with
    | Some q => let s := toFixed1 q in if s =? "" then "3.2" else s
    | None => "3.2"
    end in
  let content := "✅ **Pricing Optimization Complete!**

I've successfully analyzed market conditions and updated our pricing strategy with real changes to your product catalog:

💰 **Pricing Updates Applied:**
- **" ++ numberToString changesCount ++ " products** updated with optimized pricing
- **Average price increase: " ++ avgIncrease ++ "%** (range: 1-5%)
- All changes are **immediately live** in your product catalog

📊 **Optimization Strategy:**
- Market elasticity analysis applied to each product
- Competitive positioning maintained
- Demand-based pricing adjustments
- Profit margin optimization

🎯 **Key Benefits:**
- Enhanced revenue potential from optimized pricing
- Maintained competitive market position  
- Data-driven price adjustments
- Immediate implementation across all channels

✅ **Status:** All pricing changes are now live and visible on your products page. Customers will see the updated prices immediately.

The optimization balanced profitability with market competitiveness. Would you like to see the specific products that were updated or run additional pricing analysis?" in
  ([ InvalidateQueries ["products"]; InvalidateQueries ["featured-products"] ],
   mkResponse content
     (mkMetadata (Some (96 # 100)) (Some "pricing_optimization")
        (Some ["price_updates"; "market_analysis"; "profit_optimization"])
        (Some true) (Some changesCount) (Some (avgIncrease ++ "%")) (Some true))).

(** The [catch] block. *)
Definition pricingFallback : list Effect * Response :=
  ([ ConsoleError "Pricing optimization error:" ],
   mkResponse
     "I encountered an issue while optimizing pricing. Based on my web research, I can still provide strategic recommendations:

📈 **Market Analysis Results:**
- Premium product categories show 5-8% price increase opportunity
- Competitor analysis reveals strategic gaps in our positioning
- Consumer demand patterns support selective price adjustments

⚠️ **Temporary Issue:**
I'm currently unable to apply automatic price updates, but I recommend manually reviewing these high-impact opportunities:

1. **Electronics**: Increase flagship items by 3-5%
2. **Home Goods**: Test 2-4% increases on bestsellers  
3. **Fashion**: Premium items can support 6-8% increases

I'll continue monitoring market conditions and will apply optimizations automatically once system connectivity is restored."
     (mkMetadata (Some (75 # 100)) (Some "pricing_analysis")
        (Some ["web_research"; "market_analysis"; "strategic_recommendations"])
        (Some false) None None None)).

(** What happens once the awaited promise has settled. *)
Definition pricingSettled (api : ApiOutcome) : list Effect * Response :=
  match api with
  | Resolved payload => pricingApplied payload
  | Rejected _ => pricingFallback
  end.

(** The whole function, against a service that settles as [api]. *)
Definition handlePricingOptimization (api : ApiOutcome) (message : string)
    (type : AgentType) : list Effect * Response :=
  let (fx, r) := pricingSettled api in (CallOptimizePricing :: fx, r).

(** ** [generateAgentResponse] *)

(** The [responses] object literal of [generateAgentResponse], each table in
    the order in which its keys are written. *)
Definition responses (type : AgentType) : list (string * Response) :=
  match type with
  | CustomerServiceAgent =>
    [
      ("order",
       mkResponse
         "I'd be happy to help you with your order! To check your order status, I'll need your order number. Once I have that, I can provide you with real-time tracking information, estimated delivery dates, and any updates about your shipment. You can also make changes to your order if it hasn't been processed yet."
         (canned (95 # 100) "order_inquiry" ["check_order_status"; "provide_tracking"]));
      ("12345",
       mkResponse
         "🔍 Perfect! I found order #12345 in our system. Here's what's happening: Your order is currently experiencing a 2-day delay due to high demand for the Wireless Bluetooth Earbuds in your order - they're flying off our shelves! 📦 I've automatically alerted our inventory team to prioritize your shipment, and I've also upgraded you to expedited shipping at no extra charge to make up for the delay. Expected delivery: Tomorrow by 3PM. Plus, I'm adding a 15% discount to your next order for the inconvenience. Tracking updates will be sent to your phone!"
         (canned (98 # 100) "order_status_detailed" ["order_lookup"; "priority_escalation"; "compensation_applied"]));
      ("67890",
       mkResponse
         "🎯 Found order #67890! Great news - your Smart Fitness Watch is out for delivery right now and should arrive within the next 2 hours! 🚚 I can see the driver is just 3 stops away. I've sent you a live tracking link so you can watch them get closer in real-time. Pro tip: Make sure someone's home - this package requires a signature! I've also noticed you ordered the sport band separately - perfect combo choice! 💪"
         (canned (97 # 100) "order_status_detailed" ["live_tracking"; "delivery_notification"; "signature_alert"]));
      ("54321",
       mkResponse
         "🚨 Order #54321 status update! I've detected an issue with your Premium Headphones order - the warehouse had a minor inventory glitch, but I've already fixed it! ✨ I've expedited your order to our premium fulfillment center, upgraded your shipping to overnight delivery (free!), and added a $25 store credit to your account for the hassle. Your headphones will arrive tomorrow morning with a complimentary premium carrying case. Crisis averted! 🎧"
         (canned (99 # 100) "order_status_detailed" ["issue_resolution"; "upgrade_applied"; "compensation_added"]));
      ("return",
       mkResponse
         "🔄 Returns made easy! I've got you covered with our hassle-free return process. Just give me your order number and I'll instantly generate a prepaid return label - no questions asked! Returns are free, refunds process in 3-5 days (not the usual 7!), and I'll even send you personalized product recommendations for your next purchase. What order are we returning today?"
         (canned (94 # 100) "return_request" ["instant_label_generation"; "fast_refund"; "personalized_recommendations"]));
      ("shipping",
       mkResponse
         "📦 Shipping superhero at your service! I can track packages in real-time, update delivery addresses mid-transit, arrange redelivery, and even coordinate with neighbors for package holds. Having delivery drama? I've got direct lines to all major carriers and can solve 99% of shipping mysteries in under 60 seconds. What's your shipping situation?"
         (canned (91 # 100) "shipping_inquiry" ["real_time_tracking"; "address_updates"; "carrier_coordination"]));
      ("default",
       mkResponse
         "🤖 I'm analyzing your message with my advanced AI brain... Got it! While I can handle most issues instantly, I want to make sure you get VIP treatment. Give me a few more details about what's happening, and I'll either solve it immediately or connect you with our human experts who have the same info I do. Either way, we're getting this sorted fast! ⚡"
         (canned (75 # 100) "general" ["intelligent_routing"; "context_preservation"; "vip_escalation"])) ]
  | RecommendationAgent =>
    [
      ("recommend",
       mkResponse
         "Based on current trends and customer behavior patterns, I can suggest some great products! For personalized recommendations, I analyze purchase history, browsing behavior, and similar customer preferences. Here are some trending categories: Electronics (23% increase), Home & Garden (18% increase), and Fashion (15% increase). What type of products are you interested in?"
         (canned (91 # 100) "product_recommendation" ["analyze_trends"; "personalize_suggestions"]));
      ("trending",
       mkResponse
         "Currently trending products include wireless earbuds (+45% sales), smart home devices (+32% sales), and sustainable fashion items (+28% sales). I'm seeing increased interest in eco-friendly products and tech accessories. These trends are based on real-time sales data and customer engagement metrics."
         (canned (89 # 100) "trending_analysis" ["trend_analysis"; "sales_data_review"]));
      ("customer",
       mkResponse
         "Customer preference analysis shows interesting patterns! I'm seeing increased demand for sustainable products, personalized items, and multi-functional tools. Customers aged 25-34 prefer tech gadgets, while 35-44 focus on home improvement. Cross-sell opportunities are highest with complementary accessories."
         (canned (87 # 100) "customer_analysis" ["analyze_demographics"; "identify_cross_sell"]));
      ("default",
       mkResponse
         "I can help you discover the perfect products! I analyze millions of data points including customer behavior, purchase patterns, seasonal trends, and product relationships. Whether you need recommendations for specific customers or want to understand market trends, I'm here to help. What would you like to explore?"
         (canned (75 # 100) "general_recommendation" ["data_analysis"; "pattern_recognition"])) ]
  | PricingAgent =>
    [
      ("price",
       mkResponse
         "I'm constantly analyzing pricing strategies across our catalog! Currently monitoring 1,247 products with dynamic pricing adjustments. Market conditions show 3% increase in demand, suggesting room for strategic price optimization. I can adjust prices based on competitor analysis, demand elasticity, and profit margins. Which products are you interested in optimizing?"
         (canned (93 # 100) "price_optimization" ["market_analysis"; "competitor_tracking"; "demand_forecasting"]));
      ("market",
       mkResponse
         "Based on my comprehensive web analysis of current market conditions, I've identified several key factors affecting pricing strategies. Global supply chain disruptions have increased costs by 8-12% across multiple sectors. Consumer confidence indices show mixed signals - while discretionary spending is up 3.2% in tech and home goods, inflation concerns are driving price sensitivity in essential categories. Competitor analysis reveals strategic price positioning: Amazon increased electronics prices by 4%, while Walmart maintained aggressive pricing on consumer staples. Current market sentiment suggests a 'cautiously optimistic' approach - premium segments can absorb 5-7% increases, but mass market products should hold current pricing to maintain market share. I recommend implementing dynamic pricing tiers based on product elasticity and competitive positioning."
         (canned (94 # 100) "market_analysis" ["web_research"; "competitor_analysis"; "trend_monitoring"; "price_optimization"]));
      ("profit",
       mkResponse
         "Profit optimization opportunities identified! By adjusting prices on 47 products, we could increase overall margin by 8-12%. High-performing categories show elasticity scores allowing 5-10% price increases. I'm also identifying products with declining margins that need cost review or repositioning."
         (canned (88 # 100) "profit_optimization" ["margin_analysis"; "elasticity_calculation"]));
      ("default",
       mkResponse
         "I optimize pricing using advanced algorithms and market intelligence! I analyze competitor prices, demand patterns, customer price sensitivity, and profit margins to recommend optimal pricing strategies. I can help with dynamic pricing, promotional strategies, or market positioning. What pricing challenge can I help you solve?"
         (canned (80 # 100) "pricing_strategy" ["algorithm_analysis"; "strategy_development"])) ]
  | InventoryAgent =>
    [
      ("stock",
       mkResponse
         "Current inventory status: 1,247 products monitored, 23 items below reorder point, 8 items at risk of stockout within 7 days. I've automatically triggered reorders for critical items. High-velocity products are well-stocked, but I'm monitoring seasonal demand patterns for proactive adjustments."
         (canned (96 # 100) "stock_monitoring" ["stock_check"; "reorder_trigger"; "demand_forecast"]));
      ("demand",
       mkResponse
         "Demand forecasting shows interesting patterns! Electronics demand up 15% (back-to-school season), home goods steady, fashion showing early fall trends (+8%). My AI models predict 23% increase in winter apparel demand over next 4 weeks. I'm adjusting safety stock levels accordingly."
         (canned (92 # 100) "demand_forecasting" ["trend_analysis"; "seasonal_adjustment"; "safety_stock_optimization"]));
      ("reorder",
       mkResponse
         "Automated reordering system is active! I've placed orders for 12 products today based on velocity trends and lead times. Average reorder accuracy: 94.2%. I'm optimizing order quantities using economic order quantity (EOQ) models and supplier performance data to minimize carrying costs while preventing stockouts."
         (canned (89 # 100) "automated_reordering" ["eoq_calculation"; "supplier_optimization"; "lead_time_analysis"]));
      ("default",
       mkResponse
         "I manage your entire inventory ecosystem! From demand forecasting to automated reordering, I ensure optimal stock levels while minimizing costs. I analyze sales velocity, seasonal patterns, supplier performance, and market trends to keep your inventory perfectly balanced. What inventory challenge can I help you with?"
         (canned (78 # 100) "inventory_management" ["comprehensive_analysis"; "optimization_strategy"])) ]
  | DataAnalysisAgent =>
    [
      ("data",
       mkResponse
         "I'm analyzing comprehensive business data across all channels! Current insights show 34% revenue growth, strong customer retention patterns, and emerging trends in sustainable products. I can dive deeper into any specific metrics, perform predictive analysis, or identify optimization opportunities. What data would you like me to analyze?"
         (canned (91 # 100) "data_analysis" ["trend_analysis"; "predictive_modeling"; "anomaly_detection"]));
      ("trend",
       mkResponse
         "Trend analysis reveals fascinating patterns! Revenue is up 23% QoQ with electronics leading growth. Customer acquisition costs are optimizing well, and I'm detecting early signals of increased demand for eco-friendly products. Seasonal patterns suggest preparing for Q4 surge. Which trends interest you most?"
         (canned (88 # 100) "trend_analysis" ["seasonal_forecasting"; "growth_analysis"]));
      ("predict",
       mkResponse
         "My predictive models are showing strong signals! Revenue forecast indicates 15-20% growth next quarter, with 87% confidence. Customer churn risk is low at 4.2%, and inventory models predict stockouts in electronics within 2 weeks. I can provide detailed forecasts for any business area."
         (canned (85 # 100) "predictive_analytics" ["revenue_forecasting"; "churn_prediction"]));
      ("default",
       mkResponse
         "I process massive datasets to uncover actionable business insights! I can analyze trends, predict future outcomes, detect anomalies, and provide data-driven recommendations. From customer behavior to market opportunities, I turn raw data into strategic advantage. What would you like to explore?"
         (canned (78 # 100) "business_intelligence" ["data_mining"; "insight_generation"])) ]
  | MarketingAgent =>
    [
      ("campaign",
       mkResponse
         "Current campaigns are performing excellently! Our Q1 Electronics campaign has 285% ROI with 2,340 clicks and 187 conversions. The Sustainable Products campaign is even better at 320% ROI. I'm launching 2 new data-driven campaigns this week targeting high-value customers. Need campaign details?"
         (canned (92 # 100) "campaign_management" ["campaign_optimization"; "roi_analysis"]));
      ("optimize",
       mkResponse
         "🚀 Analyzing and optimizing campaigns... Done! I've identified underperforming campaigns and reallocated budgets for maximum ROI. Stopped 2 low-performing campaigns (ROI < 150%) and redirected $3,200 budget to our top performers: Sustainable Products (+$1,800) and Tech Enthusiasts segment (+$1,400). This optimization should increase overall campaign ROI by 23% and boost conversions by an estimated 180 units this month."
         (canned (94 # 100) "campaign_optimization" ["budget_reallocation"; "performance_optimization"; "roi_maximization"]));
      ("audience",
       mkResponse
         "Audience targeting is highly optimized! I've identified 5 key segments: Tech Enthusiasts (8.4% conversion), Eco-Conscious Shoppers (7.1% conversion), and Premium Buyers (12.3% conversion). Each segment gets personalized messaging and optimized ad spend. Want to explore specific audience insights?"
         (canned (89 # 100) "audience_targeting" ["segmentation"; "personalization"]));
      ("marketing",
       mkResponse
         "Marketing automation is running smoothly! I'm managing 8 campaigns with 265% average ROI, optimizing audience targeting across 5 segments, and running 3 A/B tests with significant results. All strategies are based on real-time data analysis. What marketing area interests you?"
         (canned (86 # 100) "marketing_automation" ["automation"; "optimization"]));
      ("default",
       mkResponse
         "I automate and optimize your entire marketing funnel! From data-driven campaign creation to audience targeting and A/B testing, I ensure maximum ROI. I work closely with the Data Analysis agent to base all strategies on solid insights. How can I boost your marketing performance?"
         (canned (80 # 100) "marketing_strategy" ["campaign_creation"; "performance_optimization"])) ]
  | FinancialAnalystAgent =>
    [
      ("budget",
       mkResponse
         "Budget optimization is complete! I recommend increasing marketing spend by 10% (+$5k) due to positive ROI trends, and investing 12% more in technology (+$3k) for automation benefits. This reallocation could improve overall ROI by 25% and increase revenue 15-20%. Want detailed budget breakdowns?"
         (canned (88 # 100) "budget_optimization" ["allocation_analysis"; "roi_optimization"]));
      ("financial",
       mkResponse
         "Financial health is excellent with an 87/100 score! Revenue growth is 12.5% QoQ, profit margin is strong at 18.3%, and cash position provides 3.2 months runway. Key metrics show LTV:CAC ratio of 3.8:1 with 8.2 month payback period. Any specific financial area to analyze?"
         (canned (91 # 100) "financial_health" ["health_assessment"; "metric_analysis"]));
      ("investment",
       mkResponse
         "Investment analysis reveals 4 high-priority opportunities! Technology infrastructure ($25k, 280% ROI, 8mo payback), Marketing expansion ($40k, 350% ROI, 6mo payback), and others. Each investment is carefully modeled for risk and return. Which investment interests you most?"
         (canned (84 # 100) "investment_analysis" ["roi_calculation"; "risk_assessment"]));
      ("default",
       mkResponse
         "I provide comprehensive financial intelligence for data-driven decisions! From budget optimization to investment analysis, cash flow forecasting to profitability insights, I ensure your financial strategy aligns with business goals. What financial area needs analysis?"
         (canned (82 # 100) "financial_analysis" ["comprehensive_analysis"; "strategic_planning"])) ]
  | SEOAgent =>
    [
      ("seo",
       mkResponse
         "SEO performance is strong! We're tracking 1,247 keywords with 127 in top 10 positions. Recent optimizations boosted 'wireless bluetooth earbuds' from position 8 to 3, generating +340 monthly visits and +$2,850 revenue. Organic traffic is up 34% overall. Need specific keyword insights?"
         (canned (90 # 100) "seo_performance" ["keyword_tracking"; "ranking_analysis"]));
      ("keyword",
       mkResponse
         "Keyword opportunities are abundant! I've identified 89 new opportunities including 'best wireless earbuds 2024' (15k searches, medium difficulty) and 'sustainable fashion brands' (9.2k searches, low difficulty). These could drive 3,480+ additional monthly visits. Want the full opportunity list?"
         (canned (87 # 100) "keyword_research" ["opportunity_identification"; "competition_analysis"]));
      ("content",
       mkResponse
         "Content optimization is delivering results! I've optimized 23 pages, with the wireless earbuds page seeing +45% organic traffic after FAQ additions and meta improvements. I'm recommending 4 new content pieces including buyer's guides and comparison articles. Ready for content strategy?"
         (canned (85 # 100) "content_optimization" ["content_strategy"; "page_optimization"]));
      ("default",
       mkResponse
         "I optimize your entire search presence! From keyword research to content strategy, technical SEO to competitor analysis, I ensure maximum organic visibility. Currently managing 92% SEO health score with continuous improvements. How can I boost your search performance?"
         (canned (83 # 100) "seo_management" ["holistic_optimization"; "performance_tracking"])) ]
  | SupplyChainAgent =>
    [
      ("supply",
       mkResponse
         "Supply chain is running efficiently! 96.2% on-time delivery rate with 47 suppliers across 32 active relationships. Top performer TechComponents Ltd maintains 98.5% delivery rate. I've optimized routes saving $12.4k/month and improved delivery times by 1.2 days average. Need supplier details?"
         (canned (93 # 100) "supply_management" ["supplier_optimization"; "delivery_tracking"]));
      ("logistics",
       mkResponse
         "Logistics optimization is delivering results! Route optimization across 23 paths saves $12,450 monthly with 15% fuel efficiency gains. Warehouse operates at 87% space utilization with 99.7% pick accuracy. Three carriers handle different volumes with FastShip Express leading at 96.8% on-time rate."
         (canned (89 # 100) "logistics_optimization" ["route_optimization"; "carrier_management"]));
      ("delivery",
       mkResponse
         "Delivery performance is excellent! 96.2% on-time rate with 2.8 days average delivery time. Urban areas perform best at 1.9 days, while rural areas average 4.2 days. I'm piloting same-day delivery in 5 cities and testing drone delivery for remote areas. Want performance details by region?"
         (canned (86 # 100) "delivery_optimization" ["performance_tracking"; "innovation_testing"]));
      ("default",
       mkResponse
         "I coordinate your entire supply chain for maximum efficiency! From supplier relationships to logistics optimization, delivery performance to cost reduction, I ensure smooth operations. Currently managing 47 suppliers with 96.2% performance. How can I optimize your supply chain?"
         (canned (81 # 100) "supply_chain_management" ["end_to_end_optimization"; "performance_monitoring"])) ]
  end.

Definition undefinedResponse : Response :=
  mkResponse "undefined" (mkMetadata None None None None None None None).

Fixpoint property {A} (key : string) (o : list (string * A)) : option A :=
  match o with
  | [] => None
  | (k, v) :: o' => if k =? key then Some v else property key o'
  end.

Definition generateAgentResponse (message : string) (type : AgentType) : Response :=
  let lowerMessage := toLowerCase message in
  let agentResponses := responses type in
  match find (fun kv => negb (fst kv =? "default") && includes lowerMessage (fst kv))
             (Object_entries agentResponses) with
  | Some (_, response) => response
  | None =>
      match property "default" agentResponses with
      | Some response => response
      | None => undefinedResponse
      end
  end.

(** ** [handleSendMessage] and the timer callbacks *)

Definition isPricingMarketQuestion (type : AgentType) (currentMessage : string) : bool :=
  let lower := toLowerCase currentMessage in
  isPricingAgent type &&
  (includes lower "market conditions"
   || (lower =? "how are market conditions affecting pricing?")
   || (includes lower "market" && includes lower "affecting" && includes lower "pricing")).

Definition isPricingOptimizationQuestion (type : AgentType) (currentMessage : string) : bool :=
  let lower := toLowerCase currentMessage in
  isPricingAgent type &&
  ((includes lower "optimize" && includes lower "pricing")
   || includes lower "can you optimize our pricing strategy"
   || includes lower "pricing strategy").

Section Component.

Variable props : Props.

(** [rnd] is the value [Math.random()] returns if the regular branch asks
    for a delay. *)
Definition handleSendMessage (now : Z) (rnd : Q) (s : State) : State :=
  if trim (inputMessage s) =? "" then s
  else
    let userMessage :=
      Message.mk (numberToString now) user (inputMessage s) now None (Some sent) None in
    let currentMessage := inputMessage s in
    let msgs := (messages s ++ [userMessage])%list in
    if isPricingOptimizationQuestion (agentType props) currentMessage then
      mkState msgs "" true "Optimizing pricing strategy..."
        (pending s ++ [Timer 2000 (OptimizeJob currentMessage)])%list (trace s)
    else if isPricingMarketQuestion (agentType props) currentMessage then
      mkState msgs "" true "Searching the web..."
        (pending s ++ [Timer 30000 (SearchJob currentMessage)])%list (trace s)
    else
      mkState msgs "" true "Agent is thinking..."
        (pending s ++ [Timer (1500 + rnd * 2000) (RespondJob currentMessage)])%list (trace s).

Definition agentMessage (now : Z) (r : Response) : Message.t :=
  Message.mk (numberToString (now + 1)) agent (content r) now
    (Some (agentName props)) (Some completed) (Some (metadata r)).

(** The body of a timer callback, run when its timer fires. *)
Definition runJob (now : Z) (j : Job) (s : State) : State :=
  match j with
  | OptimizeJob currentMessage =>
      mkState (messages s) (inputMessage s) (isTyping s) (typingMessage s)
        (pending s ++ [AwaitingPricing currentMessage])%list
        (trace s ++ [CallOptimizePricing])%list
  | SearchJob currentMessage =>
      mkState (messages s) (inputMessage s) (isTyping s) "Agent is thinking..."
        (pending s ++ [Timer 3000 (ThinkJob currentMessage)])%list (trace s)
  | ThinkJob currentMessage =>
      let r := generateAgentResponse currentMessage (agentType props) in
      mkState (messages s ++ [agentMessage now r])%list (inputMessage s) false
        "Agent is thinking..." (pending s) (trace s)
  | RespondJob currentMessage =>
      let r := generateAgentResponse currentMessage (agentType props) in
      mkState (messages s ++ [agentMessage now r])%list (inputMessage s) false
        (typingMessage s) (pending s) (trace s)
  end.

(** The rest of the optimisation callback, resumed when the call settles. *)
Definition resumeOptimization (now : Z) (api : ApiOutcome) (s : State) : State :=
  let (fx, r) := pricingSettled api in
  mkState (messages s ++ [agentMessage now r])%list (inputMessage s) false
    "Agent is thinking..." (pending s) (trace s ++ fx)%list.

Fixpoint removeNth {A} (n : nat) (l : list A) : list A :=
  match n, l with
  | _, [] => []
  | O, _ :: xs => xs
  | S n', x :: xs => x :: removeNth n' xs
  end.

Definition withPending (s : State) (p : list Task) : State :=
  mkState (messages s) (inputMessage s) (isTyping s) (typingMessage s) p (trace s).

Definition withInput (s : State) (v : string) : State :=
  mkState (messages s) v (isTyping s) (typingMessage s) (pending s) (trace s).

(** ** The rendered controls *)

Definition quickActions (type : AgentType) : list string :=
  match type with
  | CustomerServiceAgent =>
      [ "I need help with my order status"; "How do I return an item?" ]
  | RecommendationAgent =>
      [ "What products are trending right now?"; "Can you recommend products for me?" ]
  | PricingAgent =>
      [ "How are market conditions affecting pricing?";
        "Can you optimize our pricing strategy?" ]
  | InventoryAgent =>
      [ "What's our current stock status?"; "Show me demand forecasting insights" ]
  | MarketingAgent =>
      [ "Optimize our marketing campaigns"; "Show me campaign performance insights" ]
  | _ => []
  end.

(** [disabled={isTyping}] on the input field and
    [disabled={!inputMessage.trim() || isTyping}] on the send button. *)
Definition inputDisabled (s : State) : bool := isTyping s.
Definition sendDisabled (s : State) : bool :=
  (trim (inputMessage s) =? "") || isTyping s.

Inductive Event :=
| Change (value : string)
| QuickAction (n : nat)
| KeyPressEnter (now : Z) (rnd : Q)
| ClickSend (now : Z) (rnd : Q)
| TimerFires (n : nat) (now : Z)
| PricingSettles (n : nat) (api : ApiOutcome) (now : Z).

(** One event of the session: a user gesture on a control (ignored by the
    browser when the control is disabled), a timer that fires, or the
    pricing call that settles. *)
Definition step (e : Event) (s : State) : State :=
  match e with
  | Change value => if inputDisabled s then s else withInput s value
  | QuickAction n =>
      match nth_error (quickActions (agentType props)) n with
      | Some text => withInput s text
      | None => s
      end
  | KeyPressEnter now rnd => if inputDisabled s then s else handleSendMessage now rnd s
  | ClickSend now rnd => if sendDisabled s then s else handleSendMessage now rnd s
  | TimerFires n now =>
      match nth_error (pending s) n with
      | Some (Timer _ j) => runJob now j (withPending s (removeNth n (pending s)))
      | _ => s
      end
  | PricingSettles n api now =>
      match nth_error (pending s) n with
      | Some (AwaitingPricing _) =>
          resumeOptimization now api (withPending s (removeNth n (pending s)))
      | _ => s
      end
  end.

Definition run (es : list Event) (s : State) : State :=
  fold_left (fun st e => step e st) es s.

End Component.

(** ** Vocabulary of the properties *)

Definition optimizeQuestion : string := "Can you optimize our pricing strategy?".

Definition pricingProps : Props := mkProps "PricingAgent" PricingAgent.

(** A pricing chat in which a first question is being answered while a quick
    action has already filled the input field again. *)
Definition busyChat : State :=
  run pricingProps [QuickAction 0; ClickSend 1000 (1 # 2); QuickAction 1]
    (openChat pricingProps 0).

(** A pricing chat with the optimisation question typed in. *)
Definition readyChat : State :=
  run pricingProps [QuickAction 1] (openChat pricingProps 0).

(** The gestures of the user, as opposed to timers and network answers. *)
Definition isGesture (e : Event) : bool :=
  match e with
  | Change _ | QuickAction _ | KeyPressEnter _ _ | ClickSend _ _ => true
  | TimerFires _ _ | PricingSettles _ _ _ => false
  end.

Definition isSend (e : Event) : bool :=
  match e with
  | KeyPressEnter _ _ | ClickSend _ _ => true
  | _ => false
  end.

Definition isCall (e : Effect) : bool :=
  match e with CallOptimizePricing => true | _ => false end.

Definition isInvalidation (e : Effect) : bool :=
  match e with InvalidateQueries _ => true | _ => false end.

Definition userMessage (now : Z) (text : string) : Message.t :=
  Message.mk (numberToString now) user text now None (Some sent) None.

(** At most one response is in flight: either the session is idle and
    nothing is registered, or it is busy with exactly one registered task. *)
Definition oneInFlight (s : State) : Prop :=
  (isTyping s = false /\ pending s = []) \/
  (isTyping s = true /\ List.length (pending s) = 1%nat).

(** The three steps of an optimisation request: the send, the timer that
    dispatches the call, the settlement of the call. *)
Definition optimizationRun (props : Props) (send : Event) (now2 now3 : Z) (api : ApiOutcome) (s : State)
  : State :=
  let s1 := step props send s in
  let s2 := step props (TimerFires (List.length (pending s)) now2) s1 in
  step props (PricingSettles (List.length (pending s)) api now3) s2.

(** [n] completed exchanges: a user message followed by the reply. *)
Definition turns (n : nat) : list MessageType := List.concat (repeat [user; agent] n).

Definition isError (e : Effect) : bool :=
  match e with ConsoleError _ => true | _ => false end.

Definition isOptimizeTimer (t : Task) : bool :=
  match t with Timer _ (OptimizeJob _) => true | _ => false end.

Definition isAwaiting (t : Task) : bool :=
  match t with AwaitingPricing _ => true | _ => false end.

(** A user message that [handleSendMessage] routes to the pricing service. *)
Definition asksOptimization (props : Props) (m : Message.t) : bool :=
  match Message.type m with
  | user => isPricingOptimizationQuestion (agentType props) (Message.content m)
  | agent => false
  end.

Definition count {A} (f : A -> bool) (l : list A) : nat := List.length (filter f l).

(** The books of the pricing service: every optimisation question is either
    still waiting for its timer or has led to one call, and every call is
    either still awaited, or has resolved (two invalidations), or has been
    rejected (one console error). *)
Definition balanced (props : Props) (s : State) : Prop :=
  (count isCall (trace s) + count isOptimizeTimer (pending s) =
   count (asksOptimization props) (messages s))%nat /\
  (2 * count isCall (trace s) =
   2 * count isAwaiting (pending s) + count isInvalidation (trace s)
   + 2 * count isError (trace s))%nat.

(** The shape of the metadata of a table entry: confidence, category and
    actions, and none of the fields of a pricing run. *)
Definition isCanned (md : Metadata) : bool :=
  match confidence md, category md, actions md with
  | Some c, Some _, Some (_ :: _) => Num.Qltb 0 c && Num.Qltb c 1
  | _, _, _ => false
  end
  && match optimization_applied md, products_updated md,
           average_increase md, real_changes md with
     | None, None, None, None => true
     | _, _, _, _ => false
     end.

(** A user message whose text is blank. *)
Definition isBlankUserMessage (m : Message.t) : bool :=
  match Message.type m with
  | user => trim (Message.content m) =? ""
  | agent => false
  end.

(** A pricing chat with the market question typed in, and a chat of the
    inventory agent. *)
Definition marketChat : State :=
  run pricingProps [QuickAction 0] (openChat pricingProps 0).

Definition inventoryProps : Props := mkProps "InventoryAgent" InventoryAgent.

(** The alternation of user and agent messages after the welcome message;
    the last user message is unanswered while the typing indicator shows. *)
Definition alternates (s : State) : Prop :=
  exists n, map Message.type (messages s) =
            (agent :: turns n ++ (if isTyping s then [user] else []))%list.

End Chat.

(** * Properties *)

(** ** Arithmetic of draws *)

Module NumFacts.

Import Num.

Lemma Qltb_lt (x y : Q) : Qltb x y = true <-> (x < y)%Q.
Proof.
  unfold Qltb. rewrite negb_true_iff. split; intro H.
  - destruct (Qlt_le_dec x y) as [L | L]; [exact L |].
    apply Qle_bool_iff in L. congruence.
  - destruct (Qle_bool y x) eqn:E; [| reflexivity].
    apply Qle_bool_iff in E. exfalso. apply (Qlt_not_le _ _ H E).
Qed.

Lemma Qltb_ge (x y : Q) : Qltb x y = false <-> (y <= x)%Q.
Proof.
  unfold Qltb. rewrite negb_false_iff. apply Qle_bool_iff.
Qed.

Lemma inject_Z_pos (n : Z) : (0 < n)%Z -> (0 < inject_Z n)%Q.
Proof.
  intro Hn. change 0%Q with (inject_Z 0). rewrite <- Zlt_Qlt. exact Hn.
Qed.

(** [Math.floor(r * n)] for a draw [r] of [[0,1)] is an index below [n]. *)
Lemma floor_scale_range (r : Q) (n : Z) :
  (0 <= r < 1)%Q -> (0 < n)%Z -> (0 <= Qfloor (r * inject_Z n) < n)%Z.
Proof.
  intros [H0 H1] Hn.
  assert (Hq : (0 < inject_Z n)%Q) by (apply inject_Z_pos; exact Hn).
  split.
  - change 0%Z with (Qfloor (inject_Z 0)).
    apply Qfloor_resp_le. change (inject_Z 0) with 0%Q. nra.
  - pose proof (Qfloor_le (r * inject_Z n)) as F.
    assert (L : (inject_Z (Qfloor (r * inject_Z n)) < inject_Z n)%Q) by nra.
    rewrite <- Zlt_Qlt in L. exact L.
Qed.

(** [Math.floor(r * n) = j] describes the [j]-th of [n] equal slices. *)
Lemma floor_scale_slice (r : Q) (n j : Z) :
  (0 < n)%Z ->
  Qfloor (r * inject_Z n) = j <->
  (inject_Z j / inject_Z n <= r < inject_Z (j + 1) / inject_Z n)%Q.
Proof.
  intro Hn.
  assert (Hq : (0 < inject_Z n)%Q) by (apply inject_Z_pos; exact Hn).
  assert (Hne : ~ (inject_Z n == 0)%Q) by (intro E; rewrite E in Hq; discriminate).
  split.
  - intro E. subst j.
    pose proof (Qfloor_le (r * inject_Z n)) as F.
    pose proof (Qlt_floor (r * inject_Z n)) as G.
    split.
    + apply Qle_shift_div_r; assumption.
    + apply Qlt_shift_div_l; assumption.
  - intros [A B].
    assert (A' : (inject_Z j <= r * inject_Z n)%Q).
    { apply (Qmult_le_r _ _ (inject_Z n)) in A; [| exact Hq].
      setoid_replace (inject_Z j / inject_Z n * inject_Z n)%Q
        with (inject_Z j) in A by (field; exact Hne).
      exact A. }
    assert (B' : (r * inject_Z n < inject_Z (j + 1))%Q).
    { apply (Qmult_lt_r _ _ (inject_Z n)) in B; [| exact Hq].
      setoid_replace (inject_Z (j + 1) / inject_Z n * inject_Z n)%Q
        with (inject_Z (j + 1)) in B by (field; exact Hne).
      exact B. }
    pose proof (Qfloor_le (r * inject_Z n)) as F.
    pose proof (Qlt_floor (r * inject_Z n)) as G.
    assert (L1 : (inject_Z j < inject_Z (Qfloor (r * inject_Z n) + 1))%Q)
      by (eapply Qle_lt_trans; eassumption).
    assert (L2 : (inject_Z (Qfloor (r * inject_Z n)) < inject_Z (j + 1))%Q)
      by (eapply Qle_lt_trans; eassumption).
    rewrite <- Zlt_Qlt in L1, L2. lia.
Qed.

End NumFacts.

(** ** Monitoring dashboard *)

Module MonitoringSpec.

Import Num NumFacts Sorting Monitoring.
Local Open Scope list_scope.
Local Open Scope js_scope.

(** *** Running the monad *)

Lemma run_bind {A B} (c : M A) (k : A -> M B) (w : World) :
  bind c k w = k (fst (c w)) (snd (c w)).
Proof. unfold bind. destruct (c w); reflexivity. Qed.

Lemma run_ret {A} (a : A) (w : World) : ret a w = (a, w).
Proof. reflexivity. Qed.

Section Draws.

Variable rnd : nat -> Q.

Lemma random_run (w : World) :
  random rnd w =
  (rnd (cursor w), mkWorld (S (cursor w)) (executions w) (dataOps w) (alerts w) (timers w)).
Proof. reflexivity. Qed.

(** *** The data-operation generator *)

Lemma operationOfDraw_select (r : Q) : operationOfDraw r = SELECT <-> (r < 9 # 10)%Q.
Proof.
  unfold operationOfDraw. rewrite <- Qltb_lt.
  destruct (Qltb r (9 # 10)); [tauto |].
  destruct (Qltb r (95 # 100)); split; intro H; discriminate.
Qed.

Lemma operationOfDraw_insert (r : Q) :
  operationOfDraw r = INSERT <-> (9 # 10 <= r /\ r < 95 # 100)%Q.
Proof.
  unfold operationOfDraw. rewrite <- Qltb_lt, <- Qltb_ge.
  destruct (Qltb r (9 # 10)).
  - split; [discriminate | intros [H _]; discriminate].
  - destruct (Qltb r (95 # 100)); split; try tauto; try discriminate.
    intros [_ H]; discriminate.
Qed.

Lemma operationOfDraw_update (r : Q) : operationOfDraw r = UPDATE <-> (95 # 100 <= r)%Q.
Proof.
  unfold operationOfDraw.
  destruct (Qltb r (9 # 10)) eqn:E1.
  - apply Qltb_lt in E1. split; [discriminate | intro H; exfalso; lra].
  - destruct (Qltb r (95 # 100)) eqn:E2.
    + apply Qltb_lt in E2. split; [discriminate | intro H; exfalso; lra].
    + apply Qltb_ge in E2. tauto.
Qed.

Lemma operationOfDraw_not_delete (r : Q) : operationOfDraw r <> DELETE.
Proof.
  unfold operationOfDraw.
  destruct (Qltb r (9 # 10)); [discriminate |].
  destruct (Qltb r (95 # 100)); discriminate.
Qed.

Lemma generateDataOperation_operation (now : Z) (agent : string) (w : World) :
  DataOperation.operation (fst (generateDataOperation rnd now agent w)) =
  operationOfDraw (rnd (S (cursor w))).
Proof. reflexivity. Qed.

Lemma generateDataOperation_world (now : Z) (agent : string) (w : World) :
  snd (generateDataOperation rnd now agent w) =
  mkWorld (4 + cursor w) (executions w) (dataOps w) (alerts w) (timers w).
Proof. reflexivity. Qed.

End Draws.

Lemma count_below (m n : nat) :
  List.length (filter (fun k => (k <? m)%nat) (seq 0 n)) = Nat.min m n.
Proof.
  induction n as [| n IH].
  - rewrite Nat.min_0_r. reflexivity.
  - rewrite seq_S, filter_app, length_app, IH. simpl.
    destruct (Nat.ltb_spec n m); simpl; lia.
Qed.

Lemma gridDraw_select (n k : nat) :
  (0 < n)%nat -> isSelect (operationOfDraw (gridDraw n k)) = (k <? 9 * n)%nat.
Proof.
  intro Hn. unfold operationOfDraw.
  assert (E : Qltb (gridDraw n k) (9 # 10) = (k <? 9 * n)%nat).
  { destruct (Nat.ltb_spec k (9 * n)) as [L | L].
    - apply Qltb_lt. unfold gridDraw, Qlt. simpl. lia.
    - apply Qltb_ge. unfold gridDraw, Qle. simpl. lia. }
  rewrite E. destruct (k <? 9 * n)%nat; [reflexivity |].
  destruct (Qltb (gridDraw n k) (95 # 100)); reflexivity.
Qed.

(** C5. [generateDataOperation] reads its operation off its second draw [r]:
    SELECT when [r < 0.9], INSERT when [0.9 <= r < 0.95], UPDATE otherwise,
    never DELETE; the SELECT branch is the part [r < 0.9] of the draw space,
    nine tenths of any uniform grid of draws. *)
Theorem data_operation_follows_draw :
  forall (rnd : nat -> Q) (now : Z) (agent : string) (w : World),
    let op := DataOperation.operation (fst (generateDataOperation rnd now agent w)) in
    let r := rnd (S (cursor w)) in
    (op = SELECT <-> (r < 9 # 10)%Q) /\
    (op = INSERT <-> (9 # 10 <= r /\ r < 95 # 100)%Q) /\
    (op = UPDATE <-> (95 # 100 <= r)%Q) /\
    op <> DELETE /\
    (op = SELECT \/ op = INSERT \/ op = UPDATE) /\
    (forall n : nat,
        List.length (filter (fun k => isSelect (operationOfDraw (gridDraw (S n) k)))
                       (seq 0 (10 * S n))) = (9 * S n)%nat).
Proof.
  intros rnd now agent w op r.
  assert (E : op = operationOfDraw r) by reflexivity.
  rewrite E.
  split; [apply operationOfDraw_select |].
  split; [apply operationOfDraw_insert |].
  split; [apply operationOfDraw_update |].
  split; [apply operationOfDraw_not_delete |].
  split.
  - unfold operationOfDraw.
    destruct (Qltb r (9 # 10)); [left; reflexivity | right].
    destruct (Qltb r (95 # 100)); [left | right]; reflexivity.
  - intro n.
    rewrite (filter_ext _ (fun k => (k <? 9 * S n)%nat)).
    + rewrite count_below. lia.
    + intro k. apply gridDraw_select. lia.
Qed.


(** *** The alert generator *)

Section Alerts.

Variable rnd : nat -> Q.

Lemma generateAlert_low (now : Z) (name : string) (w : World) :
  Qltb (rnd (3 + cursor w)) (7 # 10) = true ->
  generateAlert rnd now name w =
  (alertOf now name (nth 0 (drawnTypes rnd (cursor w)) undefinedAlertType)
     (rnd (4 + cursor w)),
   skipDraws 5 w).
Proof.
  intro E. cbn [Nat.add] in E. unfold generateAlert. rewrite !run_bind.
  cbn -[alertTypes Qfloor Qltb nth Qmult inject_Z]. rewrite E. reflexivity.
Qed.

Lemma generateAlert_other (now : Z) (name : string) (w : World) :
  Qltb (rnd (3 + cursor w)) (7 # 10) = false ->
  generateAlert rnd now name w =
  (alertOf now name
     (nth (Z.to_nat (Qfloor (rnd (4 + cursor w) * inject_Z 5) + 1))
        (drawnTypes rnd (cursor w)) undefinedAlertType)
     (rnd (5 + cursor w)),
   skipDraws 6 w).
Proof.
  intro E. cbn [Nat.add] in E. unfold generateAlert. rewrite !run_bind.
  cbn -[alertTypes Qfloor Qltb nth Qmult inject_Z]. rewrite E. reflexivity.
Qed.

Lemma generateAlert_agentName (now : Z) (name : string) (w : World) :
  MonitoringAlert.agentName (fst (generateAlert rnd now name w)) = name.
Proof.
  destruct (Qltb (rnd (3 + cursor w)) (7 # 10)) eqn:E.
  - rewrite generateAlert_low by exact E. reflexivity.
  - rewrite generateAlert_other by exact E. reflexivity.
Qed.

Lemma generateAlert_world (now : Z) (name : string) (w : World) :
  exists n, snd (generateAlert rnd now name w) = skipDraws n w.
Proof.
  destruct (Qltb (rnd (3 + cursor w)) (7 # 10)) eqn:E.
  - exists 5%nat. rewrite generateAlert_low by exact E. reflexivity.
  - exists 6%nat. rewrite generateAlert_other by exact E. reflexivity.
Qed.

Hypothesis rnd_range : forall k, (0 <= rnd k < 1)%Q.

Lemma metric_range (k : nat) (n base : Z) :
  (0 < n)%Z -> (base <= Qfloor (rnd k * inject_Z n) + base < base + n)%Z.
Proof.
  intro Hn. pose proof (floor_scale_range (rnd k) n (rnd_range k) Hn). lia.
Qed.

(** C6. An alert populates at most one of the three metrics, the one of its
    archetype, with an integer of the archetype's range; the confidence-score
    archetype is chosen exactly when the selection draw is below 0.7, and
    otherwise the [j]-th of the other five exactly when the index draw falls
    in the [j]-th fifth of [[0,1)]. *)
Theorem alert_metric_and_archetype (now : Z) (name : string) (w : World) :
  let a := fst (generateAlert rnd now name w) in
  let d := MonitoringAlert.details a in
  let sel := rnd (3 + cursor w) in
  let r := rnd (4 + cursor w) in
  (populated (AlertDetails.confidenceScore d) + populated (AlertDetails.accuracy d)
   + populated (AlertDetails.dataQuality d) <= 1)%nat /\
  (AlertDetails.confidenceScore d <> None <-> archetype a = Some 0%nat) /\
  (AlertDetails.dataQuality d <> None <-> archetype a = Some 1%nat) /\
  (AlertDetails.accuracy d <> None <-> archetype a = Some 2%nat) /\
  (forall v, AlertDetails.confidenceScore d = Some v -> (45 <= v < 75)%Z) /\
  (forall v, AlertDetails.dataQuality d = Some v -> (60 <= v < 85)%Z) /\
  (forall v, AlertDetails.accuracy d = Some v -> (75 <= v < 90)%Z) /\
  (archetype a = Some 0%nat <-> (sel < 7 # 10)%Q) /\
  (forall j : nat, (1 <= j <= 5)%nat ->
     (archetype a = Some j <->
      (7 # 10 <= sel)%Q /\
      (inject_Z (Z.of_nat j - 1) / inject_Z 5 <= r
       /\ r < inject_Z (Z.of_nat j) / inject_Z 5)%Q)).
Proof.
  intros a d sel r.
  pose proof (metric_range (cursor w) 30 45 eq_refl) as Hc.
  pose proof (metric_range (1 + cursor w) 25 60 eq_refl) as Hq.
  pose proof (metric_range (2 + cursor w) 15 75 eq_refl) as Ha.
  destruct (Qltb sel (7 # 10)) eqn:E.
  - assert (Ea : a = alertOf now name (nth 0 (drawnTypes rnd (cursor w)) undefinedAlertType)
                       (rnd (4 + cursor w)))
      by (unfold a; rewrite generateAlert_low by exact E; reflexivity).
    pose proof (proj1 (Qltb_lt _ _) E) as L.
    revert Ea Hc Hq Ha. unfold drawnTypes.
    generalize (Qfloor (rnd (cursor w) * inject_Z 30) + 45)%Z,
               (Qfloor (rnd (1 + cursor w) * inject_Z 25) + 60)%Z,
               (Qfloor (rnd (2 + cursor w) * inject_Z 15) + 75)%Z.
    intros c q ac Ea Hc Hq Ha.
    unfold d. rewrite Ea. cbn -[Qfloor Qmult inject_Z Qlt Qle Qdiv].
    repeat match goal with |- _ /\ _ => split end.
    + lia.
    + split; [reflexivity | discriminate].
    + split; [intro X; exfalso; apply X; reflexivity | discriminate].
    + split; [intro X; exfalso; apply X; reflexivity | discriminate].
    + intros v [= <-]. lia.
    + discriminate.
    + discriminate.
    + split; [intros _; exact L | reflexivity].
    + intros j Hjr. split.
      * destruct j as [| [| [| [| [| [| j]]]]]]; try discriminate; lia.
      * intros [X _]. exfalso. lra.
  - pose proof (proj1 (Qltb_ge _ _) E) as L.
    pose proof (floor_scale_range r 5 (rnd_range _) eq_refl) as Hi.
    assert (Ea : a = alertOf now name
                       (nth (Z.to_nat (Qfloor (r * inject_Z 5) + 1))
                          (drawnTypes rnd (cursor w)) undefinedAlertType)
                       (rnd (5 + cursor w)))
      by (unfold a; rewrite generateAlert_other by exact E; reflexivity).
    assert (Hslice : forall j : Z,
               Qfloor (r * inject_Z 5) = j <->
               (inject_Z j / inject_Z 5 <= r /\ r < inject_Z (j + 1) / inject_Z 5)%Q)
      by (intro j; apply floor_scale_slice; reflexivity).
    assert (Hcase : Qfloor (r * inject_Z 5) = 0%Z \/ Qfloor (r * inject_Z 5) = 1%Z \/
                    Qfloor (r * inject_Z 5) = 2%Z \/ Qfloor (r * inject_Z 5) = 3%Z \/
                    Qfloor (r * inject_Z 5) = 4%Z) by lia.
    revert Ea Hc Hq Ha. unfold drawnTypes.
    generalize (Qfloor (rnd (cursor w) * inject_Z 30) + 45)%Z,
               (Qfloor (rnd (1 + cursor w) * inject_Z 25) + 60)%Z,
               (Qfloor (rnd (2 + cursor w) * inject_Z 15) + 75)%Z.
    intros c q ac Ea Hc Hq Ha.
    unfold d. rewrite Ea.
    assert (Hj : forall j : nat, (1 <= j <= 5)%nat ->
               (Qfloor (r * inject_Z 5) = (Z.of_nat j - 1)%Z <->
                (7 # 10 <= sel)%Q /\
                (inject_Z (Z.of_nat j - 1) / inject_Z 5 <= r
                 /\ r < inject_Z (Z.of_nat j) / inject_Z 5)%Q)).
    { intros j Hjr. rewrite (Hslice (Z.of_nat j - 1)%Z).
      replace (Z.of_nat j - 1 + 1)%Z with (Z.of_nat j) by lia. tauto. }
    destruct Hcase as [F | [F | [F | [F | F]]]]; rewrite F;
      match goal with
      | |- context [Z.to_nat ?z] =>
          let n := eval vm_compute in (Z.to_nat z) in change (Z.to_nat z) with n
      end;
      cbn -[Qfloor Qmult inject_Z Qlt Qle Qdiv];
      repeat match goal with |- _ /\ _ => split end;
      try lia;
      try (split; [reflexivity | discriminate]);
      try (split; [intro X; exfalso; apply X; reflexivity | discriminate]);
      try (split; [discriminate | intro X; exfalso; lra]);
      try (intros v [= <-]; lia);
      try discriminate;
      try (intros j Hjr; rewrite <- (Hj j Hjr); rewrite F;
           destruct j as [| [| [| [| [| [| j]]]]]];
           split; intro X; try discriminate; try reflexivity; lia).
Qed.

End Alerts.


(** *** The callback of the update map *)

Lemma mapM_cons {A B} (f : A -> M B) (x : A) (l : list A) (w : World) :
  mapM f (x :: l) w =
  (fst (f x w) :: fst (mapM f l (snd (f x w))), snd (mapM f l (snd (f x w)))).
Proof.
  simpl. rewrite !run_bind. reflexivity.
Qed.

Lemma mapM_app {A B} (f : A -> M B) (l1 l2 : list A) (w : World) :
  mapM f (l1 ++ l2) w =
  (fst (mapM f l1 w) ++ fst (mapM f l2 (snd (mapM f l1 w))),
   snd (mapM f l2 (snd (mapM f l1 w)))).
Proof.
  revert w. induction l1 as [| x l1 IH]; intro w.
  - simpl. destruct (mapM f l2 w); reflexivity.
  - rewrite <- app_comm_cons, !mapM_cons, IH. reflexivity.
Qed.

Lemma mapM_length {A B} (f : A -> M B) (l : list A) (w : World) :
  List.length (fst (mapM f l w)) = List.length l.
Proof.
  revert w. induction l as [| x l IH]; intro w; [reflexivity |].
  rewrite mapM_cons. simpl. rewrite IH. reflexivity.
Qed.

Lemma mapM_nth {A B} (f : A -> M B) (pre : list A) (x : A) (post : list A) (w : World) :
  nth_error (fst (mapM f (pre ++ x :: post) w)) (List.length pre) =
  Some (fst (f x (snd (mapM f pre w)))).
Proof.
  rewrite mapM_app. cbn [fst]. rewrite nth_error_app2; rewrite mapM_length; [| lia].
  rewrite Nat.sub_diag, mapM_cons. reflexivity.
Qed.

Section Update.

Variable rnd : nat -> Q.
Variable now : Z.

Lemma updateExecution_running (exec : AgentExecution.t) (w : World) :
  isRunning exec = true ->
  updateExecution rnd now exec w = settle rnd now exec (snd (emitWork rnd now exec w)).
Proof.
  intro H. unfold updateExecution, emitWork. rewrite H, !run_bind. reflexivity.
Qed.

Lemma updateExecution_terminal (exec : AgentExecution.t) (w : World) :
  isRunning exec = false -> updateExecution rnd now exec w = (exec, w).
Proof.
  intro H. unfold updateExecution. rewrite H. reflexivity.
Qed.

Lemma settle_stopped (exec : AgentExecution.t) (w1 : World) :
  Qltb (stopDraw rnd w1) (2 # 100) = true ->
  settle rnd now exec w1 =
  (AgentExecution.with_status_duration exec stopped (AgentExecution.duration exec + 2)%Q,
   let g := generateAlert rnd now (AgentExecution.agentName exec) (skipDraws 1 w1) in
   mkWorld (cursor (snd g)) (executions (snd g)) (dataOps (snd g))
     (pushAlert (fst g) (alerts (snd g))) (timers (snd g))).
Proof.
  intro E. unfold settle, stopDraw in *. rewrite run_bind, random_run. cbn [fst snd].
  rewrite E, !run_bind. reflexivity.
Qed.

Lemma settle_result (exec : AgentExecution.t) (w1 : World) :
  let newDuration := (AgentExecution.duration exec + 2)%Q in
  fst (settle rnd now exec w1) =
  if Qltb (stopDraw rnd w1) (2 # 100)
  then AgentExecution.with_status_duration exec stopped newDuration
  else if Qltb (3 + thresholdDraw rnd w1 * 12) newDuration
       then AgentExecution.with_status_duration exec completed newDuration
       else AgentExecution.with_duration exec newDuration.
Proof.
  intro newDuration. unfold settle, stopDraw, thresholdDraw.
  rewrite run_bind, random_run. cbn [fst snd].
  destruct (Qltb (rnd (cursor w1)) (2 # 100)).
  - rewrite !run_bind. reflexivity.
  - rewrite run_bind, random_run. cbn [fst snd cursor].
    fold newDuration.
    destruct (Qltb (3 + rnd (S (cursor w1)) * 12) newDuration).
    + rewrite !run_bind. reflexivity.
    + reflexivity.
Qed.

(** C4. When the update map reaches a running execution whose stop draw is
    below 0.02 while the threshold the completion check would draw is already
    exceeded, the execution becomes stopped, not completed, and one alert for
    its agent is pushed. *)
Theorem forced_stop_precedes_completion
    (pre : list AgentExecution.t) (exec : AgentExecution.t)
    (post : list AgentExecution.t) (w : World) :
  let w0 := snd (mapM (updateExecution rnd now) pre w) in
  let w1 := snd (emitWork rnd now exec w0) in
  isRunning exec = true ->
  (stopDraw rnd w1 < 2 # 100)%Q ->
  (3 + thresholdDraw rnd w1 * 12 < AgentExecution.duration exec + 2)%Q ->
  exists (exec' : AgentExecution.t) (alert : MonitoringAlert.t),
    nth_error (fst (mapM (updateExecution rnd now) (pre ++ exec :: post) w))
      (List.length pre) = Some exec' /\
    AgentExecution.status exec' = stopped /\
    AgentExecution.status exec' <> completed /\
    AgentExecution.duration exec' = (AgentExecution.duration exec + 2)%Q /\
    MonitoringAlert.agentName alert = AgentExecution.agentName exec /\
    alerts (snd (updateExecution rnd now exec w0)) = pushAlert alert (alerts w1) /\
    timers (snd (updateExecution rnd now exec w0)) = timers w0.
Proof.
  intros w0 w1 Hrun Hstop Hdone.
  apply Qltb_lt in Hstop.
  exists (fst (updateExecution rnd now exec w0)),
         (fst (generateAlert rnd now (AgentExecution.agentName exec) (skipDraws 1 w1))).
  split; [apply mapM_nth |].
  rewrite (updateExecution_running exec w0 Hrun). fold w1.
  rewrite (settle_stopped exec w1 Hstop). cbn [fst snd alerts timers].
  split; [reflexivity |]. split; [discriminate |]. split; [reflexivity |].
  split; [apply generateAlert_agentName |].
  destruct (generateAlert_world rnd now (AgentExecution.agentName exec) (skipDraws 1 w1))
    as [n En].
  rewrite En. cbn [skipDraws alerts timers]. split; [reflexivity |].
  unfold w1, emitWork. rewrite run_bind, random_run. cbn [fst snd].
  destruct (Qltb (rnd (cursor w0)) (3 # 10)); reflexivity.
Qed.

End Update.


(** *** Completion *)

Section Completion.

Variable rnd : nat -> Q.
Hypothesis rnd_range : forall k, (0 <= rnd k < 1)%Q.
Variable now : Z.

Lemma generateExecution_run (w : World) :
  generateExecution rnd now w =
  (AgentExecution.mk (mkIdent "exec" now (rnd (2 + cursor w)) None)
     (nth (Z.to_nat (Qfloor (rnd (cursor w) * inject_Z 9))) agentNames "undefined")
     (nth (Z.to_nat (Qfloor (rnd (1 + cursor w) * inject_Z 12))) operations "undefined")
     running now 0 (Qfloor (rnd (3 + cursor w) * inject_Z 50000) + 10000),
   skipDraws 4 w).
Proof. reflexivity. Qed.

(** C8, as the code has it. An execution is spawned from four draws (agent,
    operation, identifier, record count), none of them a threshold.  On each
    tick a running execution that is not force-stopped is compared with a
    threshold [3 + 12 r] drawn on that tick, a value of [[3,15)]: it becomes
    completed exactly when its incremented duration exceeds that threshold
    and stays running otherwise. *)
Theorem completion_threshold_drawn_each_tick (exec : AgentExecution.t) (w0 : World) :
  let w1 := snd (emitWork rnd now exec w0) in
  let exec' := fst (updateExecution rnd now exec w0) in
  let threshold := (3 + thresholdDraw rnd w1 * 12)%Q in
  isRunning exec = true ->
  (2 # 100 <= stopDraw rnd w1)%Q ->
  (3 <= threshold /\ threshold < 15)%Q /\
  (AgentExecution.status exec' = completed <->
   (threshold < AgentExecution.duration exec + 2)%Q) /\
  (AgentExecution.status exec' = running <->
   (AgentExecution.duration exec + 2 <= threshold)%Q) /\
  AgentExecution.duration exec' = (AgentExecution.duration exec + 2)%Q /\
  (forall w, snd (generateExecution rnd now w) = skipDraws 4 w /\
             AgentExecution.status (fst (generateExecution rnd now w)) = running /\
             AgentExecution.duration (fst (generateExecution rnd now w)) = 0%Q).
Proof.
  intros w1 exec' threshold Hrun Hstop.
  apply Qltb_ge in Hstop.
  assert (E : exec' =
              if Qltb threshold (AgentExecution.duration exec + 2)
              then AgentExecution.with_status_duration exec completed
                     (AgentExecution.duration exec + 2)
              else AgentExecution.with_duration exec (AgentExecution.duration exec + 2)).
  { unfold exec'. rewrite (updateExecution_running rnd now exec w0 Hrun). fold w1.
    rewrite settle_result. rewrite Hstop. reflexivity. }
  assert (Hs : AgentExecution.status exec = running)
    by (unfold isRunning in Hrun; destruct (AgentExecution.status exec);
        try discriminate; reflexivity).
  split.
  - unfold threshold, thresholdDraw. pose proof (rnd_range (S (cursor w1))). lra.
  - rewrite E. destruct (Qltb threshold (AgentExecution.duration exec + 2)) eqn:C.
    + apply Qltb_lt in C. cbn.
      split; [tauto |]. split; [| split; [reflexivity | intro w; repeat split]].
      split; [discriminate | intro X; exfalso; lra].
    + apply Qltb_ge in C. cbn. rewrite Hs.
      split; [split; [discriminate | intro X; exfalso; lra] |].
      split; [tauto |]. split; [reflexivity | intro w; repeat split].
Qed.

End Completion.

(** C8, as stated, fails: no threshold fixed for an execution decides its
    completion.  The same two-second-old execution completes on a tick whose
    threshold draw is 0 and keeps running on a tick whose draw is 1/2. *)
Lemma completion_threshold_not_fixed :
  ~ exists threshold : AgentExecution.t -> Q,
      forall (rnd : nat -> Q) (now : Z) (exec : AgentExecution.t) (w : World),
        isRunning exec = true ->
        AgentExecution.status (fst (updateExecution rnd now exec w)) <> stopped ->
        (AgentExecution.status (fst (updateExecution rnd now exec w)) = completed <->
         (threshold exec < AgentExecution.duration exec + 2)%Q).
Proof.
  intros [threshold H].
  pose proof (H (constStream (1 # 2)) t0 youngExecution emptyWorld eq_refl) as HA.
  pose proof (H (listStream [1 # 2; 1 # 2; 0] (1 # 2)) t0 youngExecution emptyWorld eq_refl)
    as HB.
  assert (EA : AgentExecution.status
                 (fst (updateExecution (constStream (1 # 2)) t0 youngExecution emptyWorld))
               = running) by (vm_compute; reflexivity).
  assert (EB : AgentExecution.status
                 (fst (updateExecution (listStream [1 # 2; 1 # 2; 0] (1 # 2)) t0
                         youngExecution emptyWorld))
               = completed) by (vm_compute; reflexivity).
  rewrite EA in HA. rewrite EB in HB.
  assert (L : (threshold youngExecution < AgentExecution.duration youngExecution + 2)%Q)
    by (apply HB; [discriminate | reflexivity]).
  apply HA in L; [discriminate | discriminate].
Qed.

(** *** The spawn check *)

Lemma seededWorld_initial :
  initialWorld (constStream (1 # 100)) 0 t0 = Some seededWorld.
Proof. vm_compute. reflexivity. Qed.

(** C7 fails on the code: the execution spawned because none is running is
    handed to the update map of the same tick, which stops it when its stop
    draw is below 0.02.  With every draw equal to 0.01 the dashboard reaches,
    after one tick, a state without running execution, and the next tick
    leaves it without running execution again. *)
Theorem spawned_execution_stopped_in_same_tick :
  reachable (constStream (1 # 100)) haltedWorld /\
  runningCount haltedWorld = 0%nat /\
  runningCount (snd (setExecutions (spawnCheck (constStream (1 # 100)) (t0 + 4000))
                       haltedWorld)) = 1%nat /\
  runningCount (snd (tick (constStream (1 # 100)) (t0 + 4000) haltedWorld)) = 0%nat.
Proof.
  split; [| split; [| split]].
  - apply reach_tick. apply (reach_init _ 0 t0). exact seededWorld_initial.
  - vm_compute. reflexivity.
  - vm_compute. reflexivity.
  - vm_compute. reflexivity.
Qed.


(** *** Loops and sorting of the initialisers *)

Lemma forPush_step {A} (fuel i : nat) (bound : M Z) (body : nat -> M A)
    (acc : list A) (w : World) :
  forPush (S fuel) i bound body acc w =
  if (Z.of_nat i <? fst (bound w))%Z
  then forPush fuel (S i) bound body (acc ++ [fst (body i (snd (bound w)))])
         (snd (body i (snd (bound w))))
  else (Some acc, snd (bound w)).
Proof.
  simpl. rewrite run_bind.
  destruct (Z.of_nat i <? fst (bound w))%Z; [rewrite run_bind |]; reflexivity.
Qed.

Lemma forPush_Forall {A} (P : A -> Prop) (bound : M Z) (body : nat -> M A) :
  (forall i w, P (fst (body i w))) ->
  forall fuel i acc w l,
    Forall P acc ->
    fst (forPush fuel i bound body acc w) = Some l -> Forall P l.
Proof.
  intros Hb fuel. induction fuel as [| fuel IH]; intros i acc w l Hacc E.
  - discriminate.
  - rewrite forPush_step in E.
    destruct (Z.of_nat i <? fst (bound w))%Z.
    + apply IH in E; [exact E |].
      apply Forall_app. split; [exact Hacc | constructor; [apply Hb | constructor]].
    + injection E as <-. exact Hacc.
Qed.

Lemma forPush_length {A} (B : nat) (bound : M Z) (body : nat -> M A) :
  (forall w, (fst (bound w) <= Z.of_nat B)%Z) ->
  forall fuel i acc w l,
    fst (forPush fuel i bound body acc w) = Some l ->
    (List.length l <= List.length acc + (B - i))%nat.
Proof.
  intros Hb fuel. induction fuel as [| fuel IH]; intros i acc w l E.
  - discriminate.
  - rewrite forPush_step in E.
    destruct (Z.ltb_spec (Z.of_nat i) (fst (bound w))) as [L | L].
    + apply IH in E. rewrite length_app in E. simpl in E.
      pose proof (Hb w). lia.
    + injection E as <-. lia.
Qed.

Lemma forPush_some {A} (B : nat) (bound : M Z) (body : nat -> M A) :
  (forall w, (fst (bound w) <= Z.of_nat B)%Z) ->
  forall fuel i acc w,
    (i <= B)%nat -> (B < i + fuel)%nat ->
    exists l, fst (forPush fuel i bound body acc w) = Some l.
Proof.
  intros Hb fuel. induction fuel as [| fuel IH]; intros i acc w Hi Hf.
  - lia.
  - rewrite forPush_step.
    destruct (Z.ltb_spec (Z.of_nat i) (fst (bound w))) as [L | L].
    + pose proof (Hb w). apply IH; lia.
    + eexists. reflexivity.
Qed.

Lemma insertBy_Forall {A} (P : A -> Prop) (precedes : A -> A -> bool) (x : A) (l : list A) :
  P x -> Forall P l -> Forall P (insertBy precedes x l).
Proof.
  intros Hx Hl. induction Hl as [| y ys Hy Hys IH]; simpl.
  - constructor; [exact Hx | constructor].
  - destruct (precedes x y); repeat constructor; assumption.
Qed.

Lemma sortBy_Forall {A} (P : A -> Prop) (precedes : A -> A -> bool) (l : list A) :
  Forall P l -> Forall P (sortBy precedes l).
Proof.
  intro Hl. induction Hl as [| x xs Hx Hxs IH]; simpl.
  - constructor.
  - apply insertBy_Forall; assumption.
Qed.

Lemma insertBy_length {A} (precedes : A -> A -> bool) (x : A) (l : list A) :
  List.length (insertBy precedes x l) = S (List.length l).
Proof.
  induction l as [| y ys IH]; simpl; [reflexivity |].
  destruct (precedes x y); simpl; [reflexivity | rewrite IH; reflexivity].
Qed.

Lemma sortBy_length {A} (precedes : A -> A -> bool) (l : list A) :
  List.length (sortBy precedes l) = List.length l.
Proof.
  induction l as [| x xs IH]; simpl; [reflexivity |].
  rewrite insertBy_length, IH. reflexivity.
Qed.

(** *** Bounded ledgers *)

Lemma pushExecution_capped e l : pushExecution e l = pushCapped 50 e l.
Proof. reflexivity. Qed.
Lemma pushDataOp_capped d l : pushDataOp d l = pushCapped 100 d l.
Proof. reflexivity. Qed.
Lemma pushAlert_capped a l : pushAlert a l = pushCapped 15 a l.
Proof. reflexivity. Qed.

Lemma pushCapped_length {A} (cap : nat) (x : A) (l : list A) :
  (List.length (pushCapped cap x l) <= cap)%nat.
Proof. unfold pushCapped. rewrite length_firstn. lia. Qed.

Lemma pushCapped_room {A} (cap : nat) (x : A) (l : list A) :
  (List.length l < cap)%nat -> pushCapped cap x l = x :: l.
Proof.
  intro H. unfold pushCapped. apply firstn_all2. simpl. lia.
Qed.

Lemma firstn_removelast {A} (l : list A) :
  firstn (List.length l - 1) l = removelast l.
Proof.
  induction l as [| x [| y ys] IH]; try reflexivity.
  replace (List.length (x :: y :: ys) - 1)%nat with (S (List.length (y :: ys) - 1))
    by (simpl; lia).
  cbn [firstn]. rewrite IH. reflexivity.
Qed.

Lemma pushCapped_full {A} (cap : nat) (x : A) (l : list A) :
  (0 < cap)%nat -> List.length l = cap -> pushCapped cap x l = x :: removelast l.
Proof.
  intros Hc H. unfold pushCapped. destruct cap as [| c]; [lia |].
  rewrite firstn_cons. f_equal. rewrite <- firstn_removelast. f_equal. lia.
Qed.

Lemma firstn_firstn_cons {A} (cap : nat) (x : A) (l : list A) :
  pushCapped cap x (firstn cap l) = pushCapped cap x l.
Proof.
  unfold pushCapped. destruct cap as [| c]; [reflexivity |].
  rewrite !firstn_cons. f_equal. rewrite firstn_firstn. f_equal. lia.
Qed.

Lemma pushCapped_history {A} (cap : nat) (xs : list A) (l0 : list A) :
  (List.length l0 <= cap)%nat ->
  fold_left (fun l x => pushCapped cap x l) xs l0 = firstn cap (rev xs ++ l0).
Proof.
  intro H0.
  assert (G : forall l, fold_left (fun l x => pushCapped cap x l) xs (firstn cap l)
                        = firstn cap (rev xs ++ l)).
  { induction xs as [| x xs IH]; intro l.
    - reflexivity.
    - simpl. rewrite firstn_firstn_cons. unfold pushCapped at 2.
      rewrite IH. rewrite <- app_assoc. reflexivity. }
  rewrite <- (firstn_all2 (n := cap) l0) at 1 by exact H0. apply G.
Qed.


Lemma insertions_refl {A} (cap : nat) (l : list A) : insertions cap l l.
Proof. exists []. reflexivity. Qed.

Lemma insertions_trans {A} (cap : nat) (l1 l2 l3 : list A) :
  insertions cap l1 l2 -> insertions cap l2 l3 -> insertions cap l1 l3.
Proof.
  intros [xs ->] [ys ->]. exists (xs ++ ys). rewrite fold_left_app. reflexivity.
Qed.

Lemma insertions_history {A} (cap : nat) (l l' : list A) :
  (List.length l <= cap)%nat -> insertions cap l l' ->
  exists xs, l' = firstn cap (rev xs ++ l).
Proof.
  intros H [xs ->]. exists xs. apply pushCapped_history. exact H.
Qed.

(** *** Computations that respect a preorder on worlds *)

Section Respects.

Variable R : World -> World -> Prop.
Hypothesis R_refl : forall w, R w w.
Hypothesis R_trans : forall w1 w2 w3, R w1 w2 -> R w2 w3 -> R w1 w3.

Lemma respects_ret {A} (a : A) : respects R (ret a).
Proof. intro w. apply R_refl. Qed.

Lemma respects_bind {A B} (c : M A) (k : A -> M B) :
  respects R c -> (forall a, respects R (k a)) -> respects R (bind c k).
Proof.
  intros Hc Hk w. rewrite run_bind. eapply R_trans; [apply Hc | apply Hk].
Qed.

Lemma respects_if {A} (b : bool) (c1 c2 : M A) :
  respects R c1 -> respects R c2 -> respects R (if b then c1 else c2).
Proof. destruct b; tauto. Qed.

Lemma respects_mapM {A B} (f : A -> M B) (l : list A) :
  (forall x, respects R (f x)) -> respects R (mapM f l).
Proof.
  intro Hf. induction l as [| x xs IH]; simpl.
  - apply respects_ret.
  - apply respects_bind; [apply Hf | intro y].
    apply respects_bind; [exact IH | intro ys]. apply respects_ret.
Qed.

Lemma respects_forEach {A} (l : list A) (body : A -> M unit) :
  (forall x, respects R (body x)) -> respects R (forEach l body).
Proof.
  intro Hb. induction l as [| x xs IH]; simpl.
  - apply respects_ret.
  - apply respects_bind; [apply Hb | intros _; exact IH].
Qed.

Lemma respects_setExecutions (f : list AgentExecution.t -> M (list AgentExecution.t)) :
  (forall w l, R w (mkWorld (cursor w) l (dataOps w) (alerts w) (timers w))) ->
  (forall l, respects R (f l)) -> respects R (setExecutions f).
Proof.
  intros Hset Hf w. unfold setExecutions.
  pose proof (Hf (executions w) w) as H1.
  destruct (f (executions w) w) as [l w']. cbn [snd] in *.
  eapply R_trans; [exact H1 | apply Hset].
Qed.

End Respects.

Lemma ledgerStep_same (w w' : World) :
  dataOps w' = dataOps w -> alerts w' = alerts w -> ledgerStep w w'.
Proof.
  intros Hd Ha. split; exists []; simpl; assumption.
Qed.

Lemma ledgerStep_refl (w : World) : ledgerStep w w.
Proof. apply ledgerStep_same; reflexivity. Qed.

Lemma ledgerStep_trans (w1 w2 w3 : World) :
  ledgerStep w1 w2 -> ledgerStep w2 w3 -> ledgerStep w1 w3.
Proof.
  intros [[d1 Hd1] [a1 Ha1]] [[d2 Hd2] [a2 Ha2]]. split.
  - exists (d1 ++ d2). rewrite fold_left_app, <- Hd1. exact Hd2.
  - exists (a1 ++ a2). rewrite fold_left_app, <- Ha1. exact Ha2.
Qed.

Lemma fold_push_length {A} (cap : nat) (xs : list A) (l : list A) :
  (List.length l <= cap)%nat ->
  (List.length (fold_left (fun l x => pushCapped cap x l) xs l) <= cap)%nat.
Proof.
  revert l. induction xs as [| x xs IH]; intros l H; simpl; [exact H |].
  apply IH. apply pushCapped_length.
Qed.

Lemma ledgerStep_length (w w' : World) :
  ledgerStep w w' ->
  (List.length (dataOps w) <= 100)%nat -> (List.length (alerts w) <= 15)%nat ->
  (List.length (dataOps w') <= 100)%nat /\ (List.length (alerts w') <= 15)%nat.
Proof.
  intros [[ds Hd] [al Ha]] H1 H2. rewrite Hd, Ha. split.
  - apply (fold_push_length 100 ds). exact H1.
  - apply (fold_push_length 15 al). exact H2.
Qed.

Section Ledgers.

Variable rnd : nat -> Q.

Ltac ledger_prim := intro w; apply ledgerStep_same; reflexivity.

Ltac ledger :=
  repeat first
    [ apply (respects_ret ledgerStep ledgerStep_refl)
    | apply (respects_bind ledgerStep ledgerStep_trans); [| intro]
    | apply (respects_if ledgerStep)
    | apply (respects_forEach ledgerStep ledgerStep_refl ledgerStep_trans); intro
    | apply (respects_mapM ledgerStep ledgerStep_refl ledgerStep_trans); intro
    | assumption
    | ledger_prim ].

Lemma steps_random : respects ledgerStep (random rnd).
Proof. ledger_prim. Qed.

Lemma steps_setDataOps (d : DataOperation.t) : respects ledgerStep (setDataOps (pushDataOp d)).
Proof.
  intro w. split; [exists [d] | exists []]; reflexivity.
Qed.

Lemma steps_setAlerts (a : MonitoringAlert.t) : respects ledgerStep (setAlerts (pushAlert a)).
Proof.
  intro w. split; [exists [] | exists [a]]; reflexivity.
Qed.

Lemma steps_generateDataOperation now agent : respects ledgerStep (generateDataOperation rnd now agent).
Proof. ledger_prim. Qed.

Lemma steps_generateExecution now : respects ledgerStep (generateExecution rnd now).
Proof. ledger_prim. Qed.

Lemma steps_generateAlert now agent : respects ledgerStep (generateAlert rnd now agent).
Proof.
  intro w. destruct (generateAlert_world rnd now agent w) as [n E].
  rewrite E. apply ledgerStep_same; reflexivity.
Qed.

Lemma steps_updateExecution now exec : respects ledgerStep (updateExecution rnd now exec).
Proof.
  pose proof steps_random. pose proof steps_setDataOps. pose proof steps_setAlerts.
  pose proof steps_generateDataOperation. pose proof steps_generateAlert.
  unfold updateExecution, randomIndex. cbv zeta.
  destruct (isRunning exec); ledger; auto.
Qed.

Lemma steps_spawnCheck now prev : respects ledgerStep (spawnCheck rnd now prev).
Proof.
  pose proof steps_random. pose proof steps_generateExecution.
  unfold spawnCheck. cbv zeta.
  apply (respects_bind ledgerStep ledgerStep_trans).
  - destruct (List.length (filter isRunning prev) =? 0)%nat; [ledger |].
    destruct (List.length (filter isRunning prev) <? 3)%nat; ledger.
  - intros [|]; ledger; auto.
Qed.

Lemma steps_runTimers now : respects ledgerStep (runTimers rnd now).
Proof.
  pose proof steps_setDataOps. pose proof steps_generateDataOperation.
  unfold runTimers, fireTimer. ledger; auto.
Qed.

Lemma steps_tick now : respects ledgerStep (tick rnd now).
Proof.
  pose proof steps_runTimers. pose proof steps_spawnCheck. pose proof steps_updateExecution.
  unfold tick.
  apply (respects_bind ledgerStep ledgerStep_trans); [| intro].
  - apply (respects_setExecutions ledgerStep ledgerStep_trans);
      [intros ? ?; apply ledgerStep_same; reflexivity | auto].
  - apply (respects_bind ledgerStep ledgerStep_trans); [| intro; auto].
    apply (respects_setExecutions ledgerStep ledgerStep_trans);
      [intros ? ?; apply ledgerStep_same; reflexivity |].
    intro l. apply (respects_mapM ledgerStep ledgerStep_refl ledgerStep_trans). auto.
Qed.

Lemma runTimers_executions now (w : World) :
  executions (snd (runTimers rnd now w)) = executions w.
Proof.
  assert (Hrefl : forall w, keepsExecutions w w) by reflexivity.
  assert (Htrans : forall w1 w2 w3, keepsExecutions w1 w2 -> keepsExecutions w2 w3 ->
                                    keepsExecutions w1 w3)
    by (unfold keepsExecutions; intros; congruence).
  change (keepsExecutions w (snd (runTimers rnd now w))).
  apply (respects_bind keepsExecutions Htrans); [intro; reflexivity | intro ts].
  apply (respects_forEach keepsExecutions Hrefl Htrans). intros t w'. reflexivity.
Qed.

Lemma setExecutions_run (f : list AgentExecution.t -> M (list AgentExecution.t)) (w : World) :
  snd (setExecutions f w) =
  let r := f (executions w) w in
  mkWorld (cursor (snd r)) (fst r) (dataOps (snd r)) (alerts (snd r)) (timers (snd r)).
Proof.
  unfold setExecutions. destruct (f (executions w) w); reflexivity.
Qed.

(** The executions ledger after a tick: the update map applied to the result
    of the spawn check. *)
Lemma tick_executions now (w : World) :
  let spawned := spawnCheck rnd now (executions w) w in
  let w1 := mkWorld (cursor (snd spawned)) (fst spawned) (dataOps (snd spawned))
              (alerts (snd spawned)) (timers (snd spawned)) in
  executions (snd (tick rnd now w)) =
  fst (mapM (updateExecution rnd now) (fst spawned) w1).
Proof.
  intros spawned w1. unfold tick. rewrite !run_bind, runTimers_executions.
  rewrite setExecutions_run. cbn [executions]. rewrite setExecutions_run.
  reflexivity.
Qed.

Lemma spawnCheck_cases now prev (w : World) :
  fst (spawnCheck rnd now prev w) = prev \/
  exists w', fst (spawnCheck rnd now prev w) =
             pushExecution (fst (generateExecution rnd now w')) prev.
Proof.
  unfold spawnCheck. cbv zeta. rewrite run_bind.
  match goal with |- context [if fst ?c then _ else _] => destruct (fst c) end.
  - right. rewrite run_bind. eexists. reflexivity.
  - left. reflexivity.
Qed.

Lemma updateExecution_status now exec (w : World) :
  let exec' := fst (updateExecution rnd now exec w) in
  AgentExecution.id exec' = AgentExecution.id exec /\
  (AgentExecution.status exec' = AgentExecution.status exec \/
   AgentExecution.status exec = running /\
   (AgentExecution.status exec' = stopped \/ AgentExecution.status exec' = completed)).
Proof.
  intro exec'. unfold exec'. destruct (isRunning exec) eqn:Hrun.
  - rewrite (updateExecution_running rnd now exec w Hrun), settle_result.
    assert (Hs : AgentExecution.status exec = running)
      by (unfold isRunning in Hrun; destruct (AgentExecution.status exec);
          try discriminate; reflexivity).
    destruct (Qltb _ _); [cbn; tauto |].
    destruct (Qltb _ _); cbn; tauto.
  - rewrite (updateExecution_terminal rnd now exec w Hrun). cbn. tauto.
Qed.

Lemma mapM_update_ids now (l : list AgentExecution.t) (w : World) :
  map AgentExecution.id (fst (mapM (updateExecution rnd now) l w)) =
  map AgentExecution.id l.
Proof.
  revert w. induction l as [| e l IH]; intro w; [reflexivity |].
  rewrite mapM_cons. cbn [fst map]. rewrite IH.
  rewrite (proj1 (updateExecution_status now e w)). reflexivity.
Qed.

Lemma mapM_update_admissible now (l : list AgentExecution.t) (w : World) :
  Forall admissible l -> Forall admissible (fst (mapM (updateExecution rnd now) l w)).
Proof.
  intro H. revert w. induction H as [| e l He Hl IH]; intro w.
  - constructor.
  - rewrite mapM_cons. cbn [fst]. constructor; [| apply IH].
    unfold admissible in *.
    destruct (updateExecution_status now e w) as [_ [E | [_ [E | E]]]];
      rewrite E; [exact He | discriminate | discriminate].
Qed.

End Ledgers.


(** *** Reachable dashboards *)

Lemma optBind_some {A B} (c : M (option A)) (k : A -> M (option B)) (w : World) (b : B) :
  fst (optBind c k w) = Some b ->
  exists a, fst (c w) = Some a /\ fst (k a (snd (c w))) = Some b.
Proof.
  unfold optBind. rewrite run_bind. destruct (fst (c w)) as [a |].
  - intro E. exists a. split; [reflexivity | exact E].
  - discriminate.
Qed.

Lemma optBind_run {A B} (c : M (option A)) (k : A -> M (option B)) (w : World) (a : A) :
  fst (c w) = Some a -> optBind c k w = k a (snd (c w)).
Proof.
  intro E. unfold optBind. rewrite run_bind, E. reflexivity.
Qed.

Section Reach.

Variable rnd : nat -> Q.
Hypothesis rnd_range : forall k, (0 <= rnd k < 1)%Q.

Lemma countBound_le (base range : Z) (w : World) :
  (0 < range)%Z -> (fst (countBound rnd base range w) <= base + range - 1)%Z.
Proof.
  intro H. change (fst (countBound rnd base range w))
    with (base + Qfloor (rnd (cursor w) * inject_Z range))%Z.
  pose proof (floor_scale_range (rnd (cursor w)) range (rnd_range _) H). lia.
Qed.

Lemma seedRunning_status now i w :
  AgentExecution.status (fst (seedRunning rnd now i w)) = running.
Proof. reflexivity. Qed.

Lemma seedCompleted_status now i w :
  AgentExecution.status (fst (seedCompleted rnd now i w)) = completed.
Proof. reflexivity. Qed.

Lemma seedStopped_status now i w :
  AgentExecution.status (fst (seedStopped rnd now i w)) = stopped.
Proof. reflexivity. Qed.

Lemma initialExecutions_spec now (w : World) (l : list AgentExecution.t) :
  fst (initialExecutions rnd now w) = Some l ->
  Forall admissible l /\ (List.length l <= 27)%nat.
Proof.
  unfold initialExecutions. intro E.
  apply optBind_some in E as [l1 [E1 E]].
  apply optBind_some in E as [l2 [E2 E]].
  apply optBind_some in E as [l3 [E3 E]].
  cbn in E. injection E as <-.
  pose proof (forPush_length 3 _ _ (fun w => countBound_le 1 3 w eq_refl) _ _ _ _ _ E1) as L1.
  pose proof (forPush_length 20 _ _ (fun w => countBound_le 15 6 w eq_refl) _ _ _ _ _ E2) as L2.
  pose proof (forPush_length 4 _ _ (fun w => countBound_le 2 3 w eq_refl) _ _ _ _ _ E3) as L3.
  split.
  - apply sortBy_Forall.
    eapply (forPush_Forall admissible); [| | exact E3].
    + intros i w'. unfold admissible. rewrite seedStopped_status. discriminate.
    + eapply (forPush_Forall admissible); [| | exact E2].
      * intros i w'. unfold admissible. rewrite seedCompleted_status. discriminate.
      * eapply (forPush_Forall admissible); [| | exact E1].
        -- intros i w'. unfold admissible. rewrite seedRunning_status. discriminate.
        -- constructor.
  - rewrite sortBy_length. simpl in L1. lia.
Qed.

Lemma initialExecutions_total now (w : World) :
  exists l, fst (initialExecutions rnd now w) = Some l.
Proof.
  unfold initialExecutions.
  destruct (forPush_some 3 _ (seedRunning rnd now)
              (fun w => countBound_le 1 3 w eq_refl) loopFuel 0 [] w) as [l1 E1];
    [lia | unfold loopFuel; lia |].
  rewrite (optBind_run _ _ _ _ E1).
  match goal with |- context [optBind _ _ ?w1] =>
    destruct (forPush_some 20 _ (seedCompleted rnd now)
                (fun w => countBound_le 15 6 w eq_refl) loopFuel 0 l1 w1) as [l2 E2];
      [lia | unfold loopFuel; lia |]
  end.
  rewrite (optBind_run _ _ _ _ E2).
  match goal with |- context [optBind _ _ ?w2] =>
    destruct (forPush_some 4 _ (seedStopped rnd now)
                (fun w => countBound_le 2 3 w eq_refl) loopFuel 0 l2 w2) as [l3 E3];
      [lia | unfold loopFuel; lia |]
  end.
  rewrite (optBind_run _ _ _ _ E3). eexists. reflexivity.
Qed.

Lemma initialDataOps_spec now (w : World) (l : list DataOperation.t) :
  fst (initialDataOps rnd now w) = Some l -> (List.length l <= 30)%nat.
Proof.
  unfold initialDataOps. intro E.
  apply optBind_some in E as [l1 [E1 E]]. cbn in E. injection E as <-.
  pose proof (forPush_length 30 _ _ (fun w => countBound_le 20 11 w eq_refl) _ _ _ _ _ E1)
    as L1.
  rewrite sortBy_length. simpl in L1. lia.
Qed.

Lemma initialDataOps_total now (w : World) :
  exists l, fst (initialDataOps rnd now w) = Some l.
Proof.
  unfold initialDataOps.
  destruct (forPush_some 30 _ (seedDataOp rnd now)
              (fun w => countBound_le 20 11 w eq_refl) loopFuel 0 [] w) as [l1 E1];
    [lia | unfold loopFuel; lia |].
  rewrite (optBind_run _ _ _ _ E1). eexists. reflexivity.
Qed.

Lemma initialAlerts_spec now (w : World) (l : list MonitoringAlert.t) :
  fst (initialAlerts rnd now w) = Some l -> (List.length l <= 3)%nat.
Proof.
  unfold initialAlerts. intro E.
  apply optBind_some in E as [l1 [E1 E]]. cbn in E. injection E as <-.
  pose proof (forPush_length 3 _ _ (fun w => countBound_le 1 3 w eq_refl) _ _ _ _ _ E1)
    as L1.
  rewrite sortBy_length. simpl in L1. lia.
Qed.

Lemma initialAlerts_total now (w : World) :
  exists l, fst (initialAlerts rnd now w) = Some l.
Proof.
  unfold initialAlerts.
  destruct (forPush_some 3 _ (seedAlert rnd now)
              (fun w => countBound_le 1 3 w eq_refl) loopFuel 0 [] w) as [l1 E1];
    [lia | unfold loopFuel; lia |].
  rewrite (optBind_run _ _ _ _ E1). eexists. reflexivity.
Qed.

(** The first render produces a dashboard, whatever the draws. *)
Lemma initialWorld_total (k0 : nat) (now : Z) :
  exists w, initialWorld rnd k0 now = Some w.
Proof.
  unfold initialWorld.
  destruct (initialExecutions_total now (mkWorld k0 [] [] [] [])) as [e Ee].
  destruct (initialExecutions rnd now (mkWorld k0 [] [] [] [])) as [oe w1].
  destruct (initialDataOps_total now w1) as [d Ed].
  destruct (initialDataOps rnd now w1) as [od w2].
  destruct (initialAlerts_total now w2) as [a Ea].
  destruct (initialAlerts rnd now w2) as [oa w3].
  cbn [fst] in *. subst. eexists. reflexivity.
Qed.

Lemma initialWorld_spec (k0 : nat) (now : Z) (w : World) :
  initialWorld rnd k0 now = Some w ->
  Forall admissible (executions w) /\ withinCapacity w.
Proof.
  unfold initialWorld.
  pose proof (initialExecutions_spec now (mkWorld k0 [] [] [] [])) as He.
  destruct (initialExecutions rnd now (mkWorld k0 [] [] [] [])) as [oe w1].
  pose proof (initialDataOps_spec now w1) as Hd.
  destruct (initialDataOps rnd now w1) as [od w2].
  pose proof (initialAlerts_spec now w2) as Ha.
  destruct (initialAlerts rnd now w2) as [oa w3].
  cbn [fst] in *.
  destruct oe as [e |]; [| discriminate].
  destruct od as [d |]; [| discriminate].
  destruct oa as [a |]; [| discriminate].
  intros [= <-]. cbn [executions dataOps alerts]. unfold withinCapacity.
  cbn [executions dataOps alerts].
  destruct (He e eq_refl) as [F L]. specialize (Hd d eq_refl). specialize (Ha a eq_refl).
  repeat split; try assumption; lia.
Qed.

Lemma generateExecution_admissible now (w : World) :
  admissible (fst (generateExecution rnd now w)).
Proof. unfold admissible. cbn. discriminate. Qed.

Lemma firstn_Forall {A} (P : A -> Prop) (n : nat) (l : list A) :
  Forall P l -> Forall P (firstn n l).
Proof.
  intro H. revert n. induction H as [| x l Hx Hl IH]; intros [| n]; simpl;
    constructor; auto.
Qed.

Lemma tick_spec now (w : World) :
  Forall admissible (executions w) -> withinCapacity w ->
  Forall admissible (executions (snd (tick rnd now w))) /\
  withinCapacity (snd (tick rnd now w)).
Proof.
  intros Hadm [He [Hd Ha]].
  pose proof (steps_tick rnd now w) as Hstep.
  destruct (ledgerStep_length _ _ Hstep Hd Ha) as [Hd' Ha'].
  unfold withinCapacity. rewrite (tick_executions rnd now w). cbv zeta.
  destruct (spawnCheck_cases rnd now (executions w) w) as [E | [w' E]]; rewrite E.
  - split; [apply mapM_update_admissible; exact Hadm |].
    split; [rewrite mapM_length; exact He | split; assumption].
  - split.
    + apply mapM_update_admissible. constructor.
      * apply generateExecution_admissible.
      * apply firstn_Forall. exact Hadm.
    + split; [| split; assumption].
      rewrite mapM_length, pushExecution_capped. apply pushCapped_length.
Qed.

Lemma tick_insertions now (w : World) :
  insertions 50 (executionIds w) (executionIds (snd (tick rnd now w))) /\
  insertions 100 (dataOps w) (dataOps (snd (tick rnd now w))) /\
  insertions 15 (alerts w) (alerts (snd (tick rnd now w))).
Proof.
  split; [| exact (steps_tick rnd now w)].
  unfold executionIds. rewrite (tick_executions rnd now w). cbv zeta.
  rewrite mapM_update_ids.
  destruct (spawnCheck_cases rnd now (executions w) w) as [E | [w1 E]]; rewrite E.
  - apply insertions_refl.
  - exists [AgentExecution.id (fst (generateExecution rnd now w1))].
    rewrite pushExecution_capped. unfold pushCapped. cbn [fold_left].
    rewrite <- firstn_map. reflexivity.
Qed.

Lemma runTicks_insertions (nows : list Z) (w : World) :
  insertions 50 (executionIds w) (executionIds (runTicks rnd nows w)) /\
  insertions 100 (dataOps w) (dataOps (runTicks rnd nows w)) /\
  insertions 15 (alerts w) (alerts (runTicks rnd nows w)).
Proof.
  revert w. induction nows as [| now nows IH]; intro w.
  - repeat split; apply insertions_refl.
  - unfold runTicks. cbn [fold_left]. fold (runTicks rnd nows (snd (tick rnd now w))).
    destruct (tick_insertions now w) as [A [B C]].
    destruct (IH (snd (tick rnd now w))) as [A' [B' C']].
    repeat split; eapply insertions_trans; eassumption.
Qed.

Lemma reachable_spec (w : World) :
  reachable rnd w -> Forall admissible (executions w) /\ withinCapacity w.
Proof.
  induction 1 as [k0 now w E | n w H IH | now w H IH].
  - exact (initialWorld_spec k0 now w E).
  - exact IH.
  - destruct IH as [A C]. apply tick_spec; assumption.
Qed.

(** C10. No execution of a reachable dashboard has status [failed]: the
    first render exists and seeds only running, completed and stopped
    executions, a spawned execution is running, and the update map leaves a
    status as it is or turns running into stopped or completed. *)
Theorem failed_status_unreachable :
  (forall k0 now, exists w, initialWorld rnd k0 now = Some w) /\
  (forall now w, AgentExecution.status (fst (generateExecution rnd now w)) = running) /\
  (forall now exec w,
      let exec' := fst (updateExecution rnd now exec w) in
      AgentExecution.status exec' = AgentExecution.status exec \/
      AgentExecution.status exec = running /\
      (AgentExecution.status exec' = stopped \/ AgentExecution.status exec' = completed)) /\
  (forall w, reachable rnd w ->
     forall exec, In exec (executions w) -> AgentExecution.status exec <> failed).
Proof.
  split; [exact initialWorld_total |].
  split; [reflexivity |].
  split; [intros now exec w; exact (proj2 (updateExecution_status rnd now exec w)) |].
  intros w Hw exec Hin.
  destruct (reachable_spec w Hw) as [A _].
  rewrite Forall_forall in A. exact (A exec Hin).
Qed.

End Reach.


(** *** Instances *)

Lemma constStream_range (n : Z) (d : positive) :
  (0 <= n)%Z -> (n < Z.pos d)%Z -> forall k : nat, (0 <= constStream (n # d) k < 1)%Q.
Proof.
  intros H0 H1 k. unfold constStream, Qle, Qlt. simpl. lia.
Defined.

Lemma alert_metric_and_archetype_witness :
  (forall k : nat, (0 <= constStream (1 # 2) k < 1)%Q) /\
  archetype (fst (generateAlert (constStream (1 # 2)) t0 "PricingAgent" emptyWorld))
  = Some 0%nat.
Proof.
  split; [apply constStream_range; lia |].
  pose proof (alert_metric_and_archetype (constStream (1 # 2))
                (constStream_range 1 2 ltac:(lia) ltac:(lia)) t0 "PricingAgent" emptyWorld)
    as H.
  cbv zeta in H. destruct H as (_ & _ & _ & _ & _ & _ & _ & H & _).
  apply H. unfold constStream, Qlt. simpl. lia.
Defined.

Lemma forced_stop_precedes_completion_witness :
  isRunning matureExecution = true /\
  (stopDraw (constStream (1 # 100))
     (snd (emitWork (constStream (1 # 100)) t0 matureExecution emptyWorld)) < 2 # 100)%Q /\
  (3 + thresholdDraw (constStream (1 # 100))
         (snd (emitWork (constStream (1 # 100)) t0 matureExecution emptyWorld)) * 12
   < AgentExecution.duration matureExecution + 2)%Q /\
  exists exec' : AgentExecution.t,
    nth_error (fst (mapM (updateExecution (constStream (1 # 100)) t0)
                      ([] ++ matureExecution :: []) emptyWorld)) 0 = Some exec' /\
    AgentExecution.status exec' = stopped.
Proof.
  assert (H1 : isRunning matureExecution = true) by reflexivity.
  assert (H2 : (stopDraw (constStream (1 # 100))
                  (snd (emitWork (constStream (1 # 100)) t0 matureExecution emptyWorld))
                < 2 # 100)%Q) by (vm_compute; reflexivity).
  assert (H3 : (3 + thresholdDraw (constStream (1 # 100))
                      (snd (emitWork (constStream (1 # 100)) t0 matureExecution emptyWorld))
                    * 12
                < AgentExecution.duration matureExecution + 2)%Q) by (vm_compute; reflexivity).
  split; [exact H1 |]. split; [exact H2 |]. split; [exact H3 |].
  destruct (forced_stop_precedes_completion (constStream (1 # 100)) t0 [] matureExecution []
              emptyWorld H1 H2 H3) as [exec' [alert [Hn [Hs _]]]].
  exists exec'. split; [exact Hn | exact Hs].
Defined.

Lemma completion_threshold_drawn_each_tick_witness :
  (forall k : nat, (0 <= constStream (1 # 2) k < 1)%Q) /\
  isRunning youngExecution = true /\
  (2 # 100 <= stopDraw (constStream (1 # 2))
                (snd (emitWork (constStream (1 # 2)) t0 youngExecution emptyWorld)))%Q /\
  (AgentExecution.status
     (fst (updateExecution (constStream (1 # 2)) t0 youngExecution emptyWorld)) = running <->
   (AgentExecution.duration youngExecution + 2 <=
    3 + thresholdDraw (constStream (1 # 2))
          (snd (emitWork (constStream (1 # 2)) t0 youngExecution emptyWorld)) * 12)%Q).
Proof.
  assert (H1 : isRunning youngExecution = true) by reflexivity.
  assert (H2 : (2 # 100 <= stopDraw (constStream (1 # 2))
                  (snd (emitWork (constStream (1 # 2)) t0 youngExecution emptyWorld)))%Q)
    by (vm_compute; discriminate).
  split; [apply constStream_range; lia |]. split; [exact H1 |]. split; [exact H2 |].
  exact (proj1 (proj2 (proj2
           (completion_threshold_drawn_each_tick (constStream (1 # 2))
              (constStream_range 1 2 ltac:(lia) ltac:(lia)) t0 youngExecution emptyWorld
              H1 H2)))).
Defined.

Lemma haltedWorld_reachable : reachable (constStream (1 # 100)) haltedWorld.
Proof.
  apply reach_tick. apply (reach_init _ 0 t0). exact seededWorld_initial.
Defined.

Lemma failed_status_unreachable_witness :
  (forall k : nat, (0 <= constStream (1 # 100) k < 1)%Q) /\
  reachable (constStream (1 # 100)) haltedWorld /\
  forall exec, In exec (executions haltedWorld) -> AgentExecution.status exec <> failed.
Proof.
  split; [apply constStream_range; lia |]. split; [exact haltedWorld_reachable |].
  exact (proj2 (proj2 (proj2
           (failed_status_unreachable (constStream (1 # 100))
              (constStream_range 1 100 ltac:(lia) ltac:(lia)))))
         haltedWorld haltedWorld_reachable).
Defined.

End MonitoringSpec.

(** ** Agent chat *)

Module ChatSpec.

Import Js Chat.
Local Open Scope list_scope.

Lemma nth_error_snoc {A} (l : list A) (x : A) :
  nth_error (l ++ [x]) (List.length l) = Some x.
Proof.
  rewrite nth_error_app2 by lia. rewrite Nat.sub_diag. reflexivity.
Qed.

Lemma removeNth_snoc {A} (l : list A) (x : A) :
  removeNth (List.length l) (l ++ [x]) = l.
Proof.
  induction l as [| y l IH]; simpl; [reflexivity | rewrite IH; reflexivity].
Qed.

Section Session.

Variable props : Props.

Lemma handleSendMessage_optimize (now : Z) (rnd : Q) (s : State) :
  (trim (inputMessage s) =? "")%string = false ->
  isPricingOptimizationQuestion (agentType props) (inputMessage s) = true ->
  handleSendMessage props now rnd s =
  mkState (messages s ++ [userMessage now (inputMessage s)]) "" true
    "Optimizing pricing strategy..."
    (pending s ++ [Timer 2000 (OptimizeJob (inputMessage s))]) (trace s).
Proof.
  intros H1 H2. unfold handleSendMessage. rewrite H1, H2. reflexivity.
Qed.

Lemma send_optimize (e : Event) (now : Z) (rnd : Q) (s : State) :
  e = ClickSend now rnd \/ e = KeyPressEnter now rnd ->
  sendDisabled s = false ->
  isPricingOptimizationQuestion (agentType props) (inputMessage s) = true ->
  step props e s =
  mkState (messages s ++ [userMessage now (inputMessage s)]) "" true
    "Optimizing pricing strategy..."
    (pending s ++ [Timer 2000 (OptimizeJob (inputMessage s))]) (trace s).
Proof.
  intros He Hs Hq. unfold sendDisabled in Hs. apply orb_false_iff in Hs as [H1 H2].
  destruct He as [-> | ->]; unfold step, sendDisabled, inputDisabled;
    rewrite ?H1, H2; cbn [orb]; apply handleSendMessage_optimize; assumption.
Qed.

Lemma optimizationRun_spec (send : Event) (now1 now2 now3 : Z) (rnd : Q)
    (api : ApiOutcome) (s : State) :
  send = ClickSend now1 rnd \/ send = KeyPressEnter now1 rnd ->
  sendDisabled s = false ->
  isPricingOptimizationQuestion (agentType props) (inputMessage s) = true ->
  step props (TimerFires (List.length (pending s)) now2) (step props send s) =
  mkState (messages s ++ [userMessage now1 (inputMessage s)]) "" true
    "Optimizing pricing strategy..."
    (pending s ++ [AwaitingPricing (inputMessage s)])
    (trace s ++ [CallOptimizePricing]) /\
  optimizationRun props send now2 now3 api s =
  mkState (messages s ++ [userMessage now1 (inputMessage s);
                          agentMessage props now3 (snd (pricingSettled api))])
    "" false "Agent is thinking..." (pending s)
    (trace s ++ CallOptimizePricing :: fst (pricingSettled api)).
Proof.
  intros He Hs Hq.
  assert (E2 : step props (TimerFires (List.length (pending s)) now2) (step props send s) =
               mkState (messages s ++ [userMessage now1 (inputMessage s)]) "" true
                 "Optimizing pricing strategy..."
                 (pending s ++ [AwaitingPricing (inputMessage s)])
                 (trace s ++ [CallOptimizePricing])).
  { rewrite (send_optimize send now1 rnd s He Hs Hq).
    unfold step. cbn [pending]. rewrite nth_error_snoc.
    unfold withPending. cbn [messages inputMessage isTyping typingMessage pending trace].
    rewrite removeNth_snoc. reflexivity. }
  split; [exact E2 |].
  unfold optimizationRun. cbv zeta. rewrite E2.
  unfold step. cbn [pending]. rewrite nth_error_snoc.
  unfold withPending, resumeOptimization.
  cbn [messages inputMessage isTyping typingMessage pending trace].
  rewrite removeNth_snoc. destruct (pricingSettled api) as [fx r]. cbn [fst snd].
  rewrite <- !app_assoc. reflexivity.
Qed.


Lemma settled_calls (api : ApiOutcome) : filter isCall (fst (pricingSettled api)) = [].
Proof. destruct api; reflexivity. Qed.

(** C1. In a pricing chat, sending "Can you optimize our pricing strategy?"
    makes the timer callback call [optimizePricing] once, whatever the answer;
    when the call resolves, the two invalidations follow, [products] then
    [featured-products], and the agent message appended after the user
    message has category [pricing_optimization] and the action
    [price_updates]. *)
Theorem pricing_optimization_applies_and_invalidates
    (send : Event) (now1 now2 now3 : Z) (rnd : Q)
    (data : option OptimizationData) (s : State) :
  agentType props = PricingAgent ->
  send = ClickSend now1 rnd \/ send = KeyPressEnter now1 rnd ->
  isTyping s = false ->
  inputMessage s = optimizeQuestion ->
  let s1 := step props send s in
  let s2 := step props (TimerFires (List.length (pending s)) now2) s1 in
  let s3 := optimizationRun props send now2 now3 (Resolved data) s in
  trace s1 = trace s /\
  trace s2 = trace s ++ [CallOptimizePricing] /\
  (forall api,
      List.length (filter isCall (trace (optimizationRun props send now2 now3 api s))) =
      S (List.length (filter isCall (trace s)))) /\
  trace s3 = trace s ++ [ CallOptimizePricing; InvalidateQueries ["products"%string];
                          InvalidateQueries ["featured-products"%string] ] /\
  fst (handlePricingOptimization (Resolved data) optimizeQuestion (agentType props)) =
    [ CallOptimizePricing; InvalidateQueries ["products"%string];
      InvalidateQueries ["featured-products"%string] ] /\
  isTyping s3 = false /\
  exists (m : Message.t) (md : Metadata) (acts : list string),
    messages s3 = messages s ++ [userMessage now1 optimizeQuestion; m] /\
    Message.type m = agent /\
    Message.metadata m = Some md /\
    category md = Some "pricing_optimization"%string /\
    actions md = Some acts /\
    In "price_updates"%string acts.
Proof.
  intros Hagent Hsend Htyping Hinput s1 s2 s3.
  assert (Hs : sendDisabled s = false)
    by (unfold sendDisabled; rewrite Hinput, Htyping; vm_compute; reflexivity).
  assert (Hq : isPricingOptimizationQuestion (agentType props) (inputMessage s) = true)
    by (rewrite Hagent, Hinput; vm_compute; reflexivity).
  assert (Hrun : forall api, _) by
    (intro api; exact (optimizationRun_spec send now1 now2 now3 rnd api s Hsend Hs Hq)).
  split; [unfold s1; rewrite (send_optimize send now1 rnd s Hsend Hs Hq); reflexivity |].
  split; [unfold s2, s1; rewrite (proj1 (Hrun (Resolved data))); reflexivity |].
  split.
  { intro api. rewrite (proj2 (Hrun api)). cbn [trace].
    rewrite filter_app, length_app. cbn [filter isCall List.length].
    rewrite settled_calls. simpl. lia. }
  unfold s3. rewrite (proj2 (Hrun (Resolved data))). cbn [trace isTyping messages].
  split; [reflexivity |]. split; [reflexivity |]. split; [reflexivity |].
  rewrite Hinput.
  eexists _, _, _. split; [reflexivity |].
  cbn. repeat split. left. reflexivity.
Qed.

(** C2. When the call made for an optimisation request is rejected, the
    session still gets an ordinary completed agent message, of category
    [pricing_analysis] with [optimization_applied] false, whose text says
    that automatic price updates could not be applied; nothing is
    invalidated, the call was made once and nothing is left registered that
    would make it again. *)
Theorem pricing_failure_falls_back
    (send : Event) (now1 now2 now3 : Z) (rnd : Q) (err : string) (s : State) :
  send = ClickSend now1 rnd \/ send = KeyPressEnter now1 rnd ->
  sendDisabled s = false ->
  isPricingOptimizationQuestion (agentType props) (inputMessage s) = true ->
  let s3 := optimizationRun props send now2 now3 (Rejected err) s in
  let fx := [ CallOptimizePricing; ConsoleError "Pricing optimization error:" ] in
  trace s3 = trace s ++ fx /\
  fst (handlePricingOptimization (Rejected err) (inputMessage s) (agentType props)) = fx /\
  filter isInvalidation fx = [] /\
  List.length (filter isCall fx) = 1%nat /\
  pending s3 = pending s /\
  isTyping s3 = false /\
  exists (m : Message.t) (md : Metadata),
    messages s3 = messages s ++ [userMessage now1 (inputMessage s); m] /\
    Message.type m = agent /\
    Message.status m = Some completed /\
    Message.metadata m = Some md /\
    optimization_applied md = Some false /\
    category md = Some "pricing_analysis"%string /\
    includes (Message.content m) "unable to apply automatic price updates" = true.
Proof.
  intros Hsend Hs Hq s3 fx.
  unfold s3.
  rewrite (proj2 (optimizationRun_spec send now1 now2 now3 rnd (Rejected err) s Hsend Hs Hq)).
  cbn [trace pending isTyping messages].
  split; [reflexivity |]. split; [reflexivity |]. split; [reflexivity |].
  split; [reflexivity |]. split; [reflexivity |]. split; [reflexivity |].
  eexists _, _. split; [reflexivity |].
  split; [reflexivity |]. split; [reflexivity |]. split; [reflexivity |].
  split; [reflexivity |]. split; [reflexivity |].
  vm_compute. reflexivity.
Qed.

Lemma gesture_while_typing (e : Event) (s : State) :
  isGesture e = true -> isTyping s = true ->
  let s' := step props e s in
  messages s' = messages s /\ pending s' = pending s /\ trace s' = trace s /\
  isTyping s' = true /\ typingMessage s' = typingMessage s.
Proof.
  intros He Ht.
  destruct e as [v | n | now rnd | now rnd | n now | n api now]; try discriminate;
    unfold step, inputDisabled, sendDisabled; rewrite ?Ht, ?orb_true_r;
    cbv zeta; try tauto.
  destruct (nth_error (quickActions (agentType props)) n); cbn; tauto.
Qed.

Lemma handleSendMessage_idle (now : Z) (rnd : Q) (s : State) :
  pending s = [] -> oneInFlight (handleSendMessage props now rnd s) \/
                    handleSendMessage props now rnd s = s.
Proof.
  intro Hp. unfold handleSendMessage.
  destruct (trim (inputMessage s) =? "")%string; [right; reflexivity | left].
  destruct (isPricingOptimizationQuestion _ _);
    [| destruct (isPricingMarketQuestion _ _)];
    right; cbn [isTyping pending]; rewrite Hp; split; reflexivity.
Qed.

Lemma step_oneInFlight (e : Event) (s : State) :
  oneInFlight s -> oneInFlight (step props e s).
Proof.
  intro H.
  destruct e as [v | n | now rnd | now rnd | n now | n api now]; unfold step.
  - unfold inputDisabled. destruct (isTyping s) eqn:Ht; [exact H |].
    unfold oneInFlight in *. cbn [withInput isTyping pending]. exact H.
  - destruct (nth_error (quickActions (agentType props)) n); exact H.
  - unfold inputDisabled. destruct (isTyping s) eqn:Ht; [exact H |].
    destruct H as [[_ Hp] | [Hc _]]; [| congruence].
    destruct (handleSendMessage_idle now rnd s Hp) as [G | G];
      [exact G | rewrite G; left; split; assumption].
  - unfold sendDisabled. destruct (isTyping s) eqn:Ht;
      [rewrite orb_true_r; exact H |].
    destruct ((trim (inputMessage s) =? "")%string || false); [exact H |].
    destruct H as [[_ Hp] | [Hc _]]; [| congruence].
    destruct (handleSendMessage_idle now rnd s Hp) as [G | G];
      [exact G | rewrite G; left; split; assumption].
  - destruct H as [[Ht Hp] | [Ht Hl]].
    + rewrite Hp. destruct n; left; split; assumption.
    + destruct (pending s) as [| t [| t' ts]] eqn:Hp; try discriminate.
      destruct n as [| n];
        [| destruct n; cbn [nth_error]; right;
           (split; [exact Ht | rewrite Hp; reflexivity])].
      cbn [nth_error removeNth].
      destruct t as [delay j | m];
        [| right; split; [exact Ht | rewrite Hp; reflexivity]].
      destruct j; cbn [runJob withPending isTyping pending messages inputMessage
                         typingMessage trace app];
        [right | right | left | left]; (split; [try reflexivity; exact Ht | reflexivity]).
  - destruct H as [[Ht Hp] | [Ht Hl]].
    + rewrite Hp. destruct n; left; split; assumption.
    + destruct (pending s) as [| t [| t' ts]] eqn:Hp; try discriminate.
      destruct n as [| n];
        [| destruct n; cbn [nth_error]; right;
           (split; [exact Ht | rewrite Hp; reflexivity])].
      cbn [nth_error removeNth].
      destruct t as [delay j | m];
        [right; split; [exact Ht | rewrite Hp; reflexivity] |].
      unfold resumeOptimization. destruct (pricingSettled api).
      left. split; reflexivity.
Qed.

Lemma run_oneInFlight (es : list Event) (s : State) :
  oneInFlight s -> oneInFlight (run props es s).
Proof.
  revert s. induction es as [| e es IH]; intros s H; [exact H |].
  unfold run. cbn [fold_left]. apply (IH (step props e s)).
  apply step_oneInFlight. exact H.
Qed.

(** C9. While a response is pending the input field and the send button are
    disabled: a click on the button or Enter in the field leaves the session
    as it is, and no sequence of user gestures appends a message, registers
    a callback or makes a call; the pending response, when it is delivered,
    clears [isTyping]; and a session never has more than one response in
    flight. *)
Theorem send_ignored_while_pending (s : State) :
  isTyping s = true ->
  inputDisabled s = true /\
  sendDisabled s = true /\
  (forall now rnd,
      step props (ClickSend now rnd) s = s /\ step props (KeyPressEnter now rnd) s = s) /\
  (forall es, forallb isGesture es = true ->
      let s' := run props es s in
      messages s' = messages s /\ pending s' = pending s /\ trace s' = trace s /\
      isTyping s' = true) /\
  (forall now api, isTyping (resumeOptimization props now api s) = false) /\
  (forall now m,
      isTyping (runJob props now (RespondJob m) s) = false /\
      isTyping (runJob props now (ThinkJob m) s) = false) /\
  (forall now es, oneInFlight (run props es (openChat props now))).
Proof.
  intro Ht.
  split; [exact Ht |].
  split; [unfold sendDisabled; rewrite Ht; apply orb_true_r |].
  split.
  { intros now rnd. unfold step, sendDisabled, inputDisabled.
    rewrite Ht, orb_true_r. split; reflexivity. }
  split.
  { intro es. revert s Ht. induction es as [| e es IH]; intros s Ht Hes.
    - cbn. repeat split; exact Ht.
    - cbn [forallb] in Hes. apply andb_true_iff in Hes as [He Hes].
      destruct (gesture_while_typing e s He Ht) as [Hm [Hp [Htr [Hty _]]]].
      specialize (IH (step props e s) Hty Hes). cbv zeta in IH.
      unfold run in *. cbn [fold_left].
      destruct IH as [IHm [IHp [IHtr IHty]]].
      rewrite IHm, IHp, IHtr, IHty, Hm, Hp, Htr. repeat split. }
  split.
  { intros now api. unfold resumeOptimization.
    destruct (pricingSettled api); reflexivity. }
  split; [intros now m; split; reflexivity |].
  intros now es. apply run_oneInFlight. left. split; reflexivity.
Qed.

End Session.

(** The guard is in the controls: [handleSendMessage] itself does not look at
    [isTyping].  Called on a session that is busy and whose input a quick
    action has filled, it appends a user message and registers a second
    callback. *)
Remark handleSendMessage_does_not_test_isTyping :
  isTyping busyChat = true /\
  List.length (messages (handleSendMessage pricingProps 2000 (1 # 2) busyChat)) =
    S (List.length (messages busyChat)) /\
  List.length (pending (handleSendMessage pricingProps 2000 (1 # 2) busyChat)) = 2%nat.
Proof. vm_compute. repeat split. Qed.




(** *** Instances *)

Lemma pricing_optimization_applies_and_invalidates_witness :
  agentType pricingProps = PricingAgent /\
  isTyping readyChat = false /\
  inputMessage readyChat = optimizeQuestion /\
  trace (optimizationRun pricingProps (ClickSend 1000 (1 # 2)) 3000 3400
           (Resolved (Some (mkData (Some 7%Z) (Some (325 # 100))))) readyChat) =
  [ CallOptimizePricing; InvalidateQueries ["products"%string];
    InvalidateQueries ["featured-products"%string] ].
Proof.
  split; [reflexivity |]. split; [reflexivity |]. split; [reflexivity |].
  pose proof (pricing_optimization_applies_and_invalidates pricingProps
                (ClickSend 1000 (1 # 2)) 1000 3000 3400 (1 # 2)
                (Some (mkData (Some 7%Z) (Some (325 # 100)))) readyChat
                eq_refl (or_introl eq_refl) eq_refl eq_refl) as H.
  cbv zeta in H. exact (proj1 (proj2 (proj2 (proj2 H)))).
Defined.

Lemma pricing_failure_falls_back_witness :
  sendDisabled readyChat = false /\
  isPricingOptimizationQuestion (agentType pricingProps) (inputMessage readyChat) = true /\
  trace (optimizationRun pricingProps (ClickSend 1000 (1 # 2)) 3000 3400
           (Rejected "Network Error") readyChat) =
  [ CallOptimizePricing; ConsoleError "Pricing optimization error:" ].
Proof.
  split; [reflexivity |]. split; [reflexivity |].
  pose proof (pricing_failure_falls_back pricingProps (ClickSend 1000 (1 # 2))
                1000 3000 3400 (1 # 2) "Network Error" readyChat
                (or_introl eq_refl) eq_refl eq_refl) as H.
  cbv zeta in H. exact (proj1 H).
Defined.

Lemma send_ignored_while_pending_witness :
  isTyping busyChat = true /\
  inputMessage busyChat = optimizeQuestion /\
  step pricingProps (ClickSend 2000 (1 # 2)) busyChat = busyChat.
Proof.
  split; [reflexivity |]. split; [reflexivity |].
  exact (proj1 (proj1 (proj2 (proj2
                  (send_ignored_while_pending pricingProps busyChat eq_refl)))
                 2000%Z (1 # 2))).
Defined.

End ChatSpec.

(** ** Monitoring dashboard: further properties *)

Module MonitoringExtra.

Import Num NumFacts Sorting Monitoring DashboardView MonitoringSpec.
Local Open Scope list_scope.
Local Open Scope js_scope.

(** *** Counting *)

Lemma filter_length_le {A} (p : A -> bool) (l : list A) :
  (List.length (filter p l) <= List.length l)%nat.
Proof.
  induction l as [| x l IH]; simpl; [lia |]. destruct (p x); simpl; lia.
Qed.

Lemma filter_firstn_length {A} (p : A -> bool) (n : nat) (l : list A) :
  (List.length (filter p (firstn n l)) <= List.length (filter p l))%nat.
Proof.
  revert n. induction l as [| x l IH]; intros [| n]; simpl; try lia.
  specialize (IH n). destruct (p x); simpl; lia.
Qed.

Lemma insertBy_count {A} (p : A -> bool) (precedes : A -> A -> bool) (x : A) (l : list A) :
  List.length (filter p (insertBy precedes x l)) = List.length (filter p (x :: l)).
Proof.
  induction l as [| y ys IH]; [reflexivity |].
  cbn [insertBy]. destruct (precedes x y); [reflexivity |].
  cbn [filter] in *. destruct (p y), (p x); cbn [List.length] in *; lia.
Qed.

Lemma sortBy_count {A} (p : A -> bool) (precedes : A -> A -> bool) (l : list A) :
  List.length (filter p (sortBy precedes l)) = List.length (filter p l).
Proof.
  induction l as [| x xs IH]; [reflexivity |].
  cbn [sortBy fold_right]. fold (sortBy precedes xs).
  rewrite insertBy_count. cbn [filter]. destruct (p x); cbn [List.length]; lia.
Qed.

Lemma forPush_extends {A} (bound : M Z) (body : nat -> M A) :
  forall fuel i acc w l,
    fst (forPush fuel i bound body acc w) = Some l -> exists extra, l = acc ++ extra.
Proof.
  intro fuel. induction fuel as [| fuel IH]; intros i acc w l E; [discriminate |].
  rewrite forPush_step in E. destruct (Z.of_nat i <? fst (bound w))%Z.
  - apply IH in E as [extra ->]. eexists. rewrite <- app_assoc. reflexivity.
  - injection E as <-. exists []. rewrite app_nil_r. reflexivity.
Qed.

Lemma forPush_new {A} (P : A -> Prop) (bound : M Z) (body : nat -> M A) :
  (forall i w, P (fst (body i w))) ->
  forall fuel i acc w l,
    fst (forPush fuel i bound body acc w) = Some l ->
    exists extra, l = acc ++ extra /\ Forall P extra.
Proof.
  intros Hb fuel. induction fuel as [| fuel IH]; intros i acc w l E; [discriminate |].
  rewrite forPush_step in E. destruct (Z.of_nat i <? fst (bound w))%Z.
  - apply IH in E as [extra [-> F]]. eexists. rewrite <- app_assoc.
    split; [reflexivity |]. constructor; [apply Hb | exact F].
  - injection E as <-. exists []. rewrite app_nil_r. split; [reflexivity | constructor].
Qed.

Lemma forPush_length_ge {A} (B : nat) (bound : M Z) (body : nat -> M A) :
  (forall w, (Z.of_nat B <= fst (bound w))%Z) ->
  forall fuel i acc w l,
    fst (forPush fuel i bound body acc w) = Some l ->
    (List.length acc + (B - i) <= List.length l)%nat.
Proof.
  intros Hb fuel. induction fuel as [| fuel IH]; intros i acc w l E; [discriminate |].
  rewrite forPush_step in E.
  destruct (Z.ltb_spec (Z.of_nat i) (fst (bound w))) as [L | L].
  - apply IH in E. rewrite length_app in E. cbn [List.length] in E. lia.
  - injection E as <-. pose proof (Hb w). lia.
Qed.

Lemma filter_none {A} (p : A -> bool) (l : list A) :
  Forall (fun x => p x = false) l -> filter p l = [].
Proof.
  induction 1 as [| x l Hx Hl IH]; simpl; [reflexivity |]. rewrite Hx. exact IH.
Qed.

(** *** A general invariant of the executions ledger *)

Lemma initialWorld_executions (rnd : nat -> Q) (k0 : nat) (now : Z) (w : World) :
  initialWorld rnd k0 now = Some w ->
  fst (initialExecutions rnd now (mkWorld k0 [] [] [] [])) = Some (executions w).
Proof.
  unfold initialWorld.
  destruct (initialExecutions rnd now (mkWorld k0 [] [] [] [])) as [oe w1].
  destruct (initialDataOps rnd now w1) as [od w2].
  destruct (initialAlerts rnd now w2) as [oa w3].
  destruct oe as [e |]; [| discriminate].
  destruct od as [d |]; [| discriminate].
  destruct oa as [a |]; [| discriminate].
  intros [= <-]. reflexivity.
Qed.

Lemma initialWorld_ledgers (rnd : nat -> Q) (k0 : nat) (now : Z) (w : World) :
  initialWorld rnd k0 now = Some w ->
  exists w1 w2,
    fst (initialDataOps rnd now w1) = Some (dataOps w) /\
    fst (initialAlerts rnd now w2) = Some (alerts w) /\
    timers w = [].
Proof.
  unfold initialWorld.
  destruct (initialExecutions rnd now (mkWorld k0 [] [] [] [])) as [oe w1].
  destruct (initialDataOps rnd now w1) as [od w2] eqn:Ed.
  destruct (initialAlerts rnd now w2) as [oa w3] eqn:Ea.
  destruct oe as [e |]; [| discriminate].
  destruct od as [d |]; [| discriminate].
  destruct oa as [a |]; [| discriminate].
  intros [= <-]. exists w1, w2. rewrite Ed, Ea. repeat split.
Qed.

Section Invariant.

Variable rnd : nat -> Q.
Variable P : AgentExecution.t -> Prop.
Hypothesis P_running : forall now i w, P (fst (seedRunning rnd now i w)).
Hypothesis P_completed : forall now i w, P (fst (seedCompleted rnd now i w)).
Hypothesis P_stopped : forall now i w, P (fst (seedStopped rnd now i w)).
Hypothesis P_spawn : forall now w, P (fst (generateExecution rnd now w)).
Hypothesis P_update :
  forall now e w, P e -> P (fst (updateExecution rnd now e w)).

Lemma initialExecutions_Forall now (w : World) (l : list AgentExecution.t) :
  fst (initialExecutions rnd now w) = Some l -> Forall P l.
Proof.
  unfold initialExecutions. intro E.
  apply optBind_some in E as [l1 [E1 E]].
  apply optBind_some in E as [l2 [E2 E]].
  apply optBind_some in E as [l3 [E3 E]].
  cbn in E. injection E as <-.
  apply sortBy_Forall.
  eapply (forPush_Forall P); [apply P_stopped | | exact E3].
  eapply (forPush_Forall P); [apply P_completed | | exact E2].
  eapply (forPush_Forall P); [apply P_running | | exact E1].
  constructor.
Qed.

Lemma mapM_update_Forall now (l : list AgentExecution.t) (w : World) :
  Forall P l -> Forall P (fst (mapM (updateExecution rnd now) l w)).
Proof.
  intro H. revert w. induction H as [| e l He Hl IH]; intro w.
  - constructor.
  - rewrite mapM_cons. cbn [fst]. constructor; [apply P_update; exact He | apply IH].
Qed.

Lemma reachable_Forall (w : World) : reachable rnd w -> Forall P (executions w).
Proof.
  induction 1 as [k0 now w E | n w H IH | now w H IH].
  - apply initialWorld_executions in E.
    exact (initialExecutions_Forall now _ _ E).
  - exact IH.
  - rewrite (tick_executions rnd now w). cbv zeta.
    apply mapM_update_Forall.
    destruct (spawnCheck_cases rnd now (executions w) w) as [E | [w' E]]; rewrite E.
    + exact IH.
    + constructor; [apply P_spawn | apply firstn_Forall; exact IH].
Qed.

End Invariant.


(** *** Status counts *)

Lemma status_partition (l : list AgentExecution.t) :
  Forall admissible l ->
  (List.length (filter isRunning l) + List.length (filter isCompleted l)
   + List.length (filter isStopped l) = List.length l)%nat.
Proof.
  induction 1 as [| e l He Hl IH]; [reflexivity |].
  cbn [filter]. unfold isRunning, isCompleted, isStopped, admissible in *.
  destruct (AgentExecution.status e); cbn [List.length]; try lia. exfalso. apply He. reflexivity.
Qed.

Lemma reachable_admissible (rnd : nat -> Q) (w : World) :
  reachable rnd w -> Forall admissible (executions w).
Proof.
  apply reachable_Forall; try (intros; unfold admissible; cbn; discriminate).
  intros now e w' He. unfold admissible in *.
  destruct (updateExecution_status rnd now e w') as [_ [E | [_ [E | E]]]];
    rewrite E; [exact He | discriminate | discriminate].
Qed.

(** X1. In a reachable dashboard the three status cards add up to the size
    of the executions ledger, and every row of "Recent Executions" shows
    exactly one status icon. *)
Theorem status_cards_partition_ledger (rnd : nat -> Q) (w : World) :
  reachable rnd w ->
  (List.length (runningExecutions w) + List.length (completedExecutions w)
   + List.length (stoppedExecutions w) = List.length (executions w))%nat /\
  (forall e, In e (recentExecutions w) -> List.length (statusIcons e) = 1%nat).
Proof.
  intro H. pose proof (reachable_admissible rnd w H) as A. split.
  - apply status_partition. exact A.
  - intros e Hin. unfold recentExecutions in Hin.
    apply (firstn_Forall _ 10) in A. rewrite Forall_forall in A.
    specialize (A e Hin). unfold statusIcons, isRunning, isCompleted, isStopped, admissible in *.
    destruct (AgentExecution.status e); try reflexivity. exfalso. apply A. reflexivity.
Qed.

(** *** The bound on running executions *)

Lemma update_keeps_terminal (rnd : nat -> Q) now e (w : World) :
  isRunning (fst (updateExecution rnd now e w)) = true -> isRunning e = true.
Proof.
  unfold isRunning.
  destruct (updateExecution_status rnd now e w) as [_ [E | [E [E' | E']]]].
  - rewrite E. tauto.
  - rewrite E'. discriminate.
  - rewrite E'. discriminate.
Qed.

Lemma mapM_update_running (rnd : nat -> Q) now (l : list AgentExecution.t) (w : World) :
  (List.length (filter isRunning (fst (mapM (updateExecution rnd now) l w)))
   <= List.length (filter isRunning l))%nat.
Proof.
  revert w. induction l as [| e l IH]; intro w; [simpl; lia |].
  rewrite mapM_cons. cbn [fst filter].
  specialize (IH (snd (updateExecution rnd now e w))).
  destruct (isRunning (fst (updateExecution rnd now e w))) eqn:E.
  - rewrite (update_keeps_terminal rnd now e w E). cbn [List.length]. lia.
  - destruct (isRunning e); cbn [List.length]; lia.
Qed.

Lemma spawnCheck_running (rnd : nat -> Q) now (prev : list AgentExecution.t) (w : World) :
  (List.length (filter isRunning prev) <= 3)%nat ->
  (1 <= List.length (filter isRunning (fst (spawnCheck rnd now prev w))) <= 3)%nat.
Proof.
  intro H. unfold spawnCheck. cbv zeta. rewrite run_bind.
  pose proof (filter_firstn_length isRunning 49 prev) as F.
  destruct (Nat.eqb_spec (List.length (filter isRunning prev)) 0) as [Z | NZ].
  - cbn [ret fst snd]. rewrite run_bind. cbn [ret fst pushExecution filter].
    change (isRunning (fst (generateExecution rnd now w))) with true.
    cbn [List.length]. lia.
  - destruct (Nat.ltb_spec (List.length (filter isRunning prev)) 3) as [L | L].
    + rewrite run_bind, random_run. cbn [ret fst snd].
      destruct (Qltb (rnd (cursor w)) (4 # 10)).
      * rewrite run_bind. cbn [ret fst pushExecution filter].
        match goal with |- context [isRunning (fst (generateExecution rnd now ?w'))] =>
          change (isRunning (fst (generateExecution rnd now w'))) with true end.
        cbn [List.length]. lia.
      * cbn [ret fst]. lia.
    + cbn [ret fst]. lia.
Qed.

Section Bounds.

Variable rnd : nat -> Q.
Hypothesis rnd_range : forall k, (0 <= rnd k < 1)%Q.

Lemma countBound_ge (base range : Z) (w : World) :
  (0 < range)%Z -> (base <= fst (countBound rnd base range w))%Z.
Proof.
  intro H. change (fst (countBound rnd base range w))
    with (base + Qfloor (rnd (cursor w) * inject_Z range))%Z.
  pose proof (floor_scale_range (rnd (cursor w)) range (rnd_range _) H). lia.
Qed.

Lemma initialExecutions_counts now (w : World) (l : list AgentExecution.t) :
  fst (initialExecutions rnd now w) = Some l ->
  (1 <= List.length (filter isRunning l) <= 3)%nat /\ (18 <= List.length l)%nat.
Proof.
  unfold initialExecutions. intro E.
  apply optBind_some in E as [l1 [E1 E]].
  apply optBind_some in E as [l2 [E2 E]].
  apply optBind_some in E as [l3 [E3 E]].
  cbn in E. injection E as <-.
  pose proof (forPush_length 3 _ _ (fun w => countBound_le rnd rnd_range 1 3 w eq_refl)
                _ _ _ _ _ E1) as L1.
  pose proof (forPush_length_ge 1 _ _ (fun w => countBound_ge 1 3 w eq_refl)
                _ _ _ _ _ E1) as G1.
  pose proof (forPush_length_ge 15 _ _ (fun w => countBound_ge 15 6 w eq_refl)
                _ _ _ _ _ E2) as G2.
  pose proof (forPush_length_ge 2 _ _ (fun w => countBound_ge 2 3 w eq_refl)
                _ _ _ _ _ E3) as G3.
  destruct (forPush_new (fun e => isRunning e = true) _ (seedRunning rnd now)
              (fun i w => eq_refl) _ _ _ _ _ E1) as [x1 [-> R1]].
  destruct (forPush_new (fun e => isRunning e = false) _ (seedCompleted rnd now)
              (fun i w => eq_refl) _ _ _ _ _ E2) as [x2 [-> R2]].
  destruct (forPush_new (fun e => isRunning e = false) _ (seedStopped rnd now)
              (fun i w => eq_refl) _ _ _ _ _ E3) as [x3 [-> R3]].
  rewrite sortBy_count, sortBy_length, !filter_app.
  rewrite (filter_none _ _ R2), (filter_none _ _ R3), !app_nil_r.
  cbn [app List.length] in *.
  assert (Hall : filter isRunning x1 = x1).
  { clear - R1. induction R1 as [| e l He Hl IH]; [reflexivity |].
    cbn [filter]. rewrite He, IH. reflexivity. }
  change (filter isRunning [] ++ filter isRunning x1) with (filter isRunning x1).
  rewrite Hall. rewrite !length_app in *. cbn [List.length] in *. lia.
Qed.

Lemma running_bound (w : World) :
  reachable rnd w -> (List.length (filter isRunning (executions w)) <= 3)%nat.
Proof.
  induction 1 as [k0 now w E | n w H IH | now w H IH].
  - apply initialWorld_executions in E.
    apply (initialExecutions_counts now) in E. lia.
  - exact IH.
  - rewrite (tick_executions rnd now w). cbv zeta.
    etransitivity; [apply mapM_update_running |].
    apply spawnCheck_running. exact IH.
Qed.

(** X2. A reachable dashboard never has more than three running executions;
    the spawn check of a tick hands between one and three running executions
    to the update map, and the update map never adds a running one. *)
Theorem running_count_at_most_three (w : World) :
  reachable rnd w ->
  (runningCount w <= 3)%nat /\
  forall now,
    (1 <= List.length (filter isRunning (afterSpawn rnd now w)) <= 3)%nat /\
    (runningCount (snd (tick rnd now w))
     <= List.length (filter isRunning (afterSpawn rnd now w)))%nat.
Proof.
  intro H. pose proof (running_bound w H) as B.
  split; [exact B |]. intro now. split.
  - apply spawnCheck_running. exact B.
  - unfold runningCount. rewrite (tick_executions rnd now w). cbv zeta.
    apply mapM_update_running.
Qed.

End Bounds.


(** *** Ledger sizes *)

Lemma pushCapped_length_ge {A} (cap : nat) (x : A) (l : list A) :
  (0 < cap)%nat -> (List.length l <= cap)%nat ->
  (List.length l <= List.length (pushCapped cap x l))%nat.
Proof.
  intros Hc Hl. unfold pushCapped. rewrite length_firstn. cbn [List.length]. lia.
Qed.

Lemma insertions_length_ge {A} (cap : nat) (l l' : list A) :
  (0 < cap)%nat -> (List.length l <= cap)%nat -> insertions cap l l' ->
  (List.length l <= List.length l')%nat.
Proof.
  intros Hc Hl [xs ->]. revert l Hl. induction xs as [| x xs IH]; intros l Hl.
  - simpl. lia.
  - cbn [fold_left]. etransitivity; [apply (pushCapped_length_ge cap x l Hc Hl) |].
    apply IH. apply pushCapped_length.
Qed.

Section Sizes.

Variable rnd : nat -> Q.
Hypothesis rnd_range : forall k, (0 <= rnd k < 1)%Q.

Lemma initialDataOps_ge now (w : World) (l : list DataOperation.t) :
  fst (initialDataOps rnd now w) = Some l -> (20 <= List.length l)%nat.
Proof.
  unfold initialDataOps. intro E.
  apply optBind_some in E as [l1 [E1 E]]. cbn in E. injection E as <-.
  pose proof (forPush_length_ge 20 _ _ (fun w => countBound_ge rnd rnd_range 20 11 w eq_refl)
                _ _ _ _ _ E1) as G.
  rewrite sortBy_length. cbn [List.length] in G. lia.
Qed.

Lemma initialAlerts_ge now (w : World) (l : list MonitoringAlert.t) :
  fst (initialAlerts rnd now w) = Some l -> (1 <= List.length l)%nat.
Proof.
  unfold initialAlerts. intro E.
  apply optBind_some in E as [l1 [E1 E]]. cbn in E. injection E as <-.
  pose proof (forPush_length_ge 1 _ _ (fun w => countBound_ge rnd rnd_range 1 3 w eq_refl)
                _ _ _ _ _ E1) as G.
  rewrite sortBy_length. cbn [List.length] in G. lia.
Qed.

Lemma tick_sizes now (w : World) :
  withinCapacity w ->
  (List.length (executions w) <= List.length (executions (snd (tick rnd now w))))%nat /\
  (List.length (dataOps w) <= List.length (dataOps (snd (tick rnd now w))))%nat /\
  (List.length (alerts w) <= List.length (alerts (snd (tick rnd now w))))%nat.
Proof.
  intros [He [Hd Ha]]. destruct (tick_insertions rnd now w) as [A [B C]].
  split; [| split].
  - apply (insertions_length_ge 50) in A; [| lia |].
    + unfold executionIds in A. rewrite !length_map in A. exact A.
    + unfold executionIds. rewrite length_map. exact He.
  - apply (insertions_length_ge 100 _ _ ltac:(lia) Hd B).
  - apply (insertions_length_ge 15 _ _ ltac:(lia) Ha C).
Qed.

Lemma reachable_sizes (w : World) :
  reachable rnd w ->
  (18 <= List.length (executions w))%nat /\ (20 <= List.length (dataOps w))%nat /\
  (1 <= List.length (alerts w))%nat.
Proof.
  intro H. pose proof (reachable_spec rnd rnd_range w H) as S. revert S.
  induction H as [k0 now w E | n w H IH | now w H IH]; intro S.
  - destruct (initialWorld_ledgers rnd k0 now w E) as [w1 [w2 [Ed [Ea _]]]].
    apply initialWorld_executions in E.
    apply (initialExecutions_counts rnd rnd_range now) in E.
    apply initialDataOps_ge in Ed. apply initialAlerts_ge in Ea. lia.
  - apply IH. exact S.
  - pose proof (reachable_spec rnd rnd_range w H) as [_ C].
    destruct (IH (reachable_spec rnd rnd_range w H)) as [I1 [I2 I3]].
    destruct (tick_sizes now w C) as [T1 [T2 T3]]. lia.
Qed.

(** X3. The ledgers of a reachable dashboard hold at least 18 executions,
    20 data operations and one alert (and at most 50, 100 and 15); a tick
    never shrinks a ledger.  So the placeholders "No recent operations"
    and "All systems operating normally" are never rendered. *)
Theorem ledgers_never_empty (w : World) :
  reachable rnd w ->
  (18 <= List.length (executions w) <= 50)%nat /\
  (20 <= List.length (dataOps w) <= 100)%nat /\
  (1 <= List.length (alerts w) <= 15)%nat /\
  (forall now,
      (List.length (executions w) <= List.length (executions (snd (tick rnd now w))))%nat /\
      (List.length (dataOps w) <= List.length (dataOps (snd (tick rnd now w))))%nat /\
      (List.length (alerts w) <= List.length (alerts (snd (tick rnd now w))))%nat) /\
  noDataOperations w = false /\
  allSystemsNormal w = false.
Proof.
  intro H. destruct (reachable_spec rnd rnd_range w H) as [_ C].
  destruct (reachable_sizes w H) as [I1 [I2 I3]].
  pose proof C as [C1 [C2 C3]].
  split; [lia |]. split; [lia |]. split; [lia |].
  split; [intro now; apply tick_sizes; exact C |].
  unfold noDataOperations, allSystemsNormal, recentDataOps, recentAlerts.
  rewrite !length_firstn. split; apply Nat.eqb_neq; lia.
Qed.

End Sizes.

(** *** What a row shows *)

Lemma updateExecution_fields (rnd : nat -> Q) now e (w : World) :
  let e' := fst (updateExecution rnd now e w) in
  AgentExecution.id e' = AgentExecution.id e /\
  AgentExecution.agentName e' = AgentExecution.agentName e /\
  AgentExecution.operation e' = AgentExecution.operation e /\
  AgentExecution.startTime e' = AgentExecution.startTime e /\
  AgentExecution.dataProcessed e' = AgentExecution.dataProcessed e /\
  (isRunning e = false -> e' = e) /\
  (isRunning e = true ->
   AgentExecution.duration e' = (AgentExecution.duration e + 2)%Q).
Proof.
  intro e'. unfold e'. destruct (isRunning e) eqn:Hrun.
  - rewrite (updateExecution_running rnd now e w Hrun), settle_result.
    destruct (Qltb _ _); [cbn; repeat split; discriminate |].
    destruct (Qltb _ _); cbn; repeat split; discriminate.
  - rewrite (updateExecution_terminal rnd now e w Hrun). cbn. repeat split. discriminate.
Qed.

Lemma pick_In (rnd : nat -> Q) (l : list string) (w : World) :
  (0 <= rnd (cursor w) < 1)%Q -> l <> [] -> In (fst (pick rnd l w)) l.
Proof.
  intros Hr Hl.
  change (fst (pick rnd l w))
    with (nth (Z.to_nat (Qfloor (rnd (cursor w) * inject_Z (Z.of_nat (List.length l)))))
            l "undefined"%string).
  apply nth_In.
  assert (0 < Z.of_nat (List.length l))%Z by (destruct l; [congruence | simpl; lia]).
  pose proof (floor_scale_range _ _ Hr H). lia.
Qed.


Lemma agentNames_have_icons :
  forall name, In name agentNames -> lookup name agentIcons <> None.
Proof.
  intros name H. cbn in H.
  repeat (destruct H as [<- | H]; [cbn; discriminate |]). contradiction.
Qed.

Section Catalog.

Variable rnd : nat -> Q.
Hypothesis rnd_range : forall k, (0 <= rnd k < 1)%Q.

Lemma records_range (k : nat) (n base : Z) :
  (0 < n)%Z -> (base <= Qfloor (rnd k * inject_Z n) + base < base + n)%Z.
Proof.
  intro Hn. pose proof (floor_scale_range (rnd k) n (rnd_range k) Hn). lia.
Qed.

Lemma seedRunning_catalogued now i w : catalogued (fst (seedRunning rnd now i w)).
Proof.
  split; [| split].
  - change (In (fst (pick rnd agentNames w)) agentNames).
    apply pick_In; [apply rnd_range | discriminate].
  - change (In (fst (pick rnd operations (skipDraws 1 w))) operations).
    apply pick_In; [apply rnd_range | discriminate].
  - change (AgentExecution.dataProcessed (fst (seedRunning rnd now i w)))
      with (Qfloor (rnd (4 + cursor w)%nat * inject_Z 50000) + 10000)%Z.
    pose proof (records_range (4 + cursor w) 50000 10000 eq_refl). lia.
Qed.

Lemma seedCompleted_catalogued now i w : catalogued (fst (seedCompleted rnd now i w)).
Proof.
  split; [| split].
  - change (In (fst (pick rnd agentNames w)) agentNames).
    apply pick_In; [apply rnd_range | discriminate].
  - change (In (fst (pick rnd operations (skipDraws 1 w))) operations).
    apply pick_In; [apply rnd_range | discriminate].
  - change (AgentExecution.dataProcessed (fst (seedCompleted rnd now i w)))
      with (Qfloor (rnd (5 + cursor w)%nat * inject_Z 50000) + 10000)%Z.
    pose proof (records_range (5 + cursor w) 50000 10000 eq_refl). lia.
Qed.

Lemma seedStopped_catalogued now i w : catalogued (fst (seedStopped rnd now i w)).
Proof.
  split; [| split].
  - change (In (fst (pick rnd agentNames w)) agentNames).
    apply pick_In; [apply rnd_range | discriminate].
  - change (In (fst (pick rnd operations (skipDraws 1 w))) operations).
    apply pick_In; [apply rnd_range | discriminate].
  - change (AgentExecution.dataProcessed (fst (seedStopped rnd now i w)))
      with (Qfloor (rnd (5 + cursor w)%nat * inject_Z 30000) + 5000)%Z.
    pose proof (records_range (5 + cursor w) 30000 5000 eq_refl). lia.
Qed.

Lemma generateExecution_catalogued now w : catalogued (fst (generateExecution rnd now w)).
Proof.
  split; [| split].
  - change (In (fst (pick rnd agentNames w)) agentNames).
    apply pick_In; [apply rnd_range | discriminate].
  - change (In (fst (pick rnd operations (skipDraws 1 w))) operations).
    apply pick_In; [apply rnd_range | discriminate].
  - change (AgentExecution.dataProcessed (fst (generateExecution rnd now w)))
      with (Qfloor (rnd (3 + cursor w)%nat * inject_Z 50000) + 10000)%Z.
    pose proof (records_range (3 + cursor w) 50000 10000 eq_refl). lia.
Qed.

Lemma update_catalogued now e w :
  catalogued e -> catalogued (fst (updateExecution rnd now e w)).
Proof.
  unfold catalogued.
  destruct (updateExecution_fields rnd now e w) as (_ & -> & -> & _ & -> & _). tauto.
Qed.

(** X4. Every execution of a reachable dashboard carries an agent name and
    an operation of the two catalogs and a record count between 5000 and
    59999, so its row always gets the icon registered for its agent: the
    fall-back icon is never used. *)
Theorem executions_come_from_catalogs (w : World) :
  reachable rnd w ->
  forall e, In e (executions w) ->
    In (AgentExecution.agentName e) agentNames /\
    In (AgentExecution.operation e) operations /\
    (5000 <= AgentExecution.dataProcessed e < 60000)%Z /\
    lookup (AgentExecution.agentName e) agentIcons
    = Some (iconComponent (AgentExecution.agentName e)).
Proof.
  intros H e Hin.
  pose proof (reachable_Forall rnd catalogued seedRunning_catalogued
                seedCompleted_catalogued seedStopped_catalogued
                generateExecution_catalogued update_catalogued w H) as F.
  rewrite Forall_forall in F. destruct (F e Hin) as [A [B C]].
  split; [exact A |]. split; [exact B |]. split; [exact C |].
  pose proof (agentNames_have_icons _ A) as I. unfold iconComponent.
  destruct (lookup (AgentExecution.agentName e) agentIcons); [reflexivity | congruence].
Qed.

(** *** Ages *)

Lemma inject_Z_sub (x y : Z) : inject_Z (x - y) = (inject_Z x - inject_Z y)%Q.
Proof.
  unfold Z.sub, Qminus. rewrite inject_Z_plus, inject_Z_opp. reflexivity.
Qed.

Lemma timeClip_window (z : Z) (q : Q) (span : Z) :
  (0 <= q)%Q -> (q < inject_Z span)%Q ->
  (z - span <= timeClip (inject_Z z - q) <= z)%Z.
Proof.
  intros H0 H1. unfold timeClip.
  assert (Lo : (inject_Z (z - span) <= inject_Z z - q)%Q)
    by (rewrite inject_Z_sub; lra).
  assert (Hi : (inject_Z z - q <= inject_Z z)%Q) by lra.
  destruct (Qle_bool 0 (inject_Z z - q)).
  - apply Qfloor_resp_le in Lo, Hi. rewrite Qfloor_Z in Lo, Hi. lia.
  - apply Qceiling_resp_le in Lo, Hi. rewrite Qceiling_Z in Lo, Hi. lia.
Qed.

Lemma seedRunning_young now i w : youngEnough (fst (seedRunning rnd now i w)).
Proof.
  intros _.
  change (AgentExecution.duration (fst (seedRunning rnd now i w)))
    with ((inject_Z now
           - inject_Z (timeClip (inject_Z now - rnd (2 + cursor w)%nat * 15000))) / 1000)%Q.
  pose proof (rnd_range (2 + cursor w)) as Hr.
  destruct (timeClip_window now (rnd (2 + cursor w)%nat * 15000) 15000) as [Lo Hi].
  - lra.
  - change (inject_Z 15000) with 15000%Q. lra.
  - rewrite Zle_Qle in Lo, Hi. rewrite inject_Z_sub in Lo.
    change (inject_Z 15000) with 15000%Q in Lo.
    set (c := inject_Z (timeClip (inject_Z now - rnd (2 + cursor w)%nat * 15000))) in *.
    split.
    + apply Qle_shift_div_l; [reflexivity | lra].
    + apply Qle_shift_div_r; [reflexivity | lra].
Qed.

Lemma update_young now e w :
  youngEnough e -> youngEnough (fst (updateExecution rnd now e w)).
Proof.
  intros He Hrun'. pose proof (update_keeps_terminal rnd now e w Hrun') as Hrun.
  specialize (He Hrun). revert Hrun'.
  rewrite (updateExecution_running rnd now e w Hrun), settle_result.
  destruct (Qltb _ _); [discriminate |].
  destruct (Qltb _ _) eqn:C; [discriminate |].
  apply Qltb_ge in C. intros _. cbn [AgentExecution.with_duration AgentExecution.duration].
  unfold thresholdDraw in C.
  pose proof (rnd_range (S (cursor (snd (emitWork rnd now e w))))). lra.
Qed.

(** X5. A running execution of a reachable dashboard is never shown older
    than fifteen seconds: seeded ones started at most 15 s before the first
    render, and one that is still running after a tick has passed that
    tick's completion test, whose threshold is below 15. *)
Theorem running_executions_are_young (w : World) :
  reachable rnd w ->
  forall e, In e (runningExecutions w) ->
    (0 <= AgentExecution.duration e /\ AgentExecution.duration e <= 15)%Q.
Proof.
  intros H e Hin. unfold runningExecutions in Hin. apply filter_In in Hin as [Hin Hrun].
  assert (F : Forall youngEnough (executions w)).
  { apply (reachable_Forall rnd youngEnough); try exact H.
    - apply seedRunning_young.
    - intros now i w' X. discriminate X.
    - intros now i w' X. discriminate X.
    - intros now w' _. cbn. split; discriminate.
    - apply update_young. }
  rewrite Forall_forall in F. exact (F e Hin Hrun).
Qed.

End Catalog.

(** X6. The update map works position by position: it keeps the identifier,
    agent, operation, start time and record count of every execution,
    returns a terminal execution exactly as it was, and adds the tick period
    of two seconds to the duration of a running one. *)
Theorem update_map_freezes_terminal_and_advances_running
    (rnd : nat -> Q) (now : Z) (l : list AgentExecution.t) (w : World)
    (i : nat) (e : AgentExecution.t) :
  nth_error l i = Some e ->
  exists e',
    nth_error (fst (mapM (updateExecution rnd now) l w)) i = Some e' /\
    AgentExecution.id e' = AgentExecution.id e /\
    AgentExecution.agentName e' = AgentExecution.agentName e /\
    AgentExecution.operation e' = AgentExecution.operation e /\
    AgentExecution.startTime e' = AgentExecution.startTime e /\
    AgentExecution.dataProcessed e' = AgentExecution.dataProcessed e /\
    (isRunning e = false -> e' = e) /\
    (isRunning e = true ->
     AgentExecution.duration e' = (AgentExecution.duration e + 2)%Q) /\
    List.length (fst (mapM (updateExecution rnd now) l w)) = List.length l.
Proof.
  intro H. apply nth_error_split in H as [pre [post [-> Hi]]]. subst i.
  exists (fst (updateExecution rnd now e (snd (mapM (updateExecution rnd now) pre w)))).
  split; [apply mapM_nth |].
  destruct (updateExecution_fields rnd now e (snd (mapM (updateExecution rnd now) pre w)))
    as (A & B & C & D & E & F & G).
  repeat (split; [assumption |]). apply mapM_length.
Qed.


(** *** Alerts and stops *)

Lemma sameAlerts_refl w : sameAlerts w w.
Proof. reflexivity. Qed.

Lemma sameAlerts_trans w1 w2 w3 : sameAlerts w1 w2 -> sameAlerts w2 w3 -> sameAlerts w1 w3.
Proof. unfold sameAlerts. congruence. Qed.

Lemma sameTimers_refl w : sameTimers w w.
Proof. reflexivity. Qed.

Lemma sameTimers_trans w1 w2 w3 : sameTimers w1 w2 -> sameTimers w2 w3 -> sameTimers w1 w3.
Proof. unfold sameTimers. congruence. Qed.

Section Stops.

Variable rnd : nat -> Q.
Variable now : Z.

Lemma emitWork_frame e (w : World) :
  alerts (snd (emitWork rnd now e w)) = alerts w /\
  timers (snd (emitWork rnd now e w)) = timers w /\
  executions (snd (emitWork rnd now e w)) = executions w.
Proof.
  unfold emitWork. rewrite run_bind, random_run. cbn [fst snd].
  destruct (Qltb (rnd (cursor w)) (3 # 10)); repeat split.
Qed.

Lemma randomIndex_run (n : Z) (w : World) :
  randomIndex rnd n w =
  (Qfloor (rnd (cursor w) * inject_Z n),
   mkWorld (S (cursor w)) (executions w) (dataOps w) (alerts w) (timers w)).
Proof. reflexivity. Qed.

Lemma setTimeouts_alerts agent (l : list nat) :
  respects sameAlerts
    (forEach l (fun i => setTimeout agent (Z.of_nat i * 200))).
Proof.
  apply (respects_forEach sameAlerts sameAlerts_refl sameAlerts_trans).
  intros i w. reflexivity.
Qed.

Lemma settle_running_alerts e (w1 : World) :
  Qltb (stopDraw rnd w1) (2 # 100) = false ->
  alerts (snd (settle rnd now e w1)) = alerts w1.
Proof.
  intro E. unfold stopDraw in E. unfold settle. rewrite run_bind, random_run.
  cbn [fst snd]. rewrite E. rewrite run_bind, random_run. cbn [fst snd cursor].
  destruct (Qltb (3 + rnd (S (cursor w1)) * 12) (AgentExecution.duration e + 2));
    [| reflexivity].
  rewrite run_bind, randomIndex_run. cbn [fst snd].
  rewrite run_bind. cbn [snd ret].
  match goal with |- alerts (snd (forEach ?l _ ?W)) = _ =>
    transitivity (alerts W); [apply (setTimeouts_alerts _ l W) | reflexivity] end.
Qed.

Lemma update_alerts e (w : World) :
  let r := updateExecution rnd now e w in
  exists al,
    alerts (snd r) = fold_left (fun acc a => pushAlert a acc) al (alerts w) /\
    map MonitoringAlert.agentName al =
    if isRunning e && isStopped (fst r) then [AgentExecution.agentName e] else [].
Proof.
  intro r. unfold r. destruct (isRunning e) eqn:Hrun.
  - rewrite (updateExecution_running rnd now e w Hrun).
    destruct (emitWork_frame e w) as [Fa _].
    destruct (Qltb (stopDraw rnd (snd (emitWork rnd now e w))) (2 # 100)) eqn:E.
    + rewrite (settle_stopped rnd now e _ E). cbn [fst snd alerts].
      destruct (generateAlert_world rnd now (AgentExecution.agentName e)
                  (skipDraws 1 (snd (emitWork rnd now e w)))) as [n En].
      exists [fst (generateAlert rnd now (AgentExecution.agentName e)
                     (skipDraws 1 (snd (emitWork rnd now e w))))].
      rewrite En. cbn [skipDraws alerts fold_left map andb].
      rewrite Fa, generateAlert_agentName. split; reflexivity.
    + exists []. rewrite (settle_running_alerts e _ E), Fa.
      split; [reflexivity |].
      assert (Hs : AgentExecution.status e = running)
        by (unfold isRunning in Hrun; destruct (AgentExecution.status e);
            try discriminate; reflexivity).
      rewrite settle_result, E. unfold isStopped.
      destruct (Qltb (3 + thresholdDraw rnd (snd (emitWork rnd now e w)) * 12)
                  (AgentExecution.duration e + 2));
        cbn [AgentExecution.with_duration AgentExecution.with_status_duration
               AgentExecution.status]; rewrite ?Hs; reflexivity.
  - rewrite (updateExecution_terminal rnd now e w Hrun). exists []. split; reflexivity.
Qed.

Lemma mapM_update_alerts (l : list AgentExecution.t) (w : World) :
  let r := mapM (updateExecution rnd now) l w in
  exists al,
    alerts (snd r) = fold_left (fun acc a => pushAlert a acc) al (alerts w) /\
    map MonitoringAlert.agentName al = stoppedAgents l (fst r).
Proof.
  revert w. induction l as [| e l IH]; intro w.
  - exists []. split; reflexivity.
  - cbv zeta. rewrite mapM_cons. cbn [fst snd stoppedAgents].
    destruct (update_alerts e w) as [al1 [A1 N1]].
    destruct (IH (snd (updateExecution rnd now e w))) as [al2 [A2 N2]].
    exists (al1 ++ al2). rewrite fold_left_app, <- A1, map_app, N1, N2.
    split; [exact A2 |].
    destruct (isRunning e && isStopped (fst (updateExecution rnd now e w))); reflexivity.
Qed.

Lemma spawnCheck_frame prev (w : World) :
  sameLedgers w (snd (spawnCheck rnd now prev w)).
Proof.
  unfold spawnCheck. cbv zeta. rewrite run_bind.
  destruct (List.length (filter isRunning prev) =? 0)%nat.
  - cbn [ret fst snd]. rewrite run_bind. repeat split.
  - destruct (List.length (filter isRunning prev) <? 3)%nat.
    + rewrite run_bind, random_run. cbn [ret fst snd].
      destruct (Qltb _ _); [rewrite run_bind |]; repeat split.
    + repeat split.
Qed.

Lemma fireTimers_frame (ts : list (Z * string)) :
  respects sameAlerts (forEach ts (fireTimer rnd now)) /\
  respects sameTimers (forEach ts (fireTimer rnd now)).
Proof.
  split.
  - apply (respects_forEach sameAlerts sameAlerts_refl sameAlerts_trans).
    intros t w. reflexivity.
  - apply (respects_forEach sameTimers sameTimers_refl sameTimers_trans).
    intros t w. reflexivity.
Qed.

Lemma runTimers_frame (w : World) :
  alerts (snd (runTimers rnd now w)) = alerts w /\
  timers (snd (runTimers rnd now w)) = [].
Proof.
  unfold runTimers. rewrite run_bind. cbn [takeTimers fst snd].
  destruct (fireTimers_frame (sortBy earlierTimer (timers w))) as [A T].
  split.
  - exact (A (mkWorld (cursor w) (executions w) (dataOps w) (alerts w) [])).
  - exact (T (mkWorld (cursor w) (executions w) (dataOps w) (alerts w) [])).
Qed.

(** The world in which the update map of a tick starts. *)
Lemma tick_run (w : World) :
  let spawned := spawnCheck rnd now (executions w) w in
  let w1 := mkWorld (cursor (snd spawned)) (fst spawned) (dataOps (snd spawned))
              (alerts (snd spawned)) (timers (snd spawned)) in
  let mapped := mapM (updateExecution rnd now) (fst spawned) w1 in
  snd (tick rnd now w) =
  snd (runTimers rnd now
         (mkWorld (cursor (snd mapped)) (fst mapped) (dataOps (snd mapped))
            (alerts (snd mapped)) (timers (snd mapped)))).
Proof.
  cbv zeta. unfold tick. rewrite !run_bind, !setExecutions_run. reflexivity.
Qed.

(** X7. In a tick the alerts ledger receives exactly one alert for each
    execution that the update map turns from running to stopped, in the
    order of the ledger and carrying that execution's agent name, and no
    other alert. *)
Theorem one_alert_per_stopped_execution (w : World) :
  let w' := snd (tick rnd now w) in
  exists al,
    alerts w' = fold_left (fun acc a => pushAlert a acc) al (alerts w) /\
    map MonitoringAlert.agentName al = stoppedAgents (afterSpawn rnd now w) (executions w').
Proof.
  cbv zeta. unfold afterSpawn.
  pose proof (tick_executions rnd now w) as Te. pose proof (tick_run w) as Tr.
  cbv zeta in Te, Tr.
  set (spawned := spawnCheck rnd now (executions w) w) in *.
  set (w1 := mkWorld (cursor (snd spawned)) (fst spawned) (dataOps (snd spawned))
               (alerts (snd spawned)) (timers (snd spawned))) in *.
  set (mapped := mapM (updateExecution rnd now) (fst spawned) w1) in *.
  rewrite Te, Tr.
  destruct (runTimers_frame
              (mkWorld (cursor (snd mapped)) (fst mapped) (dataOps (snd mapped))
                 (alerts (snd mapped)) (timers (snd mapped)))) as [A _].
  rewrite A. cbn [alerts].
  destruct (mapM_update_alerts (fst spawned) w1) as [al [Ha Hn]].
  fold mapped in Ha, Hn. exists al. split; [| exact Hn].
  rewrite Ha. unfold w1. cbn [alerts].
  destruct (spawnCheck_frame (executions w) w) as (_ & _ & Sa & _).
  fold spawned in Sa. rewrite Sa. reflexivity.
Qed.

(** *** Write-back timers *)

Lemma setTimeouts_timers agent (l : list nat) (w : World) :
  timers (snd (forEach l (fun i => setTimeout agent (Z.of_nat i * 200)) w)) =
  timers w ++ map (fun i => ((Z.of_nat i * 200)%Z, agent)) l.
Proof.
  revert w. induction l as [| i l IH]; intro w.
  - simpl. rewrite app_nil_r. reflexivity.
  - cbn [forEach]. rewrite run_bind. rewrite IH. cbn [setTimeout snd timers map].
    rewrite <- app_assoc. reflexivity.
Qed.

Lemma settle_timers e (w1 : World) :
  isRunning e = true ->
  timers (snd (settle rnd now e w1)) =
  if isCompleted (fst (settle rnd now e w1))
  then timers w1 ++
       map (fun i => ((Z.of_nat i * 200)%Z, AgentExecution.agentName e))
         (seq 0 (Z.to_nat (Qfloor (rnd (S (S (cursor w1))) * inject_Z 2) + 1)))
  else timers w1.
Proof.
  intro Hrun.
  assert (Hs : AgentExecution.status e = running)
    by (unfold isRunning in Hrun; destruct (AgentExecution.status e);
        try discriminate; reflexivity).
  rewrite settle_result.
  unfold settle, stopDraw, thresholdDraw, isCompleted.
  rewrite run_bind, random_run. cbn [fst snd].
  destruct (Qltb (rnd (cursor w1)) (2 # 100)) eqn:E.
  - rewrite !run_bind. cbn [setAlerts snd timers ret].
    destruct (generateAlert_world rnd now (AgentExecution.agentName e)
                (mkWorld (S (cursor w1)) (executions w1) (dataOps w1) (alerts w1) (timers w1)))
      as [n En].
    rewrite En. reflexivity.
  - rewrite run_bind, random_run. cbn [fst snd cursor].
    destruct (Qltb (3 + rnd (S (cursor w1)) * 12) (AgentExecution.duration e + 2)).
    + rewrite run_bind, randomIndex_run. cbn [fst snd cursor].
      rewrite run_bind. cbn [snd ret].
      rewrite setTimeouts_timers. reflexivity.
    + cbn [AgentExecution.with_duration AgentExecution.status]. rewrite Hs. reflexivity.
Qed.

End Stops.


(** *** Data operations of a tick *)

Lemma sameDataOps_refl w : sameDataOps w w.
Proof. reflexivity. Qed.

Lemma sameDataOps_trans w1 w2 w3 :
  sameDataOps w1 w2 -> sameDataOps w2 w3 -> sameDataOps w1 w3.
Proof. unfold sameDataOps. congruence. Qed.

Lemma attributedStep_refl S w : attributedStep S w w.
Proof.
  intro H. split; [exact H |]. exists []. split; [reflexivity | constructor].
Qed.

Lemma attributedStep_trans S w1 w2 w3 :
  attributedStep S w1 w2 -> attributedStep S w2 w3 -> attributedStep S w1 w3.
Proof.
  intros H12 H23 H. destruct (H12 H) as [T2 [d1 [E1 F1]]].
  destruct (H23 T2) as [T3 [d2 [E2 F2]]]. split; [exact T3 |].
  exists (d1 ++ d2). rewrite fold_left_app, <- E1. split; [exact E2 |].
  apply Forall_app. split; assumption.
Qed.

Section Attribution.

Variable rnd : nat -> Q.
Variable now : Z.

Lemma settle_dataOps e (w1 : World) :
  dataOps (snd (settle rnd now e w1)) = dataOps w1.
Proof.
  unfold settle. rewrite run_bind, random_run. cbn [fst snd].
  destruct (Qltb (rnd (cursor w1)) (2 # 100)).
  - rewrite !run_bind. cbn [setAlerts snd dataOps ret].
    destruct (generateAlert_world rnd now (AgentExecution.agentName e)
                (mkWorld (S (cursor w1)) (executions w1) (dataOps w1) (alerts w1) (timers w1)))
      as [n En].
    rewrite En. reflexivity.
  - rewrite run_bind, random_run. cbn [fst snd cursor].
    destruct (Qltb (3 + rnd (S (cursor w1)) * 12) (AgentExecution.duration e + 2));
      [| reflexivity].
    rewrite run_bind, (randomIndex_run rnd). cbn [fst snd].
    rewrite run_bind. cbn [snd ret].
    match goal with |- dataOps (snd (forEach ?l ?b ?W)) = _ =>
      transitivity (dataOps W);
        [apply (respects_forEach sameDataOps sameDataOps_refl sameDataOps_trans l b);
         intros i w'; reflexivity
        | reflexivity] end.
Qed.

Lemma emitWork_dataOps e (w : World) :
  exists ds,
    dataOps (snd (emitWork rnd now e w))
    = fold_left (fun acc d => pushDataOp d acc) ds (dataOps w) /\
    Forall (fun d => DataOperation.agent d = AgentExecution.agentName e) ds.
Proof.
  unfold emitWork. rewrite run_bind, random_run. cbn [fst snd].
  destruct (Qltb (rnd (cursor w)) (3 # 10)).
  - eexists [_]. split; [reflexivity |]. constructor; [reflexivity | constructor].
  - exists []. split; [reflexivity | constructor].
Qed.

Lemma update_attributed S e (w : World) :
  (isRunning e = true -> In (AgentExecution.agentName e) S) ->
  attributedStep S w (snd (updateExecution rnd now e w)).
Proof.
  intros Hin HT. destruct (isRunning e) eqn:Hrun.
  - specialize (Hin eq_refl).
    rewrite (updateExecution_running rnd now e w Hrun).
    destruct (emitWork_frame rnd now e w) as (_ & Ft & _).
    destruct (emitWork_dataOps e w) as [ds [Ed Fd]].
    rewrite (settle_timers rnd now e _ Hrun), settle_dataOps, Ft. split.
    + destruct (isCompleted _); [| exact HT].
      apply Forall_app. split; [exact HT |].
      apply Forall_forall. intros t Ht. apply in_map_iff in Ht as [i [<- _]]. exact Hin.
    + exists ds. split; [exact Ed |].
      eapply Forall_impl; [| exact Fd]. intros d ->. exact Hin.
  - rewrite (updateExecution_terminal rnd now e w Hrun).
    apply attributedStep_refl. exact HT.
Qed.

Lemma mapM_attributed S (l : list AgentExecution.t) (w : World) :
  (forall e, In e l -> isRunning e = true -> In (AgentExecution.agentName e) S) ->
  attributedStep S w (snd (mapM (updateExecution rnd now) l w)).
Proof.
  revert w. induction l as [| e l IH]; intros w H.
  - apply attributedStep_refl.
  - rewrite mapM_cons. cbn [snd].
    eapply attributedStep_trans.
    + apply update_attributed. apply H. left. reflexivity.
    + apply IH. intros e' He'. apply H. right. exact He'.
Qed.

Lemma fireTimers_dataOps (ts : list (Z * string)) (w : World) :
  exists ds,
    dataOps (snd (forEach ts (fireTimer rnd now) w))
    = fold_left (fun acc d => pushDataOp d acc) ds (dataOps w) /\
    map DataOperation.agent ds = map snd ts.
Proof.
  revert w. induction ts as [| t ts IH]; intro w.
  - exists []. split; reflexivity.
  - cbn [forEach]. rewrite run_bind.
    destruct (IH (snd (fireTimer rnd now t w))) as [ds [E A]].
    exists (fst (generateDataOperation rnd (now + fst t) (snd t) w) :: ds).
    split; [exact E |]. cbn [map]. rewrite A. reflexivity.
Qed.

Lemma runningAgents_In (l : list AgentExecution.t) (e : AgentExecution.t) :
  In e l -> isRunning e = true -> In (AgentExecution.agentName e) (runningAgents l).
Proof.
  intros H R. unfold runningAgents. apply in_map. apply filter_In. split; assumption.
Qed.

Lemma reachable_no_timers (w : World) : reachable rnd w -> timers w = [].
Proof.
  induction 1 as [k0 t w E | n w H IH | t w H IH].
  - destruct (initialWorld_ledgers rnd k0 t w E) as (_ & _ & _ & _ & T). exact T.
  - exact IH.
  - rewrite (tick_run rnd t w). cbv zeta. apply runTimers_frame.
Qed.

(** X8. Completing an execution registers one or two write-back timers for
    its agent, at 0 ms and 200 ms; any other outcome of the callback
    registers none.  The registered timers fire earliest first, and each
    inserts exactly one data operation for its agent. *)
Theorem completion_schedules_write_back (e : AgentExecution.t) (w : World) :
  (forall k, (0 <= rnd k < 1)%Q) ->
  isRunning e = true ->
  let r := updateExecution rnd now e w in
  let agent := AgentExecution.agentName e in
  (isCompleted (fst r) = true ->
   timers (snd r) = timers w ++ [(0%Z, agent)] \/
   timers (snd r) = timers w ++ [(0%Z, agent); (200%Z, agent)]) /\
  (isCompleted (fst r) = false -> timers (snd r) = timers w) /\
  (forall w0, exists ds,
      dataOps (snd (runTimers rnd now w0))
      = fold_left (fun acc d => pushDataOp d acc) ds (dataOps w0) /\
      map DataOperation.agent ds = map snd (sortBy earlierTimer (timers w0))).
Proof.
  intros Hrange Hrun r agent. unfold r.
  rewrite (updateExecution_running rnd now e w Hrun).
  destruct (emitWork_frame rnd now e w) as (_ & Ft & _).
  rewrite (settle_timers rnd now e _ Hrun), Ft.
  split; [| split].
  - intros ->.
    pose proof (floor_scale_range _ 2 (Hrange (S (S (cursor (snd (emitWork rnd now e w))))))
                  eq_refl) as Hn.
    assert (C : Qfloor (rnd (S (S (cursor (snd (emitWork rnd now e w))))) * inject_Z 2) = 0%Z
                \/ Qfloor (rnd (S (S (cursor (snd (emitWork rnd now e w))))) * inject_Z 2)
                   = 1%Z) by lia.
    destruct C as [-> | ->]; [left | right]; reflexivity.
  - intros ->. reflexivity.
  - intro w0. unfold runTimers. rewrite run_bind. cbn [takeTimers fst snd].
    destruct (fireTimers_dataOps (sortBy earlierTimer (timers w0))
                (mkWorld (cursor w0) (executions w0) (dataOps w0) (alerts w0) []))
      as [ds [E A]].
    exists ds. split; [exact E | exact A].
Qed.

(** X9. Every data operation that a tick inserts into a reachable dashboard
    is attributed to the agent of an execution that was running when the
    update map of that tick started. *)
Theorem data_operations_attributed_to_running_agents (w : World) :
  reachable rnd w ->
  exists ds,
    dataOps (snd (tick rnd now w))
    = fold_left (fun acc d => pushDataOp d acc) ds (dataOps w) /\
    forall d, In d ds ->
      In (DataOperation.agent d) (runningAgents (afterSpawn rnd now w)).
Proof.
  intro H. pose proof (reachable_no_timers w H) as T.
  pose proof (tick_run rnd now w) as Tr. cbv zeta in Tr. unfold afterSpawn.
  set (spawned := spawnCheck rnd now (executions w) w) in *.
  set (w1 := mkWorld (cursor (snd spawned)) (fst spawned) (dataOps (snd spawned))
               (alerts (snd spawned)) (timers (snd spawned))) in *.
  set (mapped := mapM (updateExecution rnd now) (fst spawned) w1) in *.
  set (w2 := mkWorld (cursor (snd mapped)) (fst mapped) (dataOps (snd mapped))
               (alerts (snd mapped)) (timers (snd mapped))) in *.
  set (S := runningAgents (fst spawned)).
  destruct (spawnCheck_frame rnd now (executions w) w) as (_ & Sd & _ & St).
  fold spawned in Sd, St.
  assert (M : attributedStep S w1 (snd mapped)).
  { apply mapM_attributed. intros e He Hr. apply runningAgents_In; assumption. }
  destruct M as [T2 [d1 [E1 F1]]].
  { unfold w1. cbn [timers]. rewrite St, T. constructor. }
  destruct (fireTimers_dataOps (sortBy earlierTimer (timers w2))
              (mkWorld (cursor w2) (executions w2) (dataOps w2) (alerts w2) []))
    as [d2 [E2 A2]].
  exists (d1 ++ d2). rewrite Tr. unfold runTimers. rewrite run_bind.
  cbn [takeTimers fst snd]. rewrite E2, fold_left_app. split.
  - f_equal. unfold w2. cbn [dataOps]. rewrite E1. unfold w1. cbn [dataOps].
    rewrite Sd. reflexivity.
  - intros d Hd. apply in_app_or in Hd as [Hd | Hd].
    + rewrite Forall_forall in F1. exact (F1 d Hd).
    + assert (Hs : Forall (fun t => In (snd t) S) (sortBy earlierTimer (timers w2))).
      { apply sortBy_Forall. exact T2. }
      rewrite Forall_forall in Hs.
      assert (Ha : In (DataOperation.agent d) (map snd (sortBy earlierTimer (timers w2)))).
      { rewrite <- A2. apply in_map. exact Hd. }
      apply in_map_iff in Ha as [t [Et Ht]]. rewrite <- Et. exact (Hs t Ht).
Qed.

End Attribution.


(** *** The alert dialog *)

Section Dialog.

Variable rnd : nat -> Q.
Hypothesis rnd_range : forall k, (0 <= rnd k < 1)%Q.

Lemma generateAlert_shape (now : Z) (name : string) (w : World) :
  exists (i : nat) (salt : Q),
    (i < 6)%nat /\
    fst (generateAlert rnd now name w) =
    alertOf now name (nth i (drawnTypes rnd (cursor w)) undefinedAlertType) salt.
Proof.
  destruct (Qltb (rnd (3 + cursor w)) (7 # 10)) eqn:E.
  - exists 0%nat, (rnd (4 + cursor w)). split; [lia |].
    rewrite generateAlert_low by exact E. reflexivity.
  - exists (Z.to_nat (Qfloor (rnd (4 + cursor w) * inject_Z 5) + 1)), (rnd (5 + cursor w)).
    pose proof (floor_scale_range _ 5 (rnd_range (4 + cursor w)) eq_refl).
    split; [lia |]. rewrite generateAlert_other by exact E. reflexivity.
Qed.

(** X10. For an alert made by [generateAlert] the dialog shows its "Metrics"
    block exactly when the alert is of one of the three metric archetypes,
    with exactly one metric in it, and that metric is coloured red or
    yellow: the generated ranges never reach the green class. *)
Theorem generated_metrics_are_never_green (now : Z) (name : string) (w : World) :
  let a := fst (generateAlert rnd now name w) in
  let d := MonitoringAlert.details a in
  (metricsShown d = true <->
   archetype a = Some 0%nat \/ archetype a = Some 1%nat \/ archetype a = Some 2%nat) /\
  List.length (metricClasses d) = (if metricsShown d then 1 else 0)%nat /\
  (forall c, In c (metricClasses d) ->
     c = "text-red-600"%string \/ c = "text-yellow-600"%string).
Proof.
  intros a d.
  pose proof (metric_range rnd rnd_range (cursor w) 30 45 eq_refl) as Hc.
  pose proof (metric_range rnd rnd_range (1 + cursor w) 25 60 eq_refl) as Hq.
  pose proof (metric_range rnd rnd_range (2 + cursor w) 15 75 eq_refl) as Ha.
  destruct (generateAlert_shape now name w) as [i [salt [Hi Ea]]].
  fold a in Ea. revert Ea Hc Hq Ha. unfold drawnTypes.
  generalize (Qfloor (rnd (cursor w) * inject_Z 30) + 45)%Z,
             (Qfloor (rnd (1 + cursor w) * inject_Z 25) + 60)%Z,
             (Qfloor (rnd (2 + cursor w) * inject_Z 15) + 75)%Z.
  intros c q ac Ea Hc Hq Ha.
  assert (Zc : (c =? 0)%Z = false) by (apply Z.eqb_neq; lia).
  assert (Zq : (q =? 0)%Z = false) by (apply Z.eqb_neq; lia).
  assert (Za : (ac =? 0)%Z = false) by (apply Z.eqb_neq; lia).
  unfold d. rewrite Ea.
  destruct i as [| [| [| [| [| [| i]]]]]]; [| | | | | | lia];
    unfold metricsShown, metricClasses, truthy;
    cbn -[Z.ltb Z.eqb]; rewrite ?Zc, ?Zq, ?Za; cbn -[Z.ltb];
    (split; [split; [intros X; first [discriminate X | auto]
                    | intros [X | [X | X]]; try discriminate X; reflexivity] |]);
    (split; [reflexivity |]); intros s Hs; cbn in Hs; try contradiction;
    destruct Hs as [<- | []];
    unfold confidenceClass, accuracyClass, dataQualityClass;
    repeat match goal with
           | |- context [(?x <? ?y)%Z] => destruct (Z.ltb_spec x y)
           end;
    try (left; reflexivity); try (right; reflexivity); lia.
Qed.

End Dialog.

(** ** Instances *)

Lemma seededWorld_reachable : reachable (constStream (1 # 100)) seededWorld.
Proof. apply (reach_init _ 0 t0). exact seededWorld_initial. Defined.

Lemma status_cards_partition_ledger_witness :
  reachable (constStream (1 # 100)) haltedWorld /\
  (List.length (runningExecutions haltedWorld)
   + List.length (completedExecutions haltedWorld)
   + List.length (stoppedExecutions haltedWorld)
   = List.length (executions haltedWorld))%nat.
Proof.
  split; [exact haltedWorld_reachable |].
  exact (proj1 (status_cards_partition_ledger (constStream (1 # 100)) haltedWorld
                  haltedWorld_reachable)).
Defined.

Lemma running_count_at_most_three_witness :
  (forall k : nat, (0 <= constStream (1 # 100) k < 1)%Q) /\
  reachable (constStream (1 # 100)) seededWorld /\
  (runningCount seededWorld <= 3)%nat.
Proof.
  split; [apply constStream_range; lia |]. split; [exact seededWorld_reachable |].
  exact (proj1 (running_count_at_most_three (constStream (1 # 100))
                  (constStream_range 1 100 ltac:(lia) ltac:(lia))
                  seededWorld seededWorld_reachable)).
Defined.

Lemma ledgers_never_empty_witness :
  (forall k : nat, (0 <= constStream (1 # 100) k < 1)%Q) /\
  reachable (constStream (1 # 100)) haltedWorld /\
  (18 <= List.length (executions haltedWorld) <= 50)%nat.
Proof.
  split; [apply constStream_range; lia |]. split; [exact haltedWorld_reachable |].
  exact (proj1 (ledgers_never_empty (constStream (1 # 100))
                  (constStream_range 1 100 ltac:(lia) ltac:(lia))
                  haltedWorld haltedWorld_reachable)).
Defined.

Lemma executions_come_from_catalogs_witness :
  (forall k : nat, (0 <= constStream (1 # 100) k < 1)%Q) /\
  reachable (constStream (1 # 100)) haltedWorld /\
  forall e, In e (executions haltedWorld) -> In (AgentExecution.agentName e) agentNames.
Proof.
  split; [apply constStream_range; lia |]. split; [exact haltedWorld_reachable |].
  intros e He.
  exact (proj1 (executions_come_from_catalogs (constStream (1 # 100))
                  (constStream_range 1 100 ltac:(lia) ltac:(lia))
                  haltedWorld haltedWorld_reachable e He)).
Defined.

Lemma running_executions_are_young_witness :
  (forall k : nat, (0 <= constStream (1 # 100) k < 1)%Q) /\
  reachable (constStream (1 # 100)) seededWorld /\
  forall e, In e (runningExecutions seededWorld) ->
    (0 <= AgentExecution.duration e /\ AgentExecution.duration e <= 15)%Q.
Proof.
  split; [apply constStream_range; lia |]. split; [exact seededWorld_reachable |].
  exact (running_executions_are_young (constStream (1 # 100))
           (constStream_range 1 100 ltac:(lia) ltac:(lia))
           seededWorld seededWorld_reachable).
Defined.

Lemma update_map_freezes_terminal_and_advances_running_witness :
  nth_error [matureExecution] 0 = Some matureExecution /\
  List.length (fst (mapM (updateExecution (constStream (1 # 100)) t0)
                      [matureExecution] emptyWorld)) = 1%nat.
Proof.
  split; [reflexivity |].
  destruct (update_map_freezes_terminal_and_advances_running
              (constStream (1 # 100)) t0 [matureExecution] emptyWorld 0 matureExecution
              eq_refl) as (e' & _ & _ & _ & _ & _ & _ & _ & _ & H).
  exact H.
Defined.

Lemma completion_schedules_write_back_witness :
  (forall k : nat, (0 <= constStream (1 # 2) k < 1)%Q) /\
  isRunning matureExecution = true /\
  let r := updateExecution (constStream (1 # 2)) t0 matureExecution emptyWorld in
  isCompleted (fst r) = true /\
  (timers (snd r) = timers emptyWorld ++ [(0%Z, "InventoryAgent"%string)] \/
   timers (snd r) =
   timers emptyWorld ++ [(0%Z, "InventoryAgent"%string); (200%Z, "InventoryAgent"%string)]) /\
  timers (snd r) = [(0%Z, "InventoryAgent"%string); (200%Z, "InventoryAgent"%string)].
Proof.
  split; [apply constStream_range; lia |]. split; [reflexivity |]. cbv zeta.
  assert (C : isCompleted
                (fst (updateExecution (constStream (1 # 2)) t0 matureExecution emptyWorld))
              = true) by (vm_compute; reflexivity).
  split; [exact C |]. split; [| vm_compute; reflexivity].
  pose proof (completion_schedules_write_back (constStream (1 # 2)) t0
                matureExecution emptyWorld
                (constStream_range 1 2 ltac:(lia) ltac:(lia)) eq_refl) as H.
  cbv zeta in H. destruct H as (H & _). exact (H C).
Defined.

Lemma data_operations_attributed_to_running_agents_witness :
  reachable (constStream (1 # 100)) seededWorld /\
  exists ds,
    dataOps (snd (tick (constStream (1 # 100)) (t0 + 2000) seededWorld))
    = fold_left (fun acc d => pushDataOp d acc) ds (dataOps seededWorld) /\
    forall d, In d ds ->
      In (DataOperation.agent d)
         (runningAgents (afterSpawn (constStream (1 # 100)) (t0 + 2000) seededWorld)).
Proof.
  split; [exact seededWorld_reachable |].
  exact (data_operations_attributed_to_running_agents (constStream (1 # 100))
           (t0 + 2000) seededWorld seededWorld_reachable).
Defined.

Lemma generated_metrics_are_never_green_witness :
  (forall k : nat, (0 <= constStream (1 # 100) k < 1)%Q) /\
  forall c,
    In c (metricClasses
            (MonitoringAlert.details
               (fst (generateAlert (constStream (1 # 100)) t0 "PricingAgent" emptyWorld)))) ->
    c = "text-red-600"%string \/ c = "text-yellow-600"%string.
Proof.
  split; [apply constStream_range; lia |].
  pose proof (generated_metrics_are_never_green (constStream (1 # 100))
                (constStream_range 1 100 ltac:(lia) ltac:(lia))
                t0 "PricingAgent" emptyWorld) as H.
  cbv zeta in H. destruct H as (_ & _ & H). exact H.
Defined.

End MonitoringExtra.

(** * Monitoring dashboard: what the ledgers hold *)

Module LedgerSpec.

Import Num NumFacts Sorting Monitoring DashboardView MonitoringSpec MonitoringExtra.
Local Open Scope list_scope.
Local Open Scope js_scope.

Lemma fold_push_ids (es : list AgentExecution.t) (l : list AgentExecution.t) :
  map AgentExecution.id (fold_left (fun l e => pushExecution e l) es l) =
  fold_left (fun l i => pushCapped 50 i l) (map AgentExecution.id es)
    (map AgentExecution.id l).
Proof.
  revert l. induction es as [| e es IH]; intro l; [reflexivity |].
  cbn [fold_left map]. rewrite IH.
  replace (map AgentExecution.id (pushExecution e l))
    with (pushCapped 50 (AgentExecution.id e) (map AgentExecution.id l));
    [reflexivity |].
  rewrite pushExecution_capped. unfold pushCapped. rewrite <- firstn_map. reflexivity.
Qed.

Section Log.

Variable rnd : nat -> Q.
Variable now : Z.

Lemma emitWork_log e (w : World) :
  dataOps (snd (emitWork rnd now e w)) =
  fold_left (fun l d => pushDataOp d l)
    (if Qltb (rnd (cursor w)) (3 # 10)
     then [fst (generateDataOperation rnd now (AgentExecution.agentName e) (skipDraws 1 w))]
     else [])
    (dataOps w).
Proof.
  unfold emitWork. rewrite run_bind, random_run. cbn [fst snd].
  destruct (Qltb (rnd (cursor w)) (3 # 10)); reflexivity.
Qed.

(** The callback of the update map inserts what its log says. *)
Lemma update_log e (w : World) :
  dataOps (snd (updateExecution rnd now e w)) =
    fold_left (fun l d => pushDataOp d l) (workLog rnd now e w) (dataOps w) /\
  alerts (snd (updateExecution rnd now e w)) =
    fold_left (fun l a => pushAlert a l) (stopLog rnd now e w) (alerts w).
Proof.
  unfold workLog, stopLog. cbv zeta. destruct (isRunning e) eqn:Hrun; cbn [andb].
  - rewrite (updateExecution_running rnd now e w Hrun).
    destruct (emitWork_frame rnd now e w) as [Fa _].
    split; [rewrite settle_dataOps; apply emitWork_log |].
    destruct (Qltb (stopDraw rnd (snd (emitWork rnd now e w))) (2 # 100)) eqn:E.
    + rewrite (settle_stopped rnd now e _ E). cbn [snd alerts fold_left].
      destruct (generateAlert_world rnd now (AgentExecution.agentName e)
                  (skipDraws 1 (snd (emitWork rnd now e w)))) as [n En].
      rewrite En. cbn [skipDraws alerts]. rewrite Fa. reflexivity.
    + rewrite (settle_running_alerts rnd now e _ E), Fa. reflexivity.
  - rewrite (updateExecution_terminal rnd now e w Hrun). split; reflexivity.
Qed.

Lemma mapM_log (l : list AgentExecution.t) (w : World) :
  dataOps (snd (mapM (updateExecution rnd now) l w)) =
    fold_left (fun l d => pushDataOp d l) (fst (updateLog rnd now l w)) (dataOps w) /\
  alerts (snd (mapM (updateExecution rnd now) l w)) =
    fold_left (fun l a => pushAlert a l) (snd (updateLog rnd now l w)) (alerts w).
Proof.
  revert w. induction l as [| e l IH]; intro w; [split; reflexivity |].
  rewrite mapM_cons. cbn [snd updateLog fst].
  destruct (update_log e w) as [D A].
  destruct (IH (snd (updateExecution rnd now e w))) as [D' A'].
  rewrite !fold_left_app, <- D, <- A. split; assumption.
Qed.

Lemma timers_log (ts : list (Z * string)) (w : World) :
  dataOps (snd (forEach ts (fireTimer rnd now) w)) =
  fold_left (fun l d => pushDataOp d l) (timerLog rnd now ts w) (dataOps w).
Proof.
  revert w. induction ts as [| t ts IH]; intro w; [reflexivity |].
  cbn [forEach timerLog fold_left]. rewrite run_bind. rewrite IH. reflexivity.
Qed.

Lemma spawn_log (w : World) :
  fst (spawnCheck rnd now (executions w) w) =
  fold_left (fun l e => pushExecution e l) (spawnLog rnd now w) (executions w).
Proof.
  unfold spawnCheck, spawnLog, spawnDue, runningCount. cbv zeta. rewrite run_bind.
  destruct (List.length (filter isRunning (executions w)) =? 0)%nat.
  - cbn [ret fst snd orb]. rewrite run_bind. reflexivity.
  - cbn [orb]. destruct (List.length (filter isRunning (executions w)) <? 3)%nat.
    + rewrite run_bind, random_run. cbn [ret fst snd andb].
      destruct (Qltb (rnd (cursor w)) (4 # 10)); [rewrite run_bind |]; reflexivity.
    + reflexivity.
Qed.

(** A tick changes each ledger by the insertions of its log, in order. *)
Lemma tick_log (w : World) :
  let w' := snd (tick rnd now w) in
  let log := tickLog rnd now w in
  executionIds w' =
    map AgentExecution.id
      (fold_left (fun l e => pushExecution e l) (spawned log) (executions w)) /\
  dataOps w' = fold_left (fun l d => pushDataOp d l) (written log) (dataOps w) /\
  alerts w' = fold_left (fun l a => pushAlert a l) (raised log) (alerts w).
Proof.
  cbv zeta. unfold executionIds, tickLog. cbv zeta. cbn [spawned written raised].
  pose proof (tick_executions rnd now w) as Te. pose proof (tick_run rnd now w) as Tr.
  cbv zeta in Te, Tr. rewrite Te, Tr. rewrite !setExecutions_run. cbv zeta.
  cbn [executions].
  destruct (spawnCheck_frame rnd now (executions w) w) as (_ & Sd & Sa & _).
  set (spawnedL := spawnCheck rnd now (executions w) w) in *.
  set (w1 := mkWorld (cursor (snd spawnedL)) (fst spawnedL) (dataOps (snd spawnedL))
               (alerts (snd spawnedL)) (timers (snd spawnedL))).
  destruct (mapM_log (fst spawnedL) w1) as [Md Ma].
  split; [| split].
  - rewrite mapM_update_ids. unfold spawnedL. rewrite spawn_log. reflexivity.
  - unfold runTimers. rewrite run_bind. cbn [takeTimers fst snd timers].
    rewrite timers_log. cbn [dataOps cursor executions alerts timers].
    rewrite fold_left_app. rewrite Md. cbn [dataOps w1]. rewrite Sd. reflexivity.
  - match goal with |- alerts (snd (runTimers rnd now ?W)) = _ =>
      destruct (runTimers_frame rnd now W) as [Ra _]; rewrite Ra end.
    cbn [alerts]. rewrite Ma. cbn [alerts w1]. rewrite Sa. reflexivity.
Qed.

End Log.

Section Runs.

Variable rnd : nat -> Q.

Lemma runTicks_log (nows : list Z) (w : World) :
  let w' := runTicks rnd nows w in
  let log := runLog rnd nows w in
  executionIds w' =
    fold_left (fun l i => pushCapped 50 i l) (map AgentExecution.id (spawned log))
      (executionIds w) /\
  dataOps w' = fold_left (fun l d => pushCapped 100 d l) (written log) (dataOps w) /\
  alerts w' = fold_left (fun l a => pushCapped 15 a l) (raised log) (alerts w).
Proof.
  cbv zeta. revert w. induction nows as [| now nows IH]; intro w.
  - repeat split.
  - unfold runTicks. cbn [fold_left runLog spawned written raised].
    fold (runTicks rnd nows (snd (tick rnd now w))).
    destruct (IH (snd (tick rnd now w))) as (A & B & C).
    destruct (tick_log rnd now w) as (A0 & B0 & C0).
    rewrite A, B, C, map_app, !fold_left_app.
    rewrite A0, B0, C0, fold_push_ids. repeat split.
Qed.

Lemma runTicks_reachable (nows : list Z) (w : World) :
  reachable rnd w -> reachable rnd (runTicks rnd nows w).
Proof.
  revert w. induction nows as [| now nows IH]; intros w H; [exact H |].
  unfold runTicks. cbn [fold_left]. apply (IH (snd (tick rnd now w))).
  apply reach_tick. exact H.
Qed.

Hypothesis rnd_range : forall k, (0 <= rnd k < 1)%Q.

(** C3. Each of the three insertions puts the new entry in front and keeps
    the first 50, 100 or 15 entries, so a ledger within its capacity loses
    nothing below capacity and only its last (oldest) entry at capacity;
    after any sequence of insertions it holds the most recent capacity-many
    entries, newest first.  Every reachable dashboard is within capacity.  A
    tick inserts exactly the entries of its log, in the order of the calls:
    the execution of the spawn check into the executions (whose entries are
    otherwise updated in place, keeping their identifiers), the data
    operations of the running executions and of the write-back timers into
    the data operations, the alerts of the stopped executions into the
    alerts.  After any sequence of ticks each ledger is the first
    capacity-many entries of all that was inserted, newest first, followed
    by what it held before. *)
Theorem ledgers_bounded_most_recent_first :
  (forall e l, pushExecution e l = pushCapped 50 e l) /\
  (forall d l, pushDataOp d l = pushCapped 100 d l) /\
  (forall a l, pushAlert a l = pushCapped 15 a l) /\
  (forall (A : Type) (cap : nat) (x : A) (l : list A),
      (0 < cap)%nat ->
      (List.length (pushCapped cap x l) <= cap)%nat /\
      hd_error (pushCapped cap x l) = Some x /\
      ((List.length l < cap)%nat -> pushCapped cap x l = x :: l) /\
      (List.length l = cap -> pushCapped cap x l = x :: removelast l)) /\
  (forall (A : Type) (cap : nat) (xs l0 : list A),
      (List.length l0 <= cap)%nat ->
      fold_left (fun l x => pushCapped cap x l) xs l0 = firstn cap (rev xs ++ l0)) /\
  (forall w, reachable rnd w ->
      (List.length (executions w) <= 50)%nat /\
      (List.length (dataOps w) <= 100)%nat /\
      (List.length (alerts w) <= 15)%nat /\
      forall now,
        let w' := snd (tick rnd now w) in
        let log := tickLog rnd now w in
        executionIds w' =
          map AgentExecution.id
            (fold_left (fun l e => pushExecution e l) (spawned log) (executions w)) /\
        dataOps w' = fold_left (fun l d => pushDataOp d l) (written log) (dataOps w) /\
        alerts w' = fold_left (fun l a => pushAlert a l) (raised log) (alerts w)) /\
  (forall w, reachable rnd w ->
      forall nows : list Z,
        let w' := runTicks rnd nows w in
        let log := runLog rnd nows w in
        executionIds w' =
          firstn 50 (rev (map AgentExecution.id (spawned log)) ++ executionIds w) /\
        dataOps w' = firstn 100 (rev (written log) ++ dataOps w) /\
        alerts w' = firstn 15 (rev (raised log) ++ alerts w)).
Proof.
  split; [reflexivity |]. split; [reflexivity |]. split; [reflexivity |].
  split.
  { intros A cap x l Hc. split; [apply pushCapped_length |].
    split; [destruct cap; [lia | reflexivity] |].
    split; [apply pushCapped_room | apply pushCapped_full; exact Hc]. }
  split; [intros A cap xs l0; apply pushCapped_history |].
  split.
  - intros w Hw. destruct (reachable_spec rnd rnd_range w Hw) as [_ [He [Hd Ha]]].
    split; [exact He |]. split; [exact Hd |]. split; [exact Ha |].
    intro t. exact (tick_log rnd t w).
  - intros w Hw nows. destruct (reachable_spec rnd rnd_range w Hw) as [_ [He [Hd Ha]]].
    destruct (runTicks_log nows w) as (A & B & C). cbv zeta.
    rewrite A, B, C.
    split; [| split]; apply pushCapped_history;
      [unfold executionIds; rewrite length_map; exact He | exact Hd | exact Ha].
Qed.

End Runs.

Lemma saturatedWorld_reachable : reachable (constStream (1 # 100)) saturatedWorld.
Proof. apply runTicks_reachable. exact haltedWorld_reachable. Defined.

Lemma ledgers_bounded_most_recent_first_witness :
  (forall k : nat, (0 <= constStream (1 # 100) k < 1)%Q) /\
  reachable (constStream (1 # 100)) saturatedWorld /\
  (List.length (executions saturatedWorld) = 50 /\
   List.length (dataOps saturatedWorld) = 100 /\
   List.length (alerts saturatedWorld) = 15)%nat /\
  let now := (t0 + 2000 * 82)%Z in
  let w' := snd (tick (constStream (1 # 100)) now saturatedWorld) in
  let log := tickLog (constStream (1 # 100)) now saturatedWorld in
  (List.length (spawned log) = 1 /\ List.length (written log) = 1 /\
   List.length (raised log) = 1)%nat /\
  executionIds w' =
    map AgentExecution.id (spawned log) ++ removelast (executionIds saturatedWorld) /\
  dataOps w' = written log ++ removelast (dataOps saturatedWorld) /\
  alerts w' = raised log ++ removelast (alerts saturatedWorld).
Proof.
  split; [apply constStream_range; lia |]. split; [exact saturatedWorld_reachable |].
  assert (L : (List.length (executions saturatedWorld) = 50 /\
               List.length (dataOps saturatedWorld) = 100 /\
               List.length (alerts saturatedWorld) = 15)%nat)
    by (vm_compute; repeat split).
  split; [exact L |]. cbv zeta.
  assert (N : (List.length (spawned (tickLog (constStream (1 # 100)) (t0 + 2000 * 82)
                                       saturatedWorld)) = 1 /\
               List.length (written (tickLog (constStream (1 # 100)) (t0 + 2000 * 82)
                                       saturatedWorld)) = 1 /\
               List.length (raised (tickLog (constStream (1 # 100)) (t0 + 2000 * 82)
                                      saturatedWorld)) = 1)%nat)
    by (vm_compute; repeat split).
  split; [exact N |].
  pose proof (ledgers_bounded_most_recent_first (constStream (1 # 100))
                (constStream_range 1 100 ltac:(lia) ltac:(lia))) as T.
  destruct T as (Pe & Pd & Pa & Pcap & _ & Ptick & _).
  destruct (Ptick saturatedWorld saturatedWorld_reachable) as (_ & _ & _ & Pt).
  specialize (Pt (t0 + 2000 * 82)%Z). cbv zeta in Pt.
  revert L N Pt.
  generalize (tickLog (constStream (1 # 100)) (t0 + 2000 * 82) saturatedWorld).
  generalize (snd (tick (constStream (1 # 100)) (t0 + 2000 * 82) saturatedWorld)).
  generalize saturatedWorld.
  intros w w' [[| e [| e' es]] [| d [| d' ds]] [| a [| a' al]]] (Le & Ld & La) (Ne & Nd & Na)
         (Te & Td & Ta); try discriminate.
  cbn [spawned written raised fold_left map app] in *.
  rewrite Te, Td, Ta, Pe, Pd, Pa.
  split; [| split].
  - unfold executionIds, pushCapped. rewrite <- firstn_map. cbn [map].
    fold (pushCapped 50 (AgentExecution.id e) (map AgentExecution.id (executions w))).
    apply (proj2 (proj2 (proj2 (Pcap _ 50%nat _ _ ltac:(lia))))).
    rewrite length_map. exact Le.
  - apply (proj2 (proj2 (proj2 (Pcap _ 100%nat d _ ltac:(lia))))). exact Ld.
  - apply (proj2 (proj2 (proj2 (Pcap _ 15%nat a _ ltac:(lia))))). exact La.
Defined.

End LedgerSpec.

(** * Agent chat: further properties of the session *)

Module ChatExtra.

Import Num Sorting Js Chat ChatSpec.
Local Open Scope list_scope.

Lemma turns_snoc (n : nat) : turns n ++ [user; agent] = turns (S n).
Proof.
  unfold turns. induction n as [| n IH]; [reflexivity |].
  simpl in *. rewrite IH. reflexivity.
Qed.

Lemma count_app {A} (f : A -> bool) (l l' : list A) :
  count f (l ++ l') = (count f l + count f l')%nat.
Proof. unfold count. rewrite filter_app, length_app. reflexivity. Qed.

Lemma count_one {A} (f : A -> bool) (x : A) :
  count f [x] = if f x then 1%nat else 0%nat.
Proof. unfold count. cbn [filter]. destruct (f x); reflexivity. Qed.

Lemma count_removeNth {A} (f : A -> bool) (n : nat) (l : list A) (x : A) :
  nth_error l n = Some x ->
  count f l = ((if f x then 1 else 0) + count f (removeNth n l))%nat.
Proof.
  revert n. induction l as [| y l IH]; intros [| n] H; try discriminate.
  - injection H as ->. unfold count. cbn [removeNth filter].
    destruct (f x); reflexivity.
  - cbn [nth_error] in H. specialize (IH n H). unfold count in *.
    cbn [removeNth filter]. destruct (f y); cbn [List.length]; lia.
Qed.

Lemma effects_none (l : list Effect) :
  count isCall l = 0%nat -> count isInvalidation l = 0%nat ->
  count isError l = 0%nat -> l = [].
Proof.
  destruct l as [| e l]; [reflexivity |].
  destruct e; unfold count; cbn; intros; discriminate.
Qed.

Section Session.

Variable props : Props.

(** What a send does when it is not ignored. *)
Lemma handleSendMessage_shape (now : Z) (rnd : Q) (s : State) :
  handleSendMessage props now rnd s = s \/
  ((trim (inputMessage s) =? "")%string = false /\
   exists tm t,
     handleSendMessage props now rnd s =
     mkState (messages s ++ [userMessage now (inputMessage s)]) "" true tm
       (pending s ++ [t]) (trace s) /\
     isOptimizeTimer t = isPricingOptimizationQuestion (agentType props) (inputMessage s) /\
     isAwaiting t = false).
Proof.
  unfold handleSendMessage.
  destruct (trim (inputMessage s) =? "")%string eqn:E; [left; reflexivity | right].
  split; [reflexivity |].
  destruct (isPricingOptimizationQuestion (agentType props) (inputMessage s)).
  - eexists _, _. split; [reflexivity |]. split; reflexivity.
  - destruct (isPricingMarketQuestion (agentType props) (inputMessage s));
      eexists _, _; (split; [reflexivity |]); split; reflexivity.
Qed.

(** The transcript after one event. *)
Lemma step_messages (e : Event) (s : State) :
  messages (step props e s) = messages s \/
  (exists now, messages (step props e s) = messages s ++ [userMessage now (inputMessage s)] /\
               (trim (inputMessage s) =? "")%string = false) \/
  (exists now r, messages (step props e s) = messages s ++ [agentMessage props now r]).
Proof.
  destruct e as [v | n | now rnd | now rnd | n now | n api now]; unfold step.
  - destruct (inputDisabled s); left; reflexivity.
  - destruct (nth_error (quickActions (agentType props)) n); left; reflexivity.
  - destruct (inputDisabled s); [left; reflexivity |].
    destruct (handleSendMessage_shape now rnd s) as [-> | (Hb & tm & t & -> & _)];
      [left; reflexivity | right; left]. exists now. split; [reflexivity | exact Hb].
  - destruct (sendDisabled s); [left; reflexivity |].
    destruct (handleSendMessage_shape now rnd s) as [-> | (Hb & tm & t & -> & _)];
      [left; reflexivity | right; left]. exists now. split; [reflexivity | exact Hb].
  - destruct (nth_error (pending s) n) as [[d j | m] |]; try (left; reflexivity).
    destruct j; cbn; try (left; reflexivity); right; right; eexists _, _; reflexivity.
  - destruct (nth_error (pending s) n) as [[d j | m] |]; try (left; reflexivity).
    right; right. unfold resumeOptimization.
    destruct (pricingSettled api) as [fx r]. eexists _, _. reflexivity.
Qed.

Lemma step_trace (e : Event) (s : State) :
  exists fx, trace (step props e s) = trace s ++ fx.
Proof.
  destruct e as [v | n | now rnd | now rnd | n now | n api now]; unfold step.
  - exists []. rewrite app_nil_r. destruct (inputDisabled s); reflexivity.
  - exists []. rewrite app_nil_r.
    destruct (nth_error (quickActions (agentType props)) n); reflexivity.
  - exists []. rewrite app_nil_r. destruct (inputDisabled s); [reflexivity |].
    destruct (handleSendMessage_shape now rnd s) as [-> | (_ & tm & t & -> & _)];
      reflexivity.
  - exists []. rewrite app_nil_r. destruct (sendDisabled s); [reflexivity |].
    destruct (handleSendMessage_shape now rnd s) as [-> | (_ & tm & t & -> & _)];
      reflexivity.
  - destruct (nth_error (pending s) n) as [[d j | m] |];
      try (exists []; rewrite app_nil_r; reflexivity).
    destruct j; cbn; try (exists []; rewrite app_nil_r; reflexivity).
    eexists. reflexivity.
  - destruct (nth_error (pending s) n) as [[d j | m] |];
      try (exists []; rewrite app_nil_r; reflexivity).
    unfold resumeOptimization. destruct (pricingSettled api) as [fx r].
    exists fx. reflexivity.
Qed.

(** X11. Nothing is ever edited or removed: after any events the transcript
    and the trace of collaborator calls extend the ones before. *)
Theorem transcript_and_trace_only_grow (es : list Event) (s : State) :
  exists ms fx,
    messages (run props es s) = messages s ++ ms /\
    trace (run props es s) = trace s ++ fx.
Proof.
  revert s. induction es as [| e es IH]; intro s.
  - exists [], []. cbn. rewrite !app_nil_r. split; reflexivity.
  - unfold run. cbn [fold_left]. fold (run props es (step props e s)).
    destruct (IH (step props e s)) as (ms & fx & Hm & Ht).
    destruct (step_trace e s) as [fx0 Hfx]. rewrite Hm, Ht, Hfx.
    destruct (step_messages e s) as [-> | [(now & -> & _) | (now & r & ->)]].
    + exists ms, (fx0 ++ fx). rewrite app_assoc. split; reflexivity.
    + eexists _, (fx0 ++ fx). rewrite <- !app_assoc. split; reflexivity.
    + eexists _, (fx0 ++ fx). rewrite <- !app_assoc. split; reflexivity.
Qed.

Lemma send_alternates (now : Z) (rnd : Q) (s : State) :
  isTyping s = false -> alternates s -> alternates (handleSendMessage props now rnd s).
Proof.
  intros Ht [n Hn].
  destruct (handleSendMessage_shape now rnd s) as [-> | (_ & tm & t & -> & _)].
  - exists n. exact Hn.
  - exists n. cbn [messages isTyping]. rewrite map_app, Hn, Ht, app_nil_r.
    reflexivity.
Qed.

Lemma reply_alternates (s : State) (m : Message.t) (msgs : list Message.t) :
  isTyping s = true -> alternates s -> Message.type m = agent ->
  exists n, map Message.type (messages s ++ [m]) = agent :: turns n ++ [].
Proof.
  intros Ht [n Hn] Hm. exists (S n).
  rewrite map_app, Hn, Ht. cbn [map]. rewrite Hm, app_nil_r.
  rewrite <- turns_snoc. cbn [app]. rewrite <- app_assoc. reflexivity.
Qed.

Lemma step_alternates (e : Event) (s : State) :
  oneInFlight s -> alternates s -> alternates (step props e s).
Proof.
  intros Hone Halt.
  destruct e as [v | n | now rnd | now rnd | n now | n api now]; unfold step.
  - destruct (inputDisabled s); exact Halt.
  - destruct (nth_error (quickActions (agentType props)) n); exact Halt.
  - unfold inputDisabled. destruct (isTyping s) eqn:Ht; [exact Halt |].
    apply send_alternates; assumption.
  - unfold sendDisabled. destruct (isTyping s) eqn:Ht;
      [rewrite orb_true_r; exact Halt |].
    destruct (trim (inputMessage s) =? "")%string; [exact Halt |].
    apply send_alternates; assumption.
  - destruct (nth_error (pending s) n) as [[d j | m] |] eqn:En; try exact Halt.
    destruct Hone as [[_ Hp] | [Ht _]];
      [rewrite Hp in En; destruct n; discriminate |].
    destruct j; cbn.
    + exact Halt.
    + destruct Halt as [k Hk]. exists k. exact Hk.
    + unfold alternates. cbn [messages isTyping].
      apply (reply_alternates s _ []); [exact Ht | exact Halt | reflexivity].
    + unfold alternates. cbn [messages isTyping].
      apply (reply_alternates s _ []); [exact Ht | exact Halt | reflexivity].
  - destruct (nth_error (pending s) n) as [[d j | m] |] eqn:En; try exact Halt.
    destruct Hone as [[_ Hp] | [Ht _]];
      [rewrite Hp in En; destruct n; discriminate |].
    unfold resumeOptimization. destruct (pricingSettled api) as [fx r].
    unfold alternates. cbn [messages isTyping withPending].
    apply (reply_alternates s _ []); [exact Ht | exact Halt | reflexivity].
Qed.

(** X12. A session opened by the mount effect and driven through the
    controls is a strict dialogue: the welcome message, then user message
    and reply in turn, the last user message being unanswered exactly while
    the typing indicator is shown; and at most one callback is registered. *)
Theorem transcript_alternates (es : list Event) (now0 : Z) :
  let s := run props es (openChat props now0) in
  (exists n, map Message.type (messages s) =
             agent :: turns n ++ (if isTyping s then [user] else [])) /\
  (List.length (pending s) = if isTyping s then 1 else 0)%nat.
Proof.
  cbn zeta.
  assert (H : forall es s, oneInFlight s -> alternates s ->
                           oneInFlight (run props es s) /\ alternates (run props es s)).
  { clear es. induction es as [| e es IH]; intros s H1 H2; [split; assumption |].
    unfold run. cbn [fold_left]. apply (IH (step props e s)).
    - apply step_oneInFlight. exact H1.
    - apply step_alternates; assumption. }
  destruct (H es (openChat props now0)) as [H1 H2].
  - left. split; reflexivity.
  - exists 0%nat. reflexivity.
  - split; [exact H2 |].
    destruct H1 as [[-> ->] | [-> ->]]; reflexivity.
Qed.

(** The books are kept by every event. *)
Lemma send_balanced (now : Z) (rnd : Q) (s : State) :
  balanced props s -> balanced props (handleSendMessage props now rnd s).
Proof.
  intros [B1 B2].
  destruct (handleSendMessage_shape now rnd s) as [-> | (_ & tm & t & -> & Ho & Ha)];
    [split; assumption |].
  unfold balanced. cbn [messages pending trace].
  rewrite !count_app, !count_one, Ho, Ha.
  unfold asksOptimization at 2. cbn [userMessage Message.type Message.content].
  destruct (isPricingOptimizationQuestion (agentType props) (inputMessage s)); lia.
Qed.

Lemma step_balanced (e : Event) (s : State) :
  balanced props s -> balanced props (step props e s).
Proof.
  intros B.
  destruct e as [v | n | now rnd | now rnd | n now | n api now]; unfold step.
  - destruct (inputDisabled s); exact B.
  - destruct (nth_error (quickActions (agentType props)) n); exact B.
  - destruct (inputDisabled s); [exact B | apply send_balanced; exact B].
  - destruct (sendDisabled s); [exact B | apply send_balanced; exact B].
  - destruct (nth_error (pending s) n) as [[d j | m] |] eqn:En; try exact B.
    destruct B as [B1 B2].
    pose proof (count_removeNth isOptimizeTimer n _ _ En) as C1.
    pose proof (count_removeNth isAwaiting n _ _ En) as C2.
    unfold balanced.
    destruct j; cbn [runJob withPending messages pending trace];
      rewrite ?count_app, ?count_one;
      cbn [isOptimizeTimer isAwaiting isCall isInvalidation isError asksOptimization
           agentMessage Message.type] in *;
      lia.
  - destruct (nth_error (pending s) n) as [[d j | m] |] eqn:En; try exact B.
    destruct B as [B1 B2].
    pose proof (count_removeNth isOptimizeTimer n _ _ En) as C1.
    pose proof (count_removeNth isAwaiting n _ _ En) as C2.
    cbn [isOptimizeTimer isAwaiting] in C1, C2.
    unfold resumeOptimization, balanced.
    destruct api as [payload | msg]; cbn [pricingSettled].
    + unfold pricingApplied. cbn [withPending messages pending trace].
      rewrite !count_app, !count_one.
      change (count isCall [InvalidateQueries ["products"%string];
                            InvalidateQueries ["featured-products"%string]]) with 0%nat.
      change (count isInvalidation [InvalidateQueries ["products"%string];
                            InvalidateQueries ["featured-products"%string]]) with 2%nat.
      change (count isError [InvalidateQueries ["products"%string];
                            InvalidateQueries ["featured-products"%string]]) with 0%nat.
      cbn [asksOptimization agentMessage Message.type]. lia.
    + unfold pricingFallback. cbn [withPending messages pending trace].
      rewrite !count_app, !count_one.
      cbn [isCall isInvalidation isError asksOptimization agentMessage Message.type].
      lia.
Qed.

Lemma run_balanced (es : list Event) (s : State) :
  balanced props s -> balanced props (run props es s).
Proof.
  revert s. induction es as [| e es IH]; intros s B; [exact B |].
  unfold run. cbn [fold_left]. apply (IH (step props e s)).
  apply step_balanced. exact B.
Qed.

Lemma openChat_balanced (now0 : Z) : balanced props (openChat props now0).
Proof. split; reflexivity. Qed.

(** X13. The pricing service is called once for each optimisation question
    whose timer has fired, never more: calls and waiting timers add up to the
    optimisation questions in the transcript; and every call is either still
    awaited, or has resolved with its two invalidations, or has been rejected
    with its one console error. *)
Theorem service_calls_are_accounted_for (es : list Event) (now0 : Z) :
  let s := run props es (openChat props now0) in
  (count isCall (trace s) + count isOptimizeTimer (pending s) =
   count (asksOptimization props) (messages s))%nat /\
  (2 * count isCall (trace s) =
   2 * count isAwaiting (pending s) + count isInvalidation (trace s)
   + 2 * count isError (trace s))%nat /\
  (count isCall (trace s) <= count (asksOptimization props) (messages s))%nat /\
  (count isInvalidation (trace s) <= 2 * count isCall (trace s))%nat.
Proof.
  cbn zeta.
  destruct (run_balanced es _ (openChat_balanced now0)) as [B1 B2].
  split; [exact B1 |]. split; [exact B2 |]. split; lia.
Qed.

Lemma no_optimization_questions (l : list Message.t) :
  isPricingAgent (agentType props) = false ->
  count (asksOptimization props) l = 0%nat.
Proof.
  intro H. unfold count. induction l as [| m l IH]; [reflexivity |].
  cbn [filter]. unfold asksOptimization at 1, isPricingOptimizationQuestion.
  rewrite H. cbn [andb]. destruct (Message.type m); exact IH.
Qed.

(** X14. A chat of any agent but the pricing agent never reaches a
    collaborator: whatever the events, no call of the pricing service, no
    query invalidation and no console error is made. *)
Theorem other_agents_never_call_the_service (es : list Event) (now0 : Z) :
  isPricingAgent (agentType props) = false ->
  trace (run props es (openChat props now0)) = [].
Proof.
  intro Hp.
  destruct (run_balanced es _ (openChat_balanced now0)) as [B1 B2].
  rewrite (no_optimization_questions _ Hp) in B1.
  apply effects_none; lia.
Qed.

(** X15. No blank message is ever sent: in a session opened by the mount
    effect every user message of the transcript has a text that is not
    empty after trimming. *)
Theorem blank_input_is_never_sent (es : list Event) (now0 : Z) :
  filter isBlankUserMessage (messages (run props es (openChat props now0))) = [].
Proof.
  assert (H : forall es s, filter isBlankUserMessage (messages s) = [] ->
                           filter isBlankUserMessage (messages (run props es s)) = []).
  { clear es. induction es as [| e es IH]; intros s Hs; [exact Hs |].
    unfold run. cbn [fold_left]. apply (IH (step props e s)).
    destruct (step_messages e s) as [-> | [(now & -> & Hb) | (now & r & ->)]].
    - exact Hs.
    - rewrite filter_app, Hs. cbn [filter app]. unfold isBlankUserMessage.
      cbn [userMessage Message.type Message.content]. rewrite Hb. reflexivity.
    - rewrite filter_app, Hs. reflexivity. }
  apply H. reflexivity.
Qed.

(** X16. In a pricing chat a question about market conditions that is not
    an optimisation question is answered without any collaborator: the send
    shows "Searching the web..." and registers a 30 second timer, whose
    callback switches to "Agent is thinking..." and registers a 3 second
    timer, whose callback appends the reply of [generateAgentResponse]; the
    trace of calls is unchanged. *)
Theorem market_question_waits_then_answers_from_the_table
    (send : Event) (now1 now2 now3 : Z) (rnd : Q) (s : State) :
  send = ClickSend now1 rnd \/ send = KeyPressEnter now1 rnd ->
  sendDisabled s = false ->
  isPricingOptimizationQuestion (agentType props) (inputMessage s) = false ->
  isPricingMarketQuestion (agentType props) (inputMessage s) = true ->
  let n := List.length (pending s) in
  let s1 := step props send s in
  let s2 := step props (TimerFires n now2) s1 in
  let s3 := step props (TimerFires n now3) s2 in
  (typingMessage s1 = "Searching the web..."%string /\ isTyping s1 = true /\
   pending s1 = pending s ++ [Timer 30000 (SearchJob (inputMessage s))]) /\
  (typingMessage s2 = "Agent is thinking..."%string /\ isTyping s2 = true /\
   messages s2 = messages s1 /\
   pending s2 = pending s ++ [Timer 3000 (ThinkJob (inputMessage s))]) /\
  messages s3 =
    messages s ++ [ userMessage now1 (inputMessage s);
                    agentMessage props now3
                      (generateAgentResponse (inputMessage s) (agentType props)) ] /\
  isTyping s3 = false /\ pending s3 = pending s /\ trace s3 = trace s.
Proof.
  intros Hsend Hd Ho Hm n s1 s2 s3.
  assert (Hb : (trim (inputMessage s) =? "")%string = false /\ isTyping s = false).
  { unfold sendDisabled in Hd. apply orb_false_iff in Hd. exact Hd. }
  destruct Hb as [Hb Ht].
  assert (E1 : s1 = mkState (messages s ++ [userMessage now1 (inputMessage s)]) ""
                      true "Searching the web..."
                      (pending s ++ [Timer 30000 (SearchJob (inputMessage s))]) (trace s)).
  { unfold s1. destruct Hsend as [-> | ->]; unfold step.
    - rewrite Hd. unfold handleSendMessage. rewrite Hb, Ho, Hm. reflexivity.
    - unfold inputDisabled. rewrite Ht. unfold handleSendMessage.
      rewrite Hb, Ho, Hm. reflexivity. }
  assert (E2 : s2 = mkState (messages s ++ [userMessage now1 (inputMessage s)]) ""
                      true "Agent is thinking..."
                      (pending s ++ [Timer 3000 (ThinkJob (inputMessage s))]) (trace s)).
  { unfold s2. rewrite E1. unfold step, n. cbn [pending].
    rewrite nth_error_snoc. unfold withPending. cbn [pending].
    rewrite removeNth_snoc. reflexivity. }
  assert (E3 : s3 = mkState
                  (messages s ++ [ userMessage now1 (inputMessage s);
                                   agentMessage props now3
                                     (generateAgentResponse (inputMessage s) (agentType props)) ])
                  "" false "Agent is thinking..." (pending s) (trace s)).
  { unfold s3. rewrite E2. unfold step, n. cbn [pending].
    rewrite nth_error_snoc. unfold withPending. cbn [pending].
    rewrite removeNth_snoc. cbn [runJob messages inputMessage pending trace].
    rewrite <- app_assoc. reflexivity. }
  rewrite E1, E2, E3. cbn [typingMessage isTyping pending messages trace].
  repeat match goal with |- _ /\ _ => split end; reflexivity.
Qed.

(** X17. Any other question takes the regular branch: the send clears the
    input, shows "Agent is thinking..." and registers one timer of at least
    1.5 and less than 3.5 seconds, whose callback appends the reply of
    [generateAgentResponse] and ends the typing state; no collaborator is
    reached. *)
Theorem regular_question_is_answered_from_the_table
    (send : Event) (now1 now2 : Z) (rnd : Q) (s : State) :
  send = ClickSend now1 rnd \/ send = KeyPressEnter now1 rnd ->
  sendDisabled s = false ->
  isPricingOptimizationQuestion (agentType props) (inputMessage s) = false ->
  isPricingMarketQuestion (agentType props) (inputMessage s) = false ->
  (0 <= rnd < 1)%Q ->
  let n := List.length (pending s) in
  let s1 := step props send s in
  let s2 := step props (TimerFires n now2) s1 in
  (exists d, pending s1 = pending s ++ [Timer d (RespondJob (inputMessage s))] /\
             (1500 <= d < 3500)%Q) /\
  isTyping s1 = true /\ inputMessage s1 = ""%string /\
  typingMessage s1 = "Agent is thinking..."%string /\
  messages s2 =
    messages s ++ [ userMessage now1 (inputMessage s);
                    agentMessage props now2
                      (generateAgentResponse (inputMessage s) (agentType props)) ] /\
  isTyping s2 = false /\ pending s2 = pending s /\ trace s2 = trace s.
Proof.
  intros Hsend Hd Ho Hm Hr n s1 s2.
  assert (Hb : (trim (inputMessage s) =? "")%string = false /\ isTyping s = false).
  { unfold sendDisabled in Hd. apply orb_false_iff in Hd. exact Hd. }
  destruct Hb as [Hb Ht].
  assert (E1 : s1 = mkState (messages s ++ [userMessage now1 (inputMessage s)]) ""
                      true "Agent is thinking..."
                      (pending s ++ [Timer (1500 + rnd * 2000) (RespondJob (inputMessage s))])
                      (trace s)).
  { unfold s1. destruct Hsend as [-> | ->]; unfold step.
    - rewrite Hd. unfold handleSendMessage. rewrite Hb, Ho, Hm. reflexivity.
    - unfold inputDisabled. rewrite Ht. unfold handleSendMessage.
      rewrite Hb, Ho, Hm. reflexivity. }
  assert (E2 : s2 = mkState
                  (messages s ++ [ userMessage now1 (inputMessage s);
                                   agentMessage props now2
                                     (generateAgentResponse (inputMessage s) (agentType props)) ])
                  "" false "Agent is thinking..." (pending s) (trace s)).
  { unfold s2. rewrite E1. unfold step, n. cbn [pending].
    rewrite nth_error_snoc. unfold withPending. cbn [pending].
    rewrite removeNth_snoc.
    cbn [runJob messages inputMessage pending trace typingMessage].
    rewrite <- app_assoc. reflexivity. }
  rewrite E1, E2. cbn [typingMessage isTyping pending messages trace inputMessage].
  split.
  - exists (1500 + rnd * 2000)%Q. split; [reflexivity |]. destruct Hr as [H0 H1].
    split; lra.
  - repeat match goal with |- _ /\ _ => split end; reflexivity.
Qed.

End Session.



(** ** The response table *)

Lemma property_In {A} (key : string) (o : list (string * A)) (v : A) :
  property key o = Some v -> In (key, v) o.
Proof.
  induction o as [| [k w] o IH]; [discriminate |].
  cbn [property]. destruct (k =? key)%string eqn:E.
  - intro H. injection H as ->. apply String.eqb_eq in E. subst k. left. reflexivity.
  - intro H. right. apply IH. exact H.
Qed.

Lemma Object_entries_In {A} (o : list (string * A)) (kv : string * A) :
  In kv (Object_entries o) -> In kv o.
Proof.
  unfold Object_entries. intro H. apply in_app_or in H. destruct H as [H | H].
  - assert (F : Forall (fun x => In x o)
                  (sortBy indexBefore (filter (fun kv => isArrayIndex (fst kv)) o))).
    { apply MonitoringSpec.sortBy_Forall. apply Forall_forall.
      intros x Hx. apply filter_In in Hx. exact (proj1 Hx). }
    rewrite Forall_forall in F. apply F. exact H.
  - apply filter_In in H. exact (proj1 H).
Qed.

Lemma default_present (t : AgentType) :
  exists r, property "default" (responses t) = Some r.
Proof. destruct t; eexists; vm_compute; reflexivity. Qed.

Lemma table_canned (t : AgentType) :
  forallb (fun kv => isCanned (metadata (snd kv))) (responses t) = true.
Proof. destruct t; vm_compute; reflexivity. Qed.

(** X18. Whatever the message, [generateAgentResponse] returns one of the
    entries of the table of the agent type, never [undefined]: the reply
    carries a confidence strictly between 0 and 1, a category and at least
    one action, and none of the fields by which a pricing run reports applied
    changes. *)
Theorem responses_come_from_the_table (message : string) (t : AgentType) :
  let r := generateAgentResponse message t in
  In r (map snd (responses t)) /\
  isCanned (metadata r) = true /\
  optimization_applied (metadata r) = None /\
  real_changes (metadata r) = None.
Proof.
  cbn zeta.
  assert (H : exists k, In (k, generateAgentResponse message t) (responses t)).
  { unfold generateAgentResponse.
    destruct (find _ (Object_entries (responses t))) as [[k r] |] eqn:E.
    - apply find_some in E. exists k. apply Object_entries_In. exact (proj1 E).
    - destruct (default_present t) as [r Er]. rewrite Er.
      exists "default"%string. apply property_In. exact Er. }
  destruct H as [k H].
  assert (C : isCanned (metadata (generateAgentResponse message t)) = true).
  { pose proof (table_canned t) as F. rewrite forallb_forall in F.
    exact (F _ H). }
  split; [exact (in_map snd _ _ H) |]. split; [exact C |].
  unfold isCanned in C. apply andb_true_iff in C. destruct C as [_ C].
  destruct (metadata (generateAgentResponse message t)) as [c cat acts oa pu ai rc].
  cbn [optimization_applied products_updated average_increase real_changes] in *.
  destruct oa, pu, ai, rc; try discriminate. split; reflexivity.
Qed.

(** X19. No entry of a table is dead: a message that consists of a keyword
    of the agent's table gets the entry written under that keyword, and so
    does the message "default". *)
Theorem every_keyword_is_live (t : AgentType) (k : string) (r : Response) :
  In (k, r) (responses t) -> generateAgentResponse k t = r.
Proof.
  destruct t; intro H; cbn [responses In] in H;
    repeat (destruct H as [H | H];
            [injection H as <- <-; vm_compute; reflexivity |]);
    contradiction.
Qed.

Lemma customer_service_entries :
  exists r1 r2 r3 r4 rest,
    Object_entries (responses CustomerServiceAgent) =
    ("12345", r1) :: ("54321", r2) :: ("67890", r3) :: ("order", r4) :: rest /\
    property "12345" (responses CustomerServiceAgent) = Some r1 /\
    property "54321" (responses CustomerServiceAgent) = Some r2 /\
    property "67890" (responses CustomerServiceAgent) = Some r3 /\
    property "order" (responses CustomerServiceAgent) = Some r4.
Proof.
  vm_compute. do 5 eexists.
  split; [reflexivity |]. repeat split.
Qed.

(** X20. The order numbers of the customer-service table are array-index
    keys, which [Object.entries] lists first and in ascending order, before
    "order" although "order" is written first.  So a message that mentions
    12345 gets the entry of that order whatever else it says; one that
    mentions 54321 and not 12345 gets the entry of 54321 even if it also
    mentions 67890, which is written before it; and "order" is matched only
    when no order number is. *)
Theorem order_numbers_take_precedence (message : string) :
  let lower := toLowerCase message in
  let table := responses CustomerServiceAgent in
  let reply := Some (generateAgentResponse message CustomerServiceAgent) in
  (includes lower "12345" = true -> reply = property "12345" table) /\
  (includes lower "12345" = false -> includes lower "54321" = true ->
   reply = property "54321" table) /\
  (includes lower "12345" = false -> includes lower "54321" = false ->
   includes lower "67890" = true -> reply = property "67890" table) /\
  (includes lower "12345" = false -> includes lower "54321" = false ->
   includes lower "67890" = false -> includes lower "order" = true ->
   reply = property "order" table).
Proof.
  cbn zeta.
  destruct customer_service_entries as (r1 & r2 & r3 & r4 & rest & E & P1 & P2 & P3 & P4).
  unfold generateAgentResponse. rewrite E, P1, P2, P3, P4.
  cbn [find fst snd].
  change ("12345" =? "default")%string with false.
  change ("54321" =? "default")%string with false.
  change ("67890" =? "default")%string with false.
  change ("order" =? "default")%string with false.
  cbn [negb andb].
  split; [intros ->; reflexivity |].
  split; [intros -> ->; reflexivity |].
  split; [intros -> -> ->; reflexivity |].
  intros -> -> -> ->. reflexivity.
Qed.

(** ** The reply of a pricing run *)

Lemma append_nonempty (a b : string) : b <> ""%string -> (a ++ b)%string <> ""%string.
Proof.
  intros Hb H. destruct a as [| c a]; [exact (Hb H) | discriminate].
Qed.

Lemma toFixed1_nonempty (x : Q) : toFixed1 x <> ""%string.
Proof.
  unfold toFixed1. apply append_nonempty. apply append_nonempty.
  discriminate.
Qed.

(** X21. The reply of a resolved pricing run never reports zero updated
    products: a count of 0, like a missing count or a missing body, is
    reported as 5, any other count as it is.  The average increase is not
    treated alike: a reported 0 is shown as "0.0%", and "3.2%" stands in only
    for a missing value. *)
Theorem zero_updates_are_reported_as_five (payload : option OptimizationData) :
  let md := metadata (snd (pricingApplied payload)) in
  let reported := match payload with Some d => total_products_updated d | None => None end in
  let percent := match payload with Some d => average_increase_percent d | None => None end in
  (exists n, products_updated md = Some n /\ n <> 0%Z /\
             (forall k, reported = Some k -> k <> 0%Z -> n = k) /\
             (reported = Some 0%Z \/ reported = None -> n = 5%Z)) /\
  (forall q, percent = Some q -> average_increase md = Some (toFixed1 q ++ "%")%string) /\
  (percent = None -> average_increase md = Some "3.2%"%string) /\
  average_increase (metadata (snd (pricingApplied (Some (mkData (Some 0%Z) (Some 0%Q)))))) =
    Some "0.0%"%string.
Proof.
  cbn zeta. unfold pricingApplied. cbn [snd metadata products_updated average_increase].
  split; [| split; [| split]].
  - destruct payload as [[[k |] p] |]; cbn [total_products_updated].
    + destruct (Z.eqb_spec k 0) as [-> | Hk].
      * exists 5%Z. split; [reflexivity |]. split; [lia |].
        split; [intros k' H; injection H as <-; intro; contradiction | reflexivity].
      * exists k. split; [reflexivity |]. split; [exact Hk |].
        split; [intros k' H _; injection H as <-; reflexivity |].
        intros [H | H]; [injection H as ->; contradiction | discriminate].
    + exists 5%Z. split; [reflexivity |]. split; [lia |].
      split; [intros k' H; discriminate | reflexivity].
    + exists 5%Z. split; [reflexivity |]. split; [lia |].
      split; [intros k' H; discriminate | reflexivity].
  - intros q Hq. destruct payload as [[k [p |]] |]; try discriminate.
    cbn [average_increase_percent] in *. injection Hq as ->.
    destruct (toFixed1 q =? "")%string eqn:E; [| reflexivity].
    apply String.eqb_eq in E. destruct (toFixed1_nonempty q E).
  - intros Hq. destruct payload as [[k [p |]] |]; try discriminate; reflexivity.
  - vm_compute. reflexivity.
Qed.

(** ** Instances *)

Lemma other_agents_never_call_the_service_witness :
  isPricingAgent (agentType inventoryProps) = false /\
  trace (run inventoryProps
           [QuickAction 0; ClickSend 1000 (1 # 2); TimerFires 0 3000]
           (openChat inventoryProps 0)) = [].
Proof.
  split; [reflexivity |].
  apply (other_agents_never_call_the_service inventoryProps). reflexivity.
Defined.

Lemma market_question_waits_then_answers_from_the_table_witness :
  sendDisabled marketChat = false /\
  isPricingOptimizationQuestion (agentType pricingProps) (inputMessage marketChat) = false /\
  isPricingMarketQuestion (agentType pricingProps) (inputMessage marketChat) = true /\
  trace (step pricingProps (TimerFires 0 34000)
           (step pricingProps (TimerFires 0 31000)
              (step pricingProps (ClickSend 1000 (1 # 2)) marketChat))) = [].
Proof.
  split; [reflexivity |]. split; [reflexivity |]. split; [reflexivity |].
  pose proof (market_question_waits_then_answers_from_the_table pricingProps
                (ClickSend 1000 (1 # 2)) 1000 31000 34000 (1 # 2) marketChat
                (or_introl eq_refl) eq_refl eq_refl eq_refl) as H.
  cbv zeta in H. destruct H as (_ & _ & _ & _ & _ & H). exact H.
Defined.

Lemma regular_question_is_answered_from_the_table_witness :
  sendDisabled (run inventoryProps [QuickAction 0] (openChat inventoryProps 0)) = false /\
  (0 <= 1 # 2 < 1)%Q /\
  isTyping (step inventoryProps (TimerFires 0 3000)
              (step inventoryProps (ClickSend 1000 (1 # 2))
                 (run inventoryProps [QuickAction 0] (openChat inventoryProps 0)))) = false.
Proof.
  split; [reflexivity |].
  assert (R : (0 <= 1 # 2 < 1)%Q) by (unfold Qle, Qlt; simpl; lia).
  split; [exact R |].
  pose proof (regular_question_is_answered_from_the_table inventoryProps
                (ClickSend 1000 (1 # 2)) 1000 3000 (1 # 2)
                (run inventoryProps [QuickAction 0] (openChat inventoryProps 0))
                (or_introl eq_refl) eq_refl eq_refl eq_refl R) as H.
  cbv zeta in H. destruct H as (_ & _ & _ & _ & _ & H & _). exact H.
Defined.

Lemma every_keyword_is_live_witness :
  generateAgentResponse "market" PricingAgent =
  nth 1 (map snd (responses PricingAgent)) undefinedResponse.
Proof.
  apply every_keyword_is_live. vm_compute. right. left. reflexivity.
Defined.

Lemma order_numbers_take_precedence_witness :
  includes (toLowerCase "Where is my ORDER 67890, and 12345?") "12345" = true /\
  Some (generateAgentResponse "Where is my ORDER 67890, and 12345?" CustomerServiceAgent) =
  property "12345" (responses CustomerServiceAgent).
Proof.
  split; [reflexivity |].
  apply (proj1 (order_numbers_take_precedence "Where is my ORDER 67890, and 12345?")).
  reflexivity.
Defined.

Lemma zero_updates_are_reported_as_five_witness :
  average_increase
    (metadata (snd (pricingApplied (Some (mkData (Some 0%Z) (Some (13 # 4))))))) =
  Some (toFixed1 (13 # 4) ++ "%")%string.
Proof.
  apply (proj1 (proj2 (zero_updates_are_reported_as_five
                         (Some (mkData (Some 0%Z) (Some (13 # 4))))))).
  reflexivity.
Defined.

(** The string functions beyond ASCII: the Kelvin sign is lower-cased to
    [k], so a question that spells "market" with it is a market question;
    capital sigma becomes final sigma at the end of a word; a no-break
    space and a byte order mark are trimmed like a space, so an input made
    of them is blank: its send button is disabled and the Enter key sends
    nothing. *)
Remark strings_follow_unicode :
  let kelvin := fromCodePoints [0x212A%Z] in
  let blanks := fromCodePoints [0xA0%Z; 0x2003%Z; 0xFEFF%Z; 0x3000%Z] in
  toLowerCase ("MAR" ++ kelvin ++ "ET") = "market"%string /\
  isPricingMarketQuestion PricingAgent ("How are mar" ++ kelvin ++ "et conditions?") = true /\
  toLowerCase "ΟΔΟΣ ΣΟΦΙΑ" = "οδος σοφια"%string /\
  trim (blanks ++ "ok" ++ blanks) = "ok"%string /\
  sendDisabled (mkState [] blanks false "" [] []) = true /\
  messages (step pricingProps (KeyPressEnter 1000 (1 # 2))
              (mkState [] blanks false "" [] [])) = [].
Proof. vm_compute. repeat split. Qed.

End ChatExtra.
